(** * contact-control.py: scheduling, viewing and cancelling ground-station contacts

    A shallow embedding of the windowing, merging, validation and
    row-reconciliation logic of [contact-control.py], and the properties of
    that logic.

    Conventions of the embedding.
    - A [datetime] of the API is a time-zone aware instant; it is kept as the
      number of whole seconds since the epoch, in UTC.  The program renders
      every instant with [str] and reads it back with
      [strptime "%Y-%m-%d %H:%M:%S%z"], which only works for instants without
      a microsecond part, so one-second resolution is the program's own
      operating domain.  The client gives its datetimes in the local zone;
      this shows in [==] with a datetime in UTC, which is false for a local
      time of a repeated hour ([Datetime.eq_utc]).
    - A [timedelta] is kept as its total number of microseconds; [days],
      [seconds] and [microseconds] are Python's normalised fields.
    - Calls to the ground-station API and [print] are effects: they are
      recorded in a log, and an API call may raise.  An exception is never
      caught by the program, so it ends the run.
    - The answers of the interactive prompts are inputs of the functions,
      and so are the two texts that [get_contact_window] derives from the
      clock.  A prompt with a validator asks again in place; the lines typed
      at the prompts of [get_contact_window], which calls itself, are a
      list.
    - [main()] is one event of the log: a nested run of the root menu,
      after which the caller goes on.
    - A displayed row is its columns joined by ["  --  "]; the program gets
      them back with [split("--")] and [strip()].  A row is kept as the tuple
      of its columns, which is what the split gives as long as no column
      holds ["--"]. *)

From Stdlib Require Import ZArith List String Ascii Bool Lia.
From Stdlib Require Import QArith DecimalString DecimalPos Permutation Sorted.
Import ListNotations.

Local Open Scope string_scope.
Local Open Scope Z_scope.

(** ** Python strings *)

Module PyStr.

(** [str(n)] for an [int]. *)
Definition str_int (n : Z) : string := NilZero.string_of_int (Z.to_int n).

Fixpoint zeros (n : nat) : string :=
  match n with
  | O => EmptyString
  | S k => String "0" (zeros k)
  end.

(** ["%0wd" % n] for a non-negative [n]. *)
Definition zfill (w : nat) (n : Z) : string :=
  let s := str_int n in
  zeros (w - String.length s) ++ s.

(** [s.split(sep)] for a non-empty [sep] (Python raises [ValueError] on an
    empty one; the program only passes the literals ["0:"] and ["/"]).
    [skip] counts the characters of a separator still to be dropped and
    [cur] is the piece being collected. *)
Fixpoint split_from (sep : string) (skip : nat) (cur s : string)
  : list string :=
  match s with
  | EmptyString => [cur]
  | String c s' =>
      match skip with
      | S k => split_from sep k cur s'
      | O =>
          if String.prefix sep s
          then cur :: split_from sep (String.length sep - 1) EmptyString s'
          else split_from sep 0 (cur ++ String c EmptyString) s'
      end
  end.

Definition split (sep s : string) : list string := split_from sep 0 EmptyString s.

Definition is_space (c : ascii) : bool :=
  match nat_of_ascii c with
  | 9%nat | 10%nat | 11%nat | 12%nat | 13%nat | 32%nat => true
  | _ => false
  end.

Fixpoint lstrip (s : string) : string :=
  match s with
  | String c s' => if is_space c then lstrip s' else s
  | EmptyString => EmptyString
  end.

(** [rstrip], by dropping a suffix made only of white space. *)
Fixpoint rstrip (s : string) : string :=
  match s with
  | EmptyString => EmptyString
  | String c s' =>
      match rstrip s' with
      | EmptyString => if is_space c then EmptyString else String c EmptyString
      | r => String c r
      end
  end.

Definition strip (s : string) : string := lstrip (rstrip s).

Definition digit_value (c : ascii) : option Z :=
  let n := Z.of_nat (nat_of_ascii c) in
  if (48 <=? n) && (n <=? 57) then Some (n - 48) else None.

Fixpoint digits_value (acc : Z) (s : string) : option Z :=
  match s with
  | EmptyString => Some acc
  | String c s' =>
      match digit_value c with
      | Some d => digits_value (10 * acc + d) s'
      | None => None
      end
  end.

(** The value of a string of decimal digits, white space around it
    ignored; [None] stands for [ValueError].  This is [float(s)] and
    [int(s)] on the strings the validators let through; Python's [float]
    also reads signs, fractions and exponents, which they rule out. *)
Definition decimal (s : string) : option Z :=
  match strip s with
  | EmptyString => None
  | t => digits_value 0 t
  end.

End PyStr.

(** ** [datetime.timedelta] *)

Module Timedelta.

(** Total microseconds. *)
Definition timedelta := Z.

Definition of_seconds (s : Z) : timedelta := 1000000 * s.
Definition of_minutes (m : Z) : timedelta := 60000000 * m.
Definition of_microseconds (us : Z) : timedelta := us.

(** The normalised fields: [0 <= microseconds < 10^6],
    [0 <= seconds < 86400], [days] of either sign. *)
Definition microseconds (t : timedelta) : Z := t mod 1000000.
Definition seconds (t : timedelta) : Z := (t / 1000000) mod 86400.
Definition days (t : timedelta) : Z := t / 86400000000.

Definition sub (a b : timedelta) : timedelta := a - b.

(** [_divide_and_round]: the nearest integer to [a / b], ties to even. *)
Definition divide_and_round (a b : Z) : Z :=
  let q := a / b in
  let r := 2 * (a mod b) in
  let greater_than_half := if 0 <? b then b <? r else r <? b in
  if greater_than_half || ((r =? b) && (q mod 2 =? 1)) then q + 1 else q.

(** [t / n] for an [int] [n]. *)
Definition truediv (t : timedelta) (n : Z) : timedelta :=
  divide_and_round t n.

(** [str(t)]. *)
Definition str (t : timedelta) : string :=
  let mm := seconds t / 60 in
  let ss := seconds t mod 60 in
  let hh := mm / 60 in
  let mm := mm mod 60 in
  let s := PyStr.str_int hh ++ ":" ++ PyStr.zfill 2 mm ++ ":" ++ PyStr.zfill 2 ss in
  let s :=
    if days t =? 0 then s
    else PyStr.str_int (days t) ++ " day"
         ++ (if Z.abs (days t) =? 1 then EmptyString else "s") ++ ", " ++ s in
  if microseconds t =? 0 then s
  else s ++ "." ++ PyStr.zfill 6 (microseconds t).

End Timedelta.

(** ** [datetime.datetime], in UTC at one-second resolution *)

Module Datetime.

Definition datetime := Z.

(** [d.astimezone(utc).date()], as a day number. *)
Definition date (d : datetime) : Z := d / 86400.

(** [str(d.astimezone(utc)).split(" ")[1]], the time column of a row, as
    the second of the day. *)
Definition time (d : datetime) : Z := d mod 86400.

(** [strptime(date + " " + time, "%Y-%m-%d %H:%M:%S%z")]. *)
Definition strptime_date_time (date time : Z) : datetime :=
  86400 * date + time.

(** [strptime(time, "%H:%M:%S%z")]: the time on the default date,
    1900-01-01, whose day number is [-25567]. *)
Definition default_date : Z := -25567.
Definition strptime_time (time : Z) : datetime :=
  strptime_date_time default_date time.

(** [e - s]. *)
Definition diff (e s : datetime) : Timedelta.timedelta :=
  Timedelta.of_seconds (e - s).

(** [d + t] and [d - t] for a [timedelta] without a microsecond part. *)
Definition add (d : datetime) (t : Timedelta.timedelta) : datetime :=
  d + t / 1000000.
Definition sub (d : datetime) (t : Timedelta.timedelta) : datetime :=
  d - t / 1000000.

(** The local time zone, [tzlocal()]: the client gives the datetimes of its
    answers in it.  The program meets it in [==] only, where all that
    counts is whether the local time of an instant is one of a repeated
    hour (after the clocks are set back), so that its offset depends on
    [fold]. *)
Record tzlocal : Type := {
  is_ambiguous : datetime -> bool
}.

(** [a == b] for [a] in the local zone and [b] in UTC, as [strptime] reads
    it with [%z]: between two zones Python takes a time whose offset
    depends on [fold] to be unequal to every other time, and compares the
    instants otherwise. *)
Definition eq_utc (tz : tzlocal) (a b : datetime) : bool :=
  negb (is_ambiguous tz a) && (a =? b).

End Datetime.

(** ** The regular expressions of the validators *)

Module Regex.

Inductive regex : Type :=
| Lit (c : ascii)                 (* a literal character *)
| Range (lo hi : ascii)           (* [lo-hi] *)
| Cat (r1 r2 : regex)
| Alt (r1 r2 : regex)             (* r1|r2 *)
| Opt (r : regex)                 (* r? *)
| Bol                             (* ^ *)
| Eol.                            (* $ *)

Definition in_range (lo hi c : ascii) : bool :=
  (nat_of_ascii lo <=? nat_of_ascii c)%nat
  && (nat_of_ascii c <=? nat_of_ascii hi)%nat.

Definition newline : ascii := ascii_of_nat 10.

(** [$] holds at the end of the text and just before a final newline. *)
Definition at_end (s : string) : bool :=
  match s with
  | EmptyString => true
  | String c EmptyString => Ascii.eqb c newline
  | _ => false
  end.

(** A backtracking matcher: [run r start s k] tries [r] at the front of
    [s] and hands what is left to [k]; [start] says whether the position is
    the beginning of the text. *)
Fixpoint run (r : regex) (start : bool) (s : string)
         (k : bool -> string -> bool) : bool :=
  match r with
  | Lit c =>
      match s with
      | String c' s' => if Ascii.eqb c c' then k false s' else false
      | EmptyString => false
      end
  | Range lo hi =>
      match s with
      | String c' s' => if in_range lo hi c' then k false s' else false
      | EmptyString => false
      end
  | Cat r1 r2 => run r1 start s (fun start' s' => run r2 start' s' k)
  | Alt r1 r2 => run r1 start s k || run r2 start s k
  | Opt r' => run r' start s k || k start s
  | Bol => if start then k start s else false
  | Eol => if at_end s then k start s else false
  end.

(** [regex.match(r, text)] as a truth value: a match starting at the
    first character, not necessarily reaching the last. *)
Definition match_ (r : regex) (text : string) : bool :=
  run r true text (fun _ _ => true).

End Regex.

(** ** Validators of the prompts *)

Inductive validation : Type :=
| Accepted
| ValidationError (message : string) (cursor_position : nat).

(** ["^[1-8][0-9]?$|^90$"] *)
Definition elevation_regex : Regex.regex :=
  Regex.Alt
    (Regex.Cat Regex.Bol
       (Regex.Cat (Regex.Range "1" "8")
          (Regex.Cat (Regex.Opt (Regex.Range "0" "9")) Regex.Eol)))
    (Regex.Cat Regex.Bol
       (Regex.Cat (Regex.Lit "9") (Regex.Cat (Regex.Lit "0") Regex.Eol))).

Definition ElevationValidator (text : string) : validation :=
  let ok := Regex.match_ elevation_regex text in
  if negb ok
  then ValidationError "Please enter a valid elevation degree value [1-90]"
                       (String.length text)
  else Accepted.

(** ["^[1-9]$|^0[1-9]$|^1[0-9]$|^20$"] *)
Definition duration_regex : Regex.regex :=
  Regex.Alt
    (Regex.Cat Regex.Bol (Regex.Cat (Regex.Range "1" "9") Regex.Eol))
    (Regex.Alt
       (Regex.Cat Regex.Bol
          (Regex.Cat (Regex.Lit "0") (Regex.Cat (Regex.Range "1" "9") Regex.Eol)))
       (Regex.Alt
          (Regex.Cat Regex.Bol
             (Regex.Cat (Regex.Lit "1")
                (Regex.Cat (Regex.Range "0" "9") Regex.Eol)))
          (Regex.Cat Regex.Bol
             (Regex.Cat (Regex.Lit "2") (Regex.Cat (Regex.Lit "0") Regex.Eol))))).

Definition DurationValidator (text : string) : validation :=
  let ok := Regex.match_ duration_regex text in
  if negb ok
  then ValidationError "Please enter a valid contact duration in minutes [1-20]"
                       (String.length text)
  else Accepted.

(** ** The date validator *)

(** A literal text, one of several characters ([[abc]]), and a decimal
    digit, in terms of the constructors of [Regex.regex]. *)
Fixpoint lits (c : ascii) (s : string) : Regex.regex :=
  match s with
  | EmptyString => Regex.Lit c
  | String c' s' => Regex.Cat (Regex.Lit c) (lits c' s')
  end.

Definition lit (s : string) : Regex.regex :=
  match s with
  | EmptyString => Regex.Opt Regex.Bol      (* the empty pattern *)
  | String c s' => lits c s'
  end.

Fixpoint any_of_from (c : ascii) (s : string) : Regex.regex :=
  match s with
  | EmptyString => Regex.Lit c
  | String c' s' => Regex.Alt (Regex.Lit c) (any_of_from c' s')
  end.

Definition any_of (s : string) : Regex.regex :=
  match s with
  | EmptyString => Regex.Cat (Regex.Lit "a") Regex.Bol   (* matches nothing *)
  | String c s' => any_of_from c s'
  end.

Definition digit : Regex.regex := Regex.Range "0" "9".

(** [(18|19|20)] and [(18|19|20)[0-9]{2}] *)
Definition century_regex : Regex.regex :=
  Regex.Alt (lit "18") (Regex.Alt (lit "19") (lit "20")).

Definition year_regex : Regex.regex :=
  Regex.Cat century_regex (Regex.Cat digit digit).

(** [(((18|19|20)(04|08|[2468][048]|[13579][26]))|2000)] *)
Definition leap_year_regex : Regex.regex :=
  Regex.Alt
    (Regex.Cat century_regex
       (Regex.Alt (lit "04")
          (Regex.Alt (lit "08")
             (Regex.Alt (Regex.Cat (any_of "2468") (any_of "048"))
                        (Regex.Cat (any_of "13579") (any_of "26"))))))
    (lit "2000").

(** [[\-.]] *)
Definition separator_regex : Regex.regex := any_of "-.".

(** [(0[13578]|1[02])], [(0[469]|11)] and [(02)] *)
Definition months_31_regex : Regex.regex :=
  Regex.Alt (Regex.Cat (Regex.Lit "0") (any_of "13578"))
            (Regex.Cat (Regex.Lit "1") (any_of "02")).
Definition months_30_regex : Regex.regex :=
  Regex.Alt (Regex.Cat (Regex.Lit "0") (any_of "469")) (lit "11").
Definition february_regex : Regex.regex := lit "02".

(** [(0[1-9]|[12][0-9]|3[01])], [(0[1-9]|[12][0-9]|30)],
    [(0[1-9]|1[0-9]|2[0-8])] and [29] *)
Definition days_31_regex : Regex.regex :=
  Regex.Alt (Regex.Cat (Regex.Lit "0") (Regex.Range "1" "9"))
    (Regex.Alt (Regex.Cat (any_of "12") digit)
               (Regex.Cat (Regex.Lit "3") (any_of "01"))).
Definition days_30_regex : Regex.regex :=
  Regex.Alt (Regex.Cat (Regex.Lit "0") (Regex.Range "1" "9"))
    (Regex.Alt (Regex.Cat (any_of "12") digit) (lit "30")).
Definition days_28_regex : Regex.regex :=
  Regex.Alt (Regex.Cat (Regex.Lit "0") (Regex.Range "1" "9"))
    (Regex.Alt (Regex.Cat (Regex.Lit "1") digit)
               (Regex.Cat (Regex.Lit "2") (Regex.Range "0" "8"))).
Definition day_29_regex : Regex.regex := lit "29".

(** [year[\-.]month[\-.]day] for a pattern of years, one of months and one
    of days. *)
Definition year_month_day (year month day : Regex.regex) : Regex.regex :=
  Regex.Cat year
    (Regex.Cat separator_regex
       (Regex.Cat month (Regex.Cat separator_regex day))).

(** The pattern of [DateValidator], alternative by alternative:
    - [((18|19|20)[0-9]{2}[\-.](0[13578]|1[02])[\-.](0[1-9]|[12][0-9]|3[01]))]
    - [(18|19|20)[0-9]{2}[\-.](0[469]|11)[\-.](0[1-9]|[12][0-9]|30)]
    - [(18|19|20)[0-9]{2}[\-.](02)[\-.](0[1-9]|1[0-9]|2[0-8])]
    - [(((18|19|20)(04|08|[2468][048]|[13579][26]))|2000)[\-.](02)[\-.]29] *)
Definition date_regex : Regex.regex :=
  Regex.Alt
    (year_month_day year_regex months_31_regex days_31_regex)
    (Regex.Alt
       (year_month_day year_regex months_30_regex days_30_regex)
       (Regex.Alt
          (year_month_day year_regex february_regex days_28_regex)
          (year_month_day leap_year_regex february_regex day_29_regex))).

Definition DateValidator (text : string) : validation :=
  let ok := Regex.match_ date_regex text in
  if negb ok
  then ValidationError "Please enter a valid date in the YYYY-MM-DD format"
                       (String.length text)
  else Accepted.

(** ** Data model *)

(** A record of a [contactList]: a pass when its status is AVAILABLE, a
    contact otherwise. *)
Record contact : Type := {
  contactId : string;
  contactStatus : string;
  startTime : Datetime.datetime;
  endTime : Datetime.datetime;
  groundStation : string;
  maximumElevation : Q;             (* maximumElevation["value"], degrees *)
  missionProfileArn : string;
  region : string
}.

(** A choice of a checkbox prompt. *)
Inductive choice (A : Type) : Type :=
| Separator (text : string)
| Choice (name : A).
Arguments Separator {A} text.
Arguments Choice {A} name.

(** A row of [get_pass_details], kept as the columns that [split("--")]
    gives back: the date and the two times as [strptime] reads them (a day
    number, a second of the day), the others as they were rendered. *)
Record pass_row : Type := {
  row_date : Z;
  row_start_time : Z;
  row_end_time : Z;
  row_duration : string;
  row_groundstation : string;
  row_region : string;
  row_elevation : Q
}.

Definition pass_details (_pass : contact) : pass_row :=
  let duration := Datetime.diff (endTime _pass) (startTime _pass) in
  {| row_date := Datetime.date (startTime _pass);
     row_start_time := Datetime.time (startTime _pass);
     row_end_time := Datetime.time (endTime _pass);
     row_duration := Timedelta.str duration;
     row_groundstation := groundStation _pass;
     row_region := region _pass;
     row_elevation := maximumElevation _pass |}.

Definition pass_header : string :=
  "       Date   --    Start time    --     End time     --  Max contact duration  --  Ground station  --  Mission Profile Region  --  Max Elevation (deg.)".

Definition get_pass_details (passes : list contact) : list (choice pass_row) :=
  Separator pass_header :: map (fun _pass => Choice (pass_details _pass)) passes.


(** A satellite and a mission profile, as the service lists them. *)
Module Satellite.
Record t : Type := {
  noradSatelliteID : Z;
  satelliteArn : string
}.
End Satellite.

Module MissionProfile.
Record t : Type := {
  name : string;
  missionProfileArn : string;
  region : string
}.
End MissionProfile.


(** ** The contact time resolver *)

(** The line that [print_selected_contacts] prints. *)
Record selected_contact_details : Type := {
  selected_contact_start_date : Z;
  selected_contact_start_time : Z;
  selected_contact_end_time : Z;
  selected_contact_duration : string;
  selected_contact_groundstation : string;
  selected_contact_region : string;
  selected_contact_elevation : Q
}.

(** [timedelta(minutes=int(contact_seconds / 60))]; [int] of the float
    quotient is the quotient rounded towards zero. *)
Definition contact_duration (contact_seconds : Z) : Timedelta.timedelta :=
  Timedelta.of_minutes (Z.quot contact_seconds 60).

(** The offset of a partial contact from the two time columns of the row:
    half of what the pass has over the contact, its microseconds dropped. *)
Definition contact_offset
    (selected_pass_start_time selected_pass_end_time contact_seconds : Z)
  : Timedelta.timedelta :=
  let pass_duration :=
    Datetime.diff (Datetime.strptime_time selected_pass_end_time)
                  (Datetime.strptime_time selected_pass_start_time) in
  (* schedule contact in the middle of the pass *)
  let contact_offset :=
    Timedelta.truediv
      (Timedelta.sub pass_duration (contact_duration contact_seconds)) 2 in
  Timedelta.sub contact_offset
    (Timedelta.of_microseconds (Timedelta.microseconds contact_offset)).

(** [print_selected_contacts]: the printed line, and the returned start,
    end and ground station of the reservation. *)
Definition print_selected_contacts
    (selected_pass : pass_row) (whole_duration_answer : bool)
    (contact_seconds : Z)
  : selected_contact_details
    * (Datetime.datetime * Datetime.datetime * string) :=
  let start_date := row_date selected_pass in
  let selected_pass_start_time := row_start_time selected_pass in
  let selected_pass_end_time := row_end_time selected_pass in
  let groundstation := PyStr.strip (row_groundstation selected_pass) in
  let region := PyStr.strip (row_region selected_pass) in
  let elevation := row_elevation selected_pass in
  let '(start_time, start_datetime, end_time, end_datetime, duration) :=
    if whole_duration_answer then
      let start_time := selected_pass_start_time in
      let start_datetime := Datetime.strptime_date_time start_date start_time in
      let end_datetime :=
        Datetime.strptime_date_time start_date selected_pass_end_time in
      let end_time := Datetime.time end_datetime in
      (start_time, start_datetime, end_time, end_datetime,
       PyStr.strip (row_duration selected_pass))
    else
      let contact_offset :=
        contact_offset selected_pass_start_time selected_pass_end_time
                       contact_seconds in
      let start_time :=
        Datetime.time
          (Datetime.add (Datetime.strptime_time selected_pass_start_time)
                        contact_offset) in
      let start_datetime := Datetime.strptime_date_time start_date start_time in
      let end_time :=
        Datetime.time
          (Datetime.sub (Datetime.strptime_time selected_pass_end_time)
                        contact_offset) in
      let end_datetime := Datetime.strptime_date_time start_date end_time in
      (start_time, start_datetime, end_time, end_datetime,
       Timedelta.str (contact_duration contact_seconds)) in
  ({| selected_contact_start_date := start_date;
      selected_contact_start_time := start_time;
      selected_contact_end_time := end_time;
      selected_contact_duration := duration;
      selected_contact_groundstation := groundstation;
      selected_contact_region := region;
      selected_contact_elevation := elevation |},
   (start_datetime, end_datetime, groundstation)).


(** ** Python lists *)

Module PyList.

Section Sort.
Context {A : Type} (key : A -> Z).

(** [l.sort(key=key)] is a stable sort, so its result is determined by the
    keys and the order of [l]: each element goes in front of the elements
    that followed it in [l] and have the same key. *)
Fixpoint insert (x : A) (l : list A) : list A :=
  match l with
  | [] => [x]
  | y :: l' => if key x <=? key y then x :: y :: l' else y :: insert x l'
  end.

Fixpoint sort (l : list A) : list A :=
  match l with
  | [] => []
  | x :: l' => insert x (sort l')
  end.

End Sort.

(** The largest element of a non-empty list, the first one among equals. *)
Fixpoint max_from (m : Z) (l : list Z) : Z :=
  match l with
  | [] => m
  | x :: l' => max_from (if m <? x then x else m) l'
  end.

End PyList.

(** ** Effects: exceptions, the API and the output *)

Inductive exn : Type :=
| ValueError
| IndexError
| UnboundLocalError
| RecursionError
| ClientError                       (* a fault reported by the API *)
| EndOfInput.        (* a prompt that gets no answer: the run stops there *)

Inductive result (A : Type) : Type :=
| Ok (a : A)
| Raise (e : exn).
Arguments Ok {A} a.
Arguments Raise {A} e.

Definition result_bind {A B : Type} (r : result A) (k : A -> result B)
  : result B :=
  match r with
  | Ok a => k a
  | Raise e => Raise e
  end.

(** [float(s)] on the answers of the prompts. *)
Definition py_float (s : string) : result Z :=
  match PyStr.decimal s with
  | Some n => Ok n
  | None => Raise ValueError
  end.

(** [l[i]]. *)
Definition index {A : Type} (l : list A) (i : nat) : result A :=
  match nth_error l i with
  | Some a => Ok a
  | None => Raise IndexError
  end.

(** [max(l)]. *)
Definition py_max (l : list Z) : result Z :=
  match l with
  | [] => Raise ValueError
  | x :: l' => Ok (PyList.max_from x l')
  end.

(** Reading a local variable that may not have been assigned. *)
Definition read_local {A : Type} (v : option A) : result A :=
  match v with
  | Some a => Ok a
  | None => Raise UnboundLocalError
  end.

Record list_contacts_request : Type := {
  req_endTime : string;
  req_groundStation : string;
  req_maxResults : Z;
  req_missionProfileArn : string;
  req_satelliteArn : string;
  req_startTime : string;
  req_statusList : list string
}.

(** A line of [view_contact] and [cancel_contact]. *)
Record contact_row : Type := {
  crow_date : Z;
  crow_start_time : Z;
  crow_end_time : Z;
  crow_duration : string;
  crow_groundstation : string;
  crow_mission_profile_name : string;
  crow_region : string;
  crow_elevation : Q;
  crow_status : string;
  crow_contactId : string
}.

Inductive output : Type :=
| Text (s : string)
| SelectedContact (d : selected_contact_details)
| ContactLine (r : contact_row)
| SuitablePasses (count : nat) (minimum_elevation : Z)
                 (contact_seconds : option Z)
| NoAvailablePasses (minimum_elevation : Z) (minutes : Z)
| LongestPass (text : string)
| ScheduledContactId (contact_Id : string)
| CanceledContactId (contact_Id : string).

Inductive event : Type :=
| ListSatellites
| ListMissionProfiles
| ListGroundStations (satelliteId : string)
| ListContacts (req : list_contacts_request)
| GetMissionProfile (missionProfileId : string)
| ReserveContact (endTime : Datetime.datetime) (groundStation : string)
                 (missionProfileArn satelliteArn : string)
                 (startTime : Datetime.datetime)
| CancelContact (contactId : string)
| Print (o : output)
| Main.       (* main(): a nested run of the root menu, then control returns *)

(** The ground-station client.  What a call answers may depend on
    everything that happened before it, which the log holds.  The ground
    stations are listed by name; [tzinfo] is the zone in which the client
    gives the datetimes of its answers. *)
Module GroundStation.

Record client : Type := {
  list_satellites : list event -> result (list Satellite.t);
  list_mission_profiles : list event -> result (list MissionProfile.t);
  list_ground_stations : list event -> string -> result (list string);
  list_contacts :
    list event -> list_contacts_request -> result (list contact);
  get_mission_profile : list event -> string -> result string;
  reserve_contact :
    list event -> Datetime.datetime -> string -> string -> string
    -> Datetime.datetime -> result string;
  cancel_contact : list event -> string -> result string;
  tzinfo : Datetime.tzlocal
}.

End GroundStation.

(** A computation reads the log, extends it, and returns or raises. *)
Definition M (A : Type) : Type := list event -> list event * result A.

Definition ret {A : Type} (a : A) : M A := fun log => (log, Ok a).

Definition bind {A B : Type} (c : M A) (k : A -> M B) : M B :=
  fun log =>
    match c log with
    | (log', Ok a) => k a log'
    | (log', Raise e) => (log', Raise e)
    end.

Definition lift {A : Type} (r : result A) : M A := fun log => (log, r).

Definition emit (e : event) : M unit := fun log => ((log ++ [e])%list, Ok tt).

Definition call {A : Type} (e : event) (answer : list event -> result A)
  : M A :=
  fun log => ((log ++ [e])%list, answer log).

Definition print (o : output) : M unit := emit (Print o).

Definition main : M unit := emit Main.

Declare Scope prog_scope.
Delimit Scope prog_scope with prog.
Notation "x <- c ;; k" := (bind c (fun x => k))
  (at level 61, c at next level, right associativity) : prog_scope.
Notation "' p <- c ;; k" := (bind c (fun p => k))
  (at level 61, p pattern, c at next level, right associativity) : prog_scope.
Notation "c ;; k" := (bind c (fun _ => k))
  (at level 61, right associativity) : prog_scope.

Local Open Scope prog_scope.

(** [for x in l: body x] *)
Fixpoint for_each {A : Type} (l : list A) (body : A -> M unit) : M unit :=
  match l with
  | [] => ret tt
  | x :: l' => body x ;; for_each l' body
  end.

(** A [for] loop that appends one result per element to a list. *)
Fixpoint for_collect {A B : Type} (l : list A) (body : A -> M B)
  : M (list B) :=
  match l with
  | [] => ret []
  | x :: l' => y <- body x ;; ys <- for_collect l' body ;; ret (y :: ys)
  end.

(** The cancellation calls of a log, in order. *)
Fixpoint cancellations (log : list event) : list string :=
  match log with
  | [] => []
  | CancelContact contactId :: log' => contactId :: cancellations log'
  | _ :: log' => cancellations log'
  end.

(** The printed lines of a log, in order. *)
Fixpoint printed (log : list event) : list output :=
  match log with
  | [] => []
  | Print o :: log' => o :: printed log'
  | _ :: log' => printed log'
  end.

(** ** The contact window *)

(** [get_contact_window] reads answers at two prompts, writes the two
    globals [pass_window_start] and [pass_window_end], prints, and calls
    itself when an answer is turned down.  The state holds the lines still
    to be typed, the two globals and what was printed. *)
Record window_state : Type := {
  answers : list string;
  pass_window_start : string;
  pass_window_end : string;
  window_output : list string
}.

(** How a call ends: it returns (the pair of globals is its value), or a
    prompt is left without an answer, or a local is read unassigned. *)
Inductive window_end : Type :=
| Returns (st : window_state)
| Unanswered (st : window_state)
| Unassigned (st : window_state).

(** A prompt with [DateValidator]: an answer that the validator turns down
    is asked again in place. *)
Fixpoint prompt_date (lines : list string) : option (string * list string) :=
  match lines with
  | [] => None
  | line :: rest =>
      match DateValidator line with
      | Accepted => Some (line, rest)
      | ValidationError _ _ => prompt_date rest
      end
  end.

Definition window_print (message : string) (st : window_state)
  : window_state :=
  {| answers := answers st;
     pass_window_start := pass_window_start st;
     pass_window_end := pass_window_end st;
     window_output := (window_output st ++ [message])%list |}.

(** Go on with [k] when a call returned. *)
Definition window_then (r : option window_end)
    (k : window_state -> option window_end) : option window_end :=
  match r with
  | Some (Returns st) => k st
  | other => other
  end.

(** [if cond: print(message); get_contact_window(direction)]: what the
    nested call returns is dropped, what it did to the state stays. *)
Definition try_again (again : window_state -> option window_end)
    (cond : window_state -> bool) (message : string) (st : window_state)
  : option window_end :=
  if cond st then again (window_print message st) else Some (Returns st).

Definition prompt_start (st : window_state) : option window_end :=
  match prompt_date (answers st) with
  | None =>
      Some (Unanswered {| answers := [];
                          pass_window_start := pass_window_start st;
                          pass_window_end := pass_window_end st;
                          window_output := window_output st |})
  | Some (line, rest) =>
      Some (Returns {| answers := rest;
                       pass_window_start := line;
                       pass_window_end := pass_window_end st;
                       window_output := window_output st |})
  end.

Definition prompt_end (st : window_state) : option window_end :=
  match prompt_date (answers st) with
  | None =>
      Some (Unanswered {| answers := [];
                          pass_window_start := pass_window_start st;
                          pass_window_end := pass_window_end st;
                          window_output := window_output st |})
  | Some (line, rest) =>
      Some (Returns {| answers := rest;
                       pass_window_start := pass_window_start st;
                       pass_window_end := line;
                       window_output := window_output st |})
  end.

Definition past_message : string :=
  "The start date cannot be in the past. Try again.".
Definition advance_message : string :=
  "On demand contacts can only be booked 7 days in advance. Try again.".
Definition order_message : string :=
  "The start date has to be before the end date. Try again.".

(** [get_contact_window(direction)], with the two texts that it derives
    from the clock: [today] and, six days later, [scheduling_window_end].
    [fuel] bounds the depth of the nested calls; [None] is its
    exhaustion. *)
Fixpoint get_contact_window_fuel (fuel : nat) (direction : string)
    (today scheduling_window_end : string) (st : window_state)
  : option window_end :=
  match fuel with
  | O => None
  | S fuel' =>
      let again :=
        get_contact_window_fuel fuel' direction today scheduling_window_end in
      let future := String.eqb direction "future" in
      if negb (future || String.eqb direction "all")
      then Some (Unassigned st)      (* scheduling_window_start_date *)
      else
        window_then (prompt_start st) (fun st =>
        window_then
          (if future then
             window_then
               (try_again again
                  (fun st => String.ltb (pass_window_start st) today)
                  past_message st)
               (try_again again
                  (fun st =>
                     String.ltb scheduling_window_end (pass_window_start st))
                  advance_message)
           else Some (Returns st)) (fun st =>
        window_then (prompt_end st) (fun st =>
        window_then
          (try_again again
             (fun st =>
                String.leb (pass_window_end st) (pass_window_start st))
             order_message st) (fun st =>
        if future then
          try_again again
            (fun st => String.ltb scheduling_window_end (pass_window_end st))
            advance_message st
        else Some (Returns st)))))
  end.

(** A nested call follows a prompt that took an answer, so one more than
    the number of lines is depth enough. *)
Definition get_contact_window (direction : string)
    (today scheduling_window_end : string) (st : window_state)
  : option window_end :=
  get_contact_window_fuel (S (List.length (answers st))) direction today
    scheduling_window_end st.

Definition state_of (r : window_end) : window_state :=
  match r with
  | Returns st | Unanswered st | Unassigned st => st
  end.

(** A window for a reservation: both dates passed the validator, the start
    is not before today, the end is after the start and not after the end
    of the scheduling window, in the order of Python on strings. *)
Definition future_window (today scheduling_window_end : string)
    (st : window_state) : Prop :=
  DateValidator (pass_window_start st) = Accepted
  /\ DateValidator (pass_window_end st) = Accepted
  /\ String.ltb (pass_window_start st) today = false
  /\ String.ltb scheduling_window_end (pass_window_start st) = false
  /\ String.leb (pass_window_end st) (pass_window_start st) = false
  /\ String.ltb scheduling_window_end (pass_window_end st) = false.

(** A window for viewing: both dates passed the validator and the end is
    after the start. *)
Definition any_window (st : window_state) : Prop :=
  DateValidator (pass_window_start st) = Accepted
  /\ DateValidator (pass_window_end st) = Accepted
  /\ String.leb (pass_window_end st) (pass_window_start st) = false.

Definition typing (lines : list string) : window_state :=
  {| answers := lines;
     pass_window_start := EmptyString;
     pass_window_end := EmptyString;
     window_output := [] |}.

(** A call that ended with at most [n] lines left to type. *)
Definition within (n : nat) (r : option window_end) : Prop :=
  exists e, r = Some e /\ (List.length (answers (state_of e)) <= n)%nat.


(** [get_contact_window(direction)] as a step of a run: what it printed goes
    to the log and the two dates are returned.  A prompt without an answer
    ends the run; the last case does not arise, since one more nested call
    than there are lines is never needed. *)
Definition window_prints (st : window_state) : list event :=
  map (fun message => Print (Text message)) (window_output st).

Definition ask_contact_window (direction today scheduling_window_end : string)
    (lines : list string) : M (string * string) :=
  fun log =>
    match get_contact_window direction today scheduling_window_end
            (typing lines) with
    | Some (Returns st) =>
        ((log ++ window_prints st)%list,
         Ok (pass_window_start st, pass_window_end st))
    | Some (Unanswered st) =>
        ((log ++ window_prints st)%list, Raise EndOfInput)
    | Some (Unassigned st) =>
        ((log ++ window_prints st)%list, Raise UnboundLocalError)
    | None => (log, Raise RecursionError)
    end.

(** ** The selector stage: satellites, mission profiles, ground stations *)

(** [sep in s]. *)
Fixpoint occurs (sep s : string) : bool :=
  String.prefix sep s
  || match s with
     | EmptyString => false
     | String _ s' => occurs sep s'
     end.

Fixpoint spaces (n : nat) : string :=
  match n with
  | O => EmptyString
  | S k => String " " (spaces k)
  end.

(** [s.ljust(w)]. *)
Definition ljust (w : nat) (s : string) : string :=
  s ++ spaces (w - String.length s).

(** [int(s)] for a decimal numeral with an optional minus sign, white space
    around it ignored.  Python's [int] also reads a plus sign and
    underscores between digits, which no text made by [str] has. *)
Definition py_int (s : string) : result Z :=
  match PyStr.strip s with
  | EmptyString => Raise ValueError
  | String "-" EmptyString => Raise ValueError
  | String "-" t =>
      match PyStr.digits_value 0 t with
      | Some n => Ok (- n)
      | None => Raise ValueError
      end
  | t =>
      match PyStr.digits_value 0 t with
      | Some n => Ok n
      | None => Raise ValueError
      end
  end.

(** The loop of [get_satellite_arn]: it stops at the first satellite with
    the number. *)
Fixpoint first_satellite_arn (satellites : list Satellite.t) (norad_ID : Z)
  : string :=
  match satellites with
  | [] => EmptyString
  | satellite :: rest =>
      if Satellite.noradSatelliteID satellite =? norad_ID
      then Satellite.satelliteArn satellite
      else first_satellite_arn rest norad_ID
  end.

Definition get_satellite_arn (gs_client : GroundStation.client)
    (norad_ID : Z) : M string :=
  satellite_list <-
    call ListSatellites (GroundStation.list_satellites gs_client) ;;
  let satellite_arn := first_satellite_arn satellite_list norad_ID in
  (if String.eqb satellite_arn EmptyString
   then print (Text "Not a valid NORAD ID")
   else ret tt) ;;
  ret satellite_arn.

(** The loop of [get_mission_profile_arn]. *)
Fixpoint first_profile_arn (profiles : list MissionProfile.t)
    (profile_name : string) : string :=
  match profiles with
  | [] => EmptyString
  | profile :: rest =>
      if String.eqb (MissionProfile.name profile) profile_name
      then MissionProfile.missionProfileArn profile
      else first_profile_arn rest profile_name
  end.

Definition get_mission_profile_arn (gs_client : GroundStation.client)
    (profile_name : string) : M string :=
  mission_profile_list <-
    call ListMissionProfiles
         (GroundStation.list_mission_profiles gs_client) ;;
  let profile_arn := first_profile_arn mission_profile_list profile_name in
  (if String.eqb profile_arn EmptyString
   then print (Text "Not a valid profile name")
   else ret tt) ;;
  ret profile_arn.

Definition get_satellite_list (gs_client : GroundStation.client)
  : M (list string) :=
  responce <-
    call ListSatellites (GroundStation.list_satellites gs_client) ;;
  satellite_list <-
    match responce with
    | _ :: _ =>
        ret (map (fun satellite =>
                    PyStr.str_int (Satellite.noradSatelliteID satellite))
                 responce)
    | [] =>
        print (Text "No onboarded satellites in the region.") ;;
        main ;;
        ret []
    end ;;
  ret (satellite_list ++ ["Exit"])%list.

Definition profile_header : string :=
  "               Name             --   Region      ".

Definition mission_profile_details (profile : MissionProfile.t) : string :=
  ljust 30 (MissionProfile.name profile) ++ "  --  "
  ++ MissionProfile.region profile.

Definition get_mission_profile_list (gs_client : GroundStation.client)
  : M (list (choice string)) :=
  responce <-
    call ListMissionProfiles
         (GroundStation.list_mission_profiles gs_client) ;;
  let mission_profile_list := [Separator profile_header] in
  mission_profile_list <-
    match responce with
    | _ :: _ =>
        ret (mission_profile_list
             ++ map (fun profile => Choice (mission_profile_details profile))
                    responce)%list
    | [] =>
        print (Text "No available mission profiles in this region.") ;;
        main ;;
        ret mission_profile_list
    end ;;
  ret (mission_profile_list ++ [Choice "Exit"])%list.

(** The third argument, the region, is not used. *)
Definition get_onboarded_ground_stations (gs_client : GroundStation.client)
    (satellite_id region : string) : M (list (choice string)) :=
  responce <-
    call (ListGroundStations satellite_id)
         (fun log =>
            GroundStation.list_ground_stations gs_client log satellite_id) ;;
  match responce with
  | _ :: _ => ret (map Choice responce)
  | [] =>
      print (Text "No onboarded ground stations for this mission profile.") ;;
      main ;;
      ret []
  end.

(** The answers at the three prompts of [get_contacts]. *)
Record selector_answers : Type := {
  satellite_NORAD_ID_answer : string;
  mission_profile_name_answer : string;
  checkbox_selected_groundstations : list string
}.

(** [get_contacts], up to the contact window: the mission profile ARN, the
    satellite ARN and the ground stations that the requests are made
    with. *)
Definition get_contacts_selector (gs_client : GroundStation.client)
    (ans : selector_answers) : M (string * string * list string) :=
  get_satellite_list gs_client ;;
  let satellite_answer := satellite_NORAD_ID_answer ans in
  (if String.eqb satellite_answer "Exit"
   then print (Text "No satellite selected. Exiting to main menu.") ;; main
   else ret tt) ;;
  satellite_NORAD_ID <- lift (py_int satellite_answer) ;;
  get_mission_profile_list gs_client ;;
  let profile_answer := mission_profile_name_answer ans in
  (if String.eqb profile_answer "Exit"
   then print (Text "No mission profile selected. Exiting to main menu.") ;;
        main
   else ret tt) ;;
  piece <- lift (index (PyStr.split "--" profile_answer) 0) ;;
  let mission_profile_name := PyStr.strip piece in
  piece <- lift (index (PyStr.split "--" profile_answer) 1) ;;
  let mission_profile_region := PyStr.strip piece in
  mission_profile_arn <-
    get_mission_profile_arn gs_client mission_profile_name ;;
  satellite_arn <- get_satellite_arn gs_client satellite_NORAD_ID ;;
  satellite_id <- lift (index (PyStr.split "/" satellite_arn) 1) ;;
  get_onboarded_ground_stations gs_client satellite_id
    mission_profile_region ;;
  let selected_groundstations := checkbox_selected_groundstations ans in
  (match selected_groundstations with
   | [] => print (Text "No ground station selected. Exiting to main menu.") ;;
           main
   | _ :: _ => ret tt
   end) ;;
  ret (mission_profile_arn, satellite_arn, selected_groundstations).

(** ** The query stage *)

(** What [get_contacts] resolves from the prompts before it asks for the
    lists: the mission profile, the satellite, the chosen ground stations
    and the two dates of the contact window. *)
Record selection : Type := {
  mission_profile_arn : string;
  satellite_arn : string;
  selected_groundstations : list string;
  pass_window_start_date : string;
  pass_window_end_date : string
}.

(** What the user and the clock give to a call of [get_contacts]: the
    answers of the selector stage, the text of today's date and of the date
    six days later, and the lines typed at the prompts of
    [get_contact_window]. *)
Record contacts_answers : Type := {
  selector : selector_answers;
  clock_today : string;
  clock_scheduling_window_end : string;
  contact_window_lines : list string
}.

(** [any("AVAILABLE" in c for c in contact_type)] picks the direction. *)
Definition contact_window_direction (contact_type : list string) : string :=
  if existsb (occurs "AVAILABLE") contact_type then "future" else "all".

(** [get_contacts], up to [all_passes = []]. *)
Definition get_contacts_selection (gs_client : GroundStation.client)
    (ans : contacts_answers) (contact_type : list string) : M selection :=
  '(mission_profile_arn, satellite_arn, selected_groundstations) <-
    get_contacts_selector gs_client (selector ans) ;;
  '(pass_window_start_date, pass_window_end_date) <-
    ask_contact_window (contact_window_direction contact_type)
      (clock_today ans) (clock_scheduling_window_end ans)
      (contact_window_lines ans) ;;
  ret {| mission_profile_arn := mission_profile_arn;
         satellite_arn := satellite_arn;
         selected_groundstations := selected_groundstations;
         pass_window_start_date := pass_window_start_date;
         pass_window_end_date := pass_window_end_date |}.

Definition pass_number : Z := 100.

(** The flattening and the sort of [get_contacts]. *)
Definition flat_passes (all_passes : list (list contact)) : list contact :=
  PyList.sort startTime (List.concat all_passes).

(** [get_contacts], from [all_passes = []] on. *)
Definition fetch_passes (gs_client : GroundStation.client) (sel : selection)
    (contact_type : list string) : M (list contact * string * string) :=
  all_passes <-
    for_collect (selected_groundstations sel) (fun ground_station =>
      let req :=
        {| req_endTime := pass_window_end_date sel;
           req_groundStation := ground_station;
           req_maxResults := pass_number;
           req_missionProfileArn := mission_profile_arn sel;
           req_satelliteArn := satellite_arn sel;
           req_startTime := pass_window_start_date sel;
           req_statusList := contact_type |} in
      call (ListContacts req)
           (fun log => GroundStation.list_contacts gs_client log req)) ;;
  ret (flat_passes all_passes, mission_profile_arn sel, satellite_arn sel).

Definition get_contacts (gs_client : GroundStation.client)
    (ans : contacts_answers) (contact_type : list string)
  : M (list contact * string * string) :=
  sel <- get_contacts_selection gs_client ans contact_type ;;
  fetch_passes gs_client sel contact_type.

Definition get_mission_profile_name (gs_client : GroundStation.client)
    (mission_profile_arn : string) : M string :=
  mission_profile_id <- lift (index (PyStr.split "/" mission_profile_arn) 1) ;;
  call (GetMissionProfile mission_profile_id)
       (fun log =>
          GroundStation.get_mission_profile gs_client log mission_profile_id).

(** ** The windowing stage *)

(** The loop [for _pass in pass_list] of [schedule_contact], on its two
    lists.  [contact_seconds] is only assigned when the whole pass is not
    asked for. *)
Fixpoint window_filter (pass_list : list contact) (minimum_elevation : Z)
    (whole_duration_answer : bool) (contact_seconds : option Z)
    (suitable_passes : list contact)
    (pass_duration_list : list Timedelta.timedelta)
  : result (list contact * list Timedelta.timedelta) :=
  match pass_list with
  | [] => Ok (suitable_passes, pass_duration_list)
  | _pass :: rest =>
      if Qle_bool (inject_Z minimum_elevation) (maximumElevation _pass) then
        let pass_duration := Datetime.diff (endTime _pass) (startTime _pass) in
        let pass_duration_list := (pass_duration_list ++ [pass_duration])%list in
        if whole_duration_answer then
          window_filter rest minimum_elevation whole_duration_answer
            contact_seconds (suitable_passes ++ [_pass])%list pass_duration_list
        else
          result_bind (read_local contact_seconds) (fun seconds =>
            if negb whole_duration_answer
               && (seconds <? Timedelta.seconds pass_duration)
            then
              window_filter rest minimum_elevation whole_duration_answer
                contact_seconds (suitable_passes ++ [_pass])%list
                pass_duration_list
            else
              window_filter rest minimum_elevation whole_duration_answer
                contact_seconds suitable_passes pass_duration_list)
      else
        window_filter rest minimum_elevation whole_duration_answer
          contact_seconds suitable_passes pass_duration_list
  end.

(** The branch of [schedule_contact] taken when no pass is suitable. *)
Definition no_available_passes (minimum_elevation : Z)
    (contact_seconds : option Z)
    (pass_duration_list : list Timedelta.timedelta) : M unit :=
  seconds <- lift (read_local contact_seconds) ;;
  print (NoAvailablePasses minimum_elevation (Z.quot seconds 60)) ;;
  longest <- lift (py_max pass_duration_list) ;;
  text <- lift (index (PyStr.split "0:" (Timedelta.str longest)) 1) ;;
  print (LongestPass text).

Record schedule_answers : Type := {
  minimum_elevation_answer : string;
  whole_duration : bool;
  contact_minutes_answer : string;
  checkbox_selected_passes : list pass_row;
  schedule_continue : bool
}.

(** The banner lines; each starts with a newline in the source. *)
Definition banner (text : string) : string := String Regex.newline text.

Definition listing_selected_contacts : string :=
  banner "=============================================================Listing selected contacts===============================================================================".

Definition listing_contacts : string :=
  banner "====================================================================================================Listing contacts=================================================================================================================".

Definition listing_contacts_to_cancel : string :=
  banner "=============================================================================================Listing contacts to cancel============================================================================================================".

Definition contact_header : string :=
  "     Date   --    Start time    --     End time     --  Duration  --  Ground station  --  Mission Profile Name  --  Mission Profile Region  --  Max Elevation (deg.)  -- Contact Status     -- Contact ID".

Definition selected_header : string :=
  "     Date   --    Start time    --     End time     --  Duration  --  Ground station  --  Mission Profile Region  --  Max Elevation (deg.)".

(** The body of the loop of [schedule_contact] that schedules the selected
    passes. *)
Definition schedule_selected_pass (gs_client : GroundStation.client)
    (mission_profile_arn satellite_arn : string)
    (whole_duration_answer : bool) (contact_seconds : Z)
    (selected_pass : pass_row) : M unit :=
  print (Text "Scheduling contact") ;;
  print (Text selected_header) ;;
  let '(details, (start_datetime, end_datetime, groundstation)) :=
    print_selected_contacts selected_pass whole_duration_answer
      contact_seconds in
  print (SelectedContact details) ;;
  (* Canceling on demand contacts incurs their full cost! *)
  contact_Id <-
    call (ReserveContact end_datetime groundstation
            mission_profile_arn satellite_arn start_datetime)
         (fun log =>
            GroundStation.reserve_contact gs_client log end_datetime
              groundstation mission_profile_arn satellite_arn
              start_datetime) ;;
  print (ScheduledContactId contact_Id).

Definition schedule_contact (gs_client : GroundStation.client)
    (asked : contacts_answers) (ans : schedule_answers) : M unit :=
  '(pass_list, mission_profile_arn, satellite_arn) <-
    get_contacts gs_client asked ["AVAILABLE"] ;;
  minimum_elevation <- lift (py_float (minimum_elevation_answer ans)) ;;
  let whole_duration_answer := whole_duration ans in
  contact_seconds <-
    (if negb whole_duration_answer then
       print (Text "Contacts shorter than the complete pass are scheduled in the middle of the contact window to maximize elevation.") ;;
       minutes <- lift (py_float (contact_minutes_answer ans)) ;;
       ret (Some (60 * minutes))
     else ret None) ;;
  '(suitable_passes, pass_duration_list) <-
    lift (window_filter pass_list minimum_elevation whole_duration_answer
            contact_seconds [] []) ;;
  match suitable_passes with
  | _ :: _ =>
      contact_seconds <-
        (if whole_duration_answer then
           print (SuitablePasses (List.length suitable_passes)
                                 minimum_elevation None) ;;
           ret 0
         else
           seconds <- lift (read_local contact_seconds) ;;
           print (SuitablePasses (List.length suitable_passes)
                                 minimum_elevation (Some seconds)) ;;
           ret seconds) ;;
      (* the checkbox offers [get_pass_details suitable_passes] *)
      let selected_passes := checkbox_selected_passes ans in
      (match selected_passes with
       | [] => print (Text "No passed selected. Exiting to main menu.") ;; main
       | _ :: _ => ret tt
       end) ;;
      print (Text listing_selected_contacts) ;;
      print (Text selected_header) ;;
      for_each selected_passes (fun selected_pass =>
        print (SelectedContact
                 (fst (print_selected_contacts selected_pass
                         whole_duration_answer contact_seconds)))) ;;
      if schedule_continue ans then
        for_each selected_passes
          (schedule_selected_pass gs_client mission_profile_arn satellite_arn
             whole_duration_answer contact_seconds) ;;
        main
      else
        print (Text "No contacts scheduled. Exiting to main menu.") ;;
        main
  | [] => no_available_passes minimum_elevation contact_seconds
                              pass_duration_list
  end.

(** ** The action stage: viewing and cancelling *)

(** The line built from a record and the name of its mission profile. *)
Definition contact_details (contact : contact) (mission_profile_name : string)
  : contact_row :=
  let duration := Datetime.diff (endTime contact) (startTime contact) in
  {| crow_date := Datetime.date (startTime contact);
     crow_start_time := Datetime.time (startTime contact);
     crow_end_time := Datetime.time (endTime contact);
     crow_duration := Timedelta.str duration;
     crow_groundstation := groundStation contact;
     crow_mission_profile_name := mission_profile_name;
     crow_region := region contact;
     crow_elevation := maximumElevation contact;
     crow_status := contactStatus contact;
     crow_contactId := contactId contact |}.

Definition all_statuses : list string :=
  ["SCHEDULED"; "SCHEDULING"; "FAILED_TO_SCHEDULE"; "AWS_CANCELLED";
   "CANCELLED"; "COMPLETED"; "FAILED"; "AWS_CANCELLED"; "AWS_FAILED";
   "CANCELLED"; "FAILED_TO_SCHEDULE"].

Definition view_contact (gs_client : GroundStation.client)
    (asked : contacts_answers) (cancel : bool)
  : M (list contact_row * list contact) :=
  '(responce, _, _) <-
    get_contacts gs_client asked
      (if cancel then ["SCHEDULED"] else all_statuses) ;;
  match responce with
  | _ :: _ =>
      print (Text listing_contacts) ;;
      print (Text contact_header) ;;
      scheduled_contacts <-
        for_collect responce (fun contact =>
          mission_profile_name <-
            get_mission_profile_name gs_client (missionProfileArn contact) ;;
          let details := contact_details contact mission_profile_name in
          print (ContactLine details) ;;
          ret details) ;;
      print (Text EmptyString) ;;
      ret (scheduled_contacts, responce)
  | [] =>
      print (Text (banner "No scheduled contacts with specified parameters."
                    ++ String Regex.newline EmptyString)) ;;
      ret ([], responce)
  end.

(** The timestamp that [cancel_contact] reads back from a selected line. *)
Definition target_contact_start_datetime (target_contact : contact_row)
  : Datetime.datetime :=
  Datetime.strptime_date_time (crow_date target_contact)
                              (crow_start_time target_contact).

(** The [if] of the first inner loop: print the line of a record whose
    start, a datetime of the client, is [==] to [target], the timestamp read
    from the line. *)
Definition list_record (gs_client : GroundStation.client)
    (target : Datetime.datetime) (contact : contact) : M unit :=
  if Datetime.eq_utc (GroundStation.tzinfo gs_client) (startTime contact)
       target then
    mission_profile_name <-
      get_mission_profile_name gs_client (missionProfileArn contact) ;;
    print (ContactLine (contact_details contact mission_profile_name))
  else ret tt.

(** The body of the first loop over the selected lines: list them. *)
Definition list_target (gs_client : GroundStation.client)
    (responce : list contact) (target_contact : contact_row) : M unit :=
  for_each responce
    (list_record gs_client (target_contact_start_datetime target_contact)).

(** The [if] of the second inner loop: cancel a record whose start is
    [==] to [target]. *)
Definition cancel_record (gs_client : GroundStation.client)
    (target : Datetime.datetime) (contact : contact) : M unit :=
  if Datetime.eq_utc (GroundStation.tzinfo gs_client) (startTime contact)
       target then
    let contact_Id := contactId contact in
    mission_profile_name <-
      get_mission_profile_name gs_client (missionProfileArn contact) ;;
    print (Text "Cancelling contact") ;;
    print (Text contact_header) ;;
    print (ContactLine (contact_details contact mission_profile_name)) ;;
    cancellation <-
      call (CancelContact contact_Id)
           (fun log => GroundStation.cancel_contact gs_client log contact_Id) ;;
    print (CanceledContactId cancellation) ;;
    print (Text EmptyString)
  else ret tt.

(** The body of the second loop over the selected lines: cancel them. *)
Definition cancel_target (gs_client : GroundStation.client)
    (responce : list contact) (target_contact : contact_row) : M unit :=
  for_each responce
    (cancel_record gs_client (target_contact_start_datetime target_contact)).

Record cancel_answers : Type := {
  checkbox_canceled_contacts : list contact_row;
  cancel_continue : bool
}.

Definition cancel_contact (gs_client : GroundStation.client)
    (asked : contacts_answers) (ans : cancel_answers) : M unit :=
  '(scheduled_contacts, responce) <- view_contact gs_client asked true ;;
  print (Text EmptyString) ;;
  match scheduled_contacts with
  | _ :: _ =>
      (* the checkbox offers [scheduled_contacts] *)
      let contacts_to_cancel := checkbox_canceled_contacts ans in
      (match contacts_to_cancel with
       | [] => print (Text "No contacts selected. Exiting to main menu.") ;; main
       | _ :: _ => ret tt
       end) ;;
      print (Text listing_contacts_to_cancel) ;;
      print (Text contact_header) ;;
      for_each contacts_to_cancel (list_target gs_client responce) ;;
      if cancel_continue ans then
        for_each contacts_to_cancel (cancel_target gs_client responce) ;;
        main
      else
        print (Text "No contacts canceled. Exiting to main menu.") ;;
        main
  | [] => ret tt
  end.

(** ** Statements: what the properties below talk about *)

(** The interval that [print_selected_contacts] returns. *)
Definition reservation
    (out : selected_contact_details
           * (Datetime.datetime * Datetime.datetime * string))
  : Datetime.datetime * Datetime.datetime :=
  let '(_, (start_datetime, end_datetime, _)) := out in
  (start_datetime, end_datetime).

(** The reservation of a pass: its row, as the checkbox hands it back, goes
    through [print_selected_contacts]. *)
Definition reserve_pass (_pass : contact) (whole_duration_answer : bool)
    (contact_seconds : Z) : Datetime.datetime * Datetime.datetime :=
  reservation (print_selected_contacts (pass_details _pass)
                 whole_duration_answer contact_seconds).

(** A pass that starts and ends on one UTC date. *)
Definition same_day (_pass : contact) : Prop :=
  Datetime.date (startTime _pass) = Datetime.date (endTime _pass).

(** The window filter in the words of its description: the maximum
    elevation reaches the threshold and, when a duration is required, the
    length of the pass exceeds it. *)
Definition meets_requirements (minimum_elevation : Z) (required : option Z)
    (_pass : contact) : bool :=
  Qle_bool (inject_Z minimum_elevation) (maximumElevation _pass)
  && match required with
     | None => true
     | Some contact_seconds => contact_seconds <? endTime _pass - startTime _pass
     end.

Definition meets_elevation (minimum_elevation : Z) (_pass : contact) : bool :=
  Qle_bool (inject_Z minimum_elevation) (maximumElevation _pass).

Definition pass_length (_pass : contact) : Timedelta.timedelta :=
  Datetime.diff (endTime _pass) (startTime _pass).

(** The whole-pass flag that goes with a required duration. *)
Definition whole_pass (required : option Z) : bool :=
  match required with
  | None => true
  | Some _ => false
  end.

(** The request of [get_contacts] for one ground station. *)
Definition request_for (sel : selection) (contact_type : list string)
    (ground_station : string) : list_contacts_request :=
  {| req_endTime := pass_window_end_date sel;
     req_groundStation := ground_station;
     req_maxResults := pass_number;
     req_missionProfileArn := mission_profile_arn sel;
     req_satelliteArn := satellite_arn sel;
     req_startTime := pass_window_start_date sel;
     req_statusList := contact_type |}.

(** [log] holds a [list_contacts] call with the status filter
    [statusList], and the answer to that call contained [record]. *)
Definition fetched_with (gs_client : GroundStation.client)
    (statusList : list string) (log : list event) (record : contact) : Prop :=
  exists req before after pass_list,
    log = (before ++ ListContacts req :: after)%list
    /\ req_statusList req = statusList
    /\ GroundStation.list_contacts gs_client before req = Ok pass_list
    /\ In record pass_list.

(** The client answers every [get_mission_profile] and [cancel_contact]
    call. *)
Definition answers_calls (gs_client : GroundStation.client) : Prop :=
  (forall log id, exists name,
      GroundStation.get_mission_profile gs_client log id = Ok name)
  /\ (forall log id, exists cancellation,
         GroundStation.cancel_contact gs_client log id = Ok cancellation).

(** The mission profile ARN of a record has an identifier after a [/]. *)
Definition has_profile_id (record : contact) : Prop :=
  exists id, index (PyStr.split "/" (missionProfileArn record)) 1 = Ok id.

(** Is the start of a record [==] to the timestamp read from a line?  The
    instants are the same and the local time of the start is not one of a
    repeated hour. *)
Definition matches (gs_client : GroundStation.client)
    (target_contact : contact_row) (record : contact) : bool :=
  Datetime.eq_utc (GroundStation.tzinfo gs_client) (startTime record)
    (target_contact_start_datetime target_contact).

(** Every run of [c] extends the log by events that satisfy [ok]. *)
Definition emits {A : Type} (ok : event -> Prop) (c : M A) : Prop :=
  forall log, exists trace,
    fst (c log) = (log ++ trace)%list /\ Forall ok trace.

(** Whenever [c] returns, what it returns satisfies [P]. *)
Definition returns {A : Type} (P : A -> Prop) (c : M A) : Prop :=
  forall log a, snd (c log) = Ok a -> P a.

Definition not_cancellation (e : event) : Prop :=
  match e with
  | CancelContact _ => False
  | _ => True
  end.

Definition cancels_within (ids : list string) (e : event) : Prop :=
  match e with
  | CancelContact id => In id ids
  | _ => True
  end.

(** The integers from [lo], [n] of them. *)
Fixpoint integers_from (lo : Z) (n : nat) : list Z :=
  match n with
  | O => []
  | S k => lo :: integers_from (lo + 1) k
  end.

Definition accepts_elevation (n : Z) : bool :=
  match ElevationValidator (PyStr.str_int n) with
  | Accepted => true
  | ValidationError _ _ => false
  end.

Definition accepts_duration (n : Z) : bool :=
  match DurationValidator (PyStr.str_int n) with
  | Accepted => true
  | ValidationError _ _ => false
  end.

(** The decimal texts of 1 to 8 and of 10 to 90, each also with a final
    newline. *)
Definition elevation_texts : list string :=
  flat_map (fun n => let s := PyStr.str_int n in
                     [s; s ++ String Regex.newline EmptyString])
           (integers_from 1 8 ++ integers_from 10 81).

(** ** Sample data *)

Definition sample_record (status : string) (start_datetime end_datetime : Z)
    (station : string) (elevation : Z) (id : string) : contact :=
  {| contactId := id;
     contactStatus := status;
     startTime := start_datetime;
     endTime := end_datetime;
     groundStation := station;
     maximumElevation := inject_Z elevation;
     missionProfileArn := "arn:aws:groundstation:us-east-2:111122223333:mission-profile/11111111-2222";
     region := "us-east-2" |}.

(** 2024-01-05 00:00:00 UTC. *)
Definition day0 : Z := 1704412800.

(** 09:00:00 to 09:10:00 on 2024-01-05, maximum elevation 45 degrees. *)
Definition morning_pass : contact :=
  sample_record "AVAILABLE" (day0 + 32400) (day0 + 33000) "Ohio 1" 45 "pass-1".

(** 23:55:00 on 2024-01-05 to 00:05:00 on 2024-01-06: 600 seconds over
    midnight UTC. *)
Definition midnight_pass : contact :=
  sample_record "AVAILABLE" (day0 + 86100) (day0 + 86700) "Ohio 1" 45 "pass-2".

(** 09:00:00 to 09:08:00 at another station, maximum elevation 30 degrees,
    and 11:06:40 to 11:16:40, maximum elevation 60 degrees. *)
Definition low_pass : contact :=
  sample_record "AVAILABLE" (day0 + 32400) (day0 + 32880) "Oregon 1" 30
                "pass-4".
Definition high_pass : contact :=
  sample_record "AVAILABLE" (day0 + 40000) (day0 + 40600) "Ohio 1" 60
                "pass-5".

(** A record of 24 hours and 10 minutes. *)
Definition day_long_pass : contact :=
  sample_record "AVAILABLE" day0 (day0 + 87000) "Ohio 1" 45 "pass-3".

(** Two scheduled contacts that start at the same second at two stations, and
    a third one later. *)
Definition contact_ohio : contact :=
  sample_record "SCHEDULED" (day0 + 32400) (day0 + 33000) "Ohio 1" 45
                "contact-ohio".
Definition contact_oregon : contact :=
  sample_record "SCHEDULED" (day0 + 32400) (day0 + 32880) "Oregon 1" 30
                "contact-oregon".
Definition contact_later : contact :=
  sample_record "SCHEDULED" (day0 + 40000) (day0 + 40600) "Ohio 1" 60
                "contact-later".

Definition sample_satellites : list Satellite.t :=
  [ {| Satellite.noradSatelliteID := 25994;
       Satellite.satelliteArn :=
         "arn:aws:groundstation::111122223333:satellite/33333333-4444" |};
    {| Satellite.noradSatelliteID := 27424;
       Satellite.satelliteArn :=
         "arn:aws:groundstation::111122223333:satellite/55555555-6666" |} ].

Definition sample_mission_profiles : list MissionProfile.t :=
  [ {| MissionProfile.name := "demod-decode";
       MissionProfile.missionProfileArn :=
         "arn:aws:groundstation:us-east-2:111122223333:mission-profile/11111111-2222";
       MissionProfile.region := "us-east-2" |};
    {| MissionProfile.name := "wide-band";
       MissionProfile.missionProfileArn :=
         "arn:aws:groundstation:us-east-2:111122223333:mission-profile/77777777-8888";
       MissionProfile.region := "us-east-2" |} ].

(** A zone without a repeated hour. *)
Definition plain_zone : Datetime.tzlocal :=
  {| Datetime.is_ambiguous := fun _ => false |}.

(** A client that answers every call: two satellites, two mission profiles
    and two ground stations are listed; listing contacts gives [records] at
    the station ["Ohio 1"] and nothing elsewhere. *)
Definition sample_client (records : list contact) : GroundStation.client :=
  {| GroundStation.list_satellites := fun _ => Ok sample_satellites;
     GroundStation.list_mission_profiles := fun _ => Ok sample_mission_profiles;
     GroundStation.list_ground_stations := fun _ _ => Ok ["Ohio 1"; "Oregon 1"];
     GroundStation.list_contacts := fun _ req =>
       Ok (if String.eqb (req_groundStation req) "Ohio 1" then records else []);
     GroundStation.get_mission_profile := fun _ _ => Ok "profile";
     GroundStation.reserve_contact := fun _ _ _ _ _ _ => Ok "reserved";
     GroundStation.cancel_contact := fun _ id => Ok id;
     GroundStation.tzinfo := plain_zone |}.

(** The first satellite, the first mission profile and one ground station
    are chosen; today is 2024-01-05 and the window typed is 2024-01-05 to
    2024-01-08. *)
Definition sample_answers : contacts_answers :=
  {| selector :=
       {| satellite_NORAD_ID_answer := "25994";
          mission_profile_name_answer :=
            "demod-decode                    --  us-east-2";
          checkbox_selected_groundstations := ["Ohio 1"] |};
     clock_today := "2024-01-05";
     clock_scheduling_window_end := "2024-01-11";
     contact_window_lines := ["2024-01-05"; "2024-01-08"] |}.

(** What [get_contacts] resolves from [sample_answers]. *)

Definition sample_selection : selection :=
  {| mission_profile_arn := "arn:aws:groundstation:us-east-2:111122223333:mission-profile/11111111-2222";
     satellite_arn := "arn:aws:groundstation::111122223333:satellite/33333333-4444";
     selected_groundstations := ["Ohio 1"];
     pass_window_start_date := "2024-01-05";
     pass_window_end_date := "2024-01-08" |}.

(** Minimum elevation 80 degrees and a contact of 4 minutes. *)
Definition high_elevation_answers : schedule_answers :=
  {| minimum_elevation_answer := "80";
     whole_duration := false;
     contact_minutes_answer := "4";
     checkbox_selected_passes := [];
     schedule_continue := true |}.

(** Minimum elevation 40 degrees and a contact of 15 minutes. *)
Definition long_contact_answers : schedule_answers :=
  {| minimum_elevation_answer := "40";
     whole_duration := false;
     contact_minutes_answer := "15";
     checkbox_selected_passes := [];
     schedule_continue := true |}.

(** Minimum elevation 80 degrees and the whole pass. *)
Definition high_elevation_whole_answers : schedule_answers :=
  {| minimum_elevation_answer := "80";
     whole_duration := true;
     contact_minutes_answer := EmptyString;
     checkbox_selected_passes := [];
     schedule_continue := true |}.

(** The row of [morning_pass] is ticked for the whole pass, and the
    confirmation is declined or given. *)
Definition declined_answers : schedule_answers :=
  {| minimum_elevation_answer := "40";
     whole_duration := true;
     contact_minutes_answer := EmptyString;
     checkbox_selected_passes := [pass_details morning_pass];
     schedule_continue := false |}.

Definition confirmed_answers : schedule_answers :=
  {| minimum_elevation_answer := "40";
     whole_duration := true;
     contact_minutes_answer := EmptyString;
     checkbox_selected_passes := [pass_details morning_pass];
     schedule_continue := true |}.

(** The line of [contact_ohio] is ticked and the cancellation confirmed. *)
Definition cancel_ohio_answers : cancel_answers :=
  {| checkbox_canceled_contacts := [contact_details contact_ohio "profile"];
     cancel_continue := true |}.

(** ** Statements of the further properties *)

(** The reservation calls of a log, in order: start, end, ground station,
    mission profile and satellite. *)
Fixpoint reservations (log : list event)
  : list (Datetime.datetime * Datetime.datetime * string * string * string) :=
  match log with
  | [] => []
  | ReserveContact end_datetime station profile satellite start_datetime
    :: log' =>
      (start_datetime, end_datetime, station, profile, satellite)
      :: reservations log'
  | _ :: log' => reservations log'
  end.

Definition not_reservation (e : event) : Prop :=
  match e with
  | ReserveContact _ _ _ _ _ => False
  | _ => True
  end.

(** The events of the selector stage and of the contact window: the three
    listings, prints and the main menu. *)
Definition selector_event (e : event) : Prop :=
  match e with
  | ListSatellites | ListMissionProfiles | ListGroundStations _
  | Print _ | Main => True
  | _ => False
  end.

(** The events of viewing: the lists of contacts, the names of mission
    profiles and prints. *)
Definition viewing_event (e : event) : Prop :=
  match e with
  | ListContacts _ | GetMissionProfile _ | Print _ => True
  | _ => False
  end.

(** The text that the diagnostic of [schedule_contact] shows for a longest
    pass of [d] seconds, less than an hour: minutes and seconds, or only the
    tens of the minutes when the minutes are a multiple of ten. *)
Definition longest_pass_text (d : Z) : string :=
  let minutes := d / 60 in
  if minutes mod 10 =? 0 then PyStr.str_int (minutes / 10)
  else PyStr.zfill 2 minutes ++ ":" ++ PyStr.zfill 2 (d mod 60).

Definition shows_longest_pass (d : Z) : bool :=
  match index (PyStr.split "0:" (Timedelta.str (Timedelta.of_seconds d))) 1 with
  | Ok text => String.eqb text (longest_pass_text d)
  | Raise _ => false
  end.

(** The seconds that [schedule_contact] hands to [print_selected_contacts]:
    0 for the whole pass, 60 times the minutes asked for otherwise. *)
Definition requested_seconds (ans : schedule_answers) : Z :=
  if whole_duration ans then 0
  else match py_float (contact_minutes_answer ans) with
       | Ok minutes => 60 * minutes
       | Raise _ => 0
       end.

(** The reservation that [schedule_contact] asks for a ticked row: what
    [print_selected_contacts] returns for it, with the mission profile and
    the satellite that [get_contacts] returned. *)
Definition reservation_of (mission_profile_arn satellite_arn : string)
    (ans : schedule_answers) (selected_pass : pass_row)
  : Datetime.datetime * Datetime.datetime * string * string * string :=
  let '(start_datetime, end_datetime, station) :=
    snd (print_selected_contacts selected_pass (whole_duration ans)
           (requested_seconds ans)) in
  (start_datetime, end_datetime, station, mission_profile_arn, satellite_arn).

(** The answer of the client to the reservation of a ticked row, asked
    after [before]. *)
Definition reservation_answer (gs_client : GroundStation.client)
    (before : list event) (mission_profile_arn satellite_arn : string)
    (ans : schedule_answers) (selected_pass : pass_row) : result string :=
  let '(start_datetime, end_datetime, station) :=
    snd (print_selected_contacts selected_pass (whole_duration ans)
           (requested_seconds ans)) in
  GroundStation.reserve_contact gs_client before end_datetime station
    mission_profile_arn satellite_arn start_datetime.

(** The line of [contact_ohio] is ticked and the cancellation declined. *)
Definition declined_cancel_answers : cancel_answers :=
  {| checkbox_canceled_contacts := [contact_details contact_ohio "profile"];
     cancel_continue := false |}.

(** The texts of 1 to 9, of 01 to 09 and of 10 to 20, each also with a
    final newline. *)
Definition duration_texts : list string :=
  flat_map (fun s => [s; s ++ String Regex.newline EmptyString])
           (map PyStr.str_int (integers_from 1 9)
            ++ map (PyStr.zfill 2) (integers_from 1 9)
            ++ map PyStr.str_int (integers_from 10 11)).

(** Does [float] read a number from [lo] to [hi] in the text? *)
Definition reads_within (lo hi : Z) (text : string) : bool :=
  match py_float text with
  | Ok n => (lo <=? n) && (n <=? hi)
  | Raise _ => false
  end.

(** A pattern without [$]. *)
Fixpoint no_eol (r : Regex.regex) : bool :=
  match r with
  | Regex.Eol => false
  | Regex.Cat r1 r2 | Regex.Alt r1 r2 => no_eol r1 && no_eol r2
  | Regex.Opt r' => no_eol r'
  | _ => true
  end.

(** The number of characters that a pattern takes, when it is made of
    characters, sequences and alternatives of one width. *)
Fixpoint width (r : Regex.regex) : option nat :=
  match r with
  | Regex.Lit _ | Regex.Range _ _ => Some 1%nat
  | Regex.Cat r1 r2 =>
      match width r1, width r2 with
      | Some n1, Some n2 => Some (n1 + n2)%nat
      | _, _ => None
      end
  | Regex.Alt r1 r2 =>
      match width r1, width r2 with
      | Some n1, Some n2 => if (n1 =? n2)%nat then Some n1 else None
      | _, _ => None
      end
  | _ => None
  end.

(** Does the pattern match the whole of [s]? *)
Definition accepts_exact (r : Regex.regex) (s : string) : bool :=
  Regex.run r false s
    (fun _ s' => match s' with EmptyString => true | _ => false end).

(** The calendar: leap years and the days of a month. *)
Definition is_leap (year : Z) : bool :=
  ((year mod 4 =? 0) && negb (year mod 100 =? 0)) || (year mod 400 =? 0).

Definition month_days (leap : bool) (month : Z) : Z :=
  if month =? 2 then (if leap then 29 else 28)
  else if (month =? 4) || (month =? 6) || (month =? 9) || (month =? 11)
       then 30
       else 31.

Definition days_in_month (year month : Z) : Z :=
  month_days (is_leap year) month.

(** The text [YYYY s1 MM s2 DD] of a date. *)
Definition date_text (year : Z) (s1 : string) (month : Z) (s2 : string)
    (day : Z) : string :=
  PyStr.str_int year ++ s1 ++ PyStr.zfill 2 month ++ s2 ++ PyStr.zfill 2 day.

Definition in_dates (lo hi n : Z) : bool := (lo <=? n) && (n <=? hi).
Definition one_of_numbers (l : list Z) (n : Z) : bool := existsb (Z.eqb n) l.

(** What the patterns of years say about the text of a year from 1000 to
    9999. *)
Definition year_row_ok (year : Z) : bool :=
  let text := PyStr.str_int year in
  (String.length text =? 4)%nat
  && Bool.eqb (accepts_exact year_regex text) (in_dates 1800 2099 year)
  && Bool.eqb (accepts_exact leap_year_regex text)
              (in_dates 1800 2099 year && is_leap year).

(** What the patterns of months and days say about a number of two digits. *)
Definition two_digit_row_ok (n : Z) : bool :=
  let text := PyStr.zfill 2 n in
  (String.length text =? 2)%nat
  && Bool.eqb (accepts_exact months_31_regex text)
              (one_of_numbers [1; 3; 5; 7; 8; 10; 12] n)
  && Bool.eqb (accepts_exact months_30_regex text)
              (one_of_numbers [4; 6; 9; 11] n)
  && Bool.eqb (accepts_exact february_regex text) (n =? 2)
  && Bool.eqb (accepts_exact days_31_regex text) (in_dates 1 31 n)
  && Bool.eqb (accepts_exact days_30_regex text) (in_dates 1 30 n)
  && Bool.eqb (accepts_exact days_28_regex text) (in_dates 1 28 n)
  && Bool.eqb (accepts_exact day_29_regex text) (n =? 29).

(** The four alternatives on a month and a day, and the calendar. *)
Definition calendar_formula (leap : bool) (month day : Z) : bool :=
  (one_of_numbers [1; 3; 5; 7; 8; 10; 12] month && in_dates 1 31 day)
  || (one_of_numbers [4; 6; 9; 11] month && in_dates 1 30 day)
  || ((month =? 2) && in_dates 1 28 day)
  || (leap && (month =? 2) && (day =? 29)).

Definition calendar_spec (leap : bool) (month day : Z) : bool :=
  in_dates 1 12 month && in_dates 1 (month_days leap month) day.

Definition calendar_row_ok (month : Z) : bool :=
  forallb (fun day =>
             Bool.eqb (calendar_formula true month day)
                      (calendar_spec true month day)
             && Bool.eqb (calendar_formula false month day)
                         (calendar_spec false month day))
          (integers_from 0 100).


(** A client with the listings of [sample_client] and no contact at any
    station. *)
Definition idle_client : GroundStation.client :=
  {| GroundStation.list_satellites := fun _ => Ok sample_satellites;
     GroundStation.list_mission_profiles := fun _ => Ok sample_mission_profiles;
     GroundStation.list_ground_stations := fun _ _ => Ok ["Ohio 1"; "Oregon 1"];
     GroundStation.list_contacts := fun _ _ => Ok [];
     GroundStation.get_mission_profile := fun _ _ => Ok "profile";
     GroundStation.reserve_contact := fun _ _ _ _ _ _ => Ok "reserved";
     GroundStation.cancel_contact := fun _ id => Ok id;
     GroundStation.tzinfo := plain_zone |}.

(** The second satellite and the second mission profile are chosen. *)
Definition second_selector_answers : selector_answers :=
  {| satellite_NORAD_ID_answer := "27424";
     mission_profile_name_answer :=
       "wide-band                       --  us-east-2";
     checkbox_selected_groundstations := ["Ohio 1"] |}.

(** Does a piece of an ARN end where [tail] begins: at the end of the text
    or before a [/]? *)
Definition piece_ends (tail : string) : bool :=
  match tail with
  | EmptyString => true
  | String c _ => Ascii.eqb c "/"
  end.

(** * Properties *)

Ltac div_lia := Z.to_euclidean_division_equations; lia.

(** ** Dates, times and durations *)

Lemma strptime_date_time_inverse (d : Datetime.datetime) :
  Datetime.strptime_date_time (Datetime.date d) (Datetime.time d) = d.
Proof.
  unfold Datetime.strptime_date_time, Datetime.date, Datetime.time. div_lia.
Qed.

Lemma time_range (d : Datetime.datetime) : 0 <= Datetime.time d < 86400.
Proof. unfold Datetime.time. div_lia. Qed.

Lemma seconds_of_seconds (s : Z) :
  0 <= s < 86400 -> Timedelta.seconds (Timedelta.of_seconds s) = s.
Proof. unfold Timedelta.seconds, Timedelta.of_seconds. intros H. div_lia. Qed.

(** Halving a whole number of seconds needs no rounding. *)
Lemma truediv_seconds_by_two (s : Z) :
  Timedelta.truediv (Timedelta.of_seconds s) 2 = 500000 * s.
Proof.
  unfold Timedelta.truediv, Timedelta.divide_and_round, Timedelta.of_seconds.
  assert (E : (1000000 * s) mod 2 = 0) by div_lia.
  cbv zeta. rewrite E. change (2 * 0) with 0.
  change (0 <? 2) with true. cbv iota.
  change (2 <? 0) with false. change (0 =? 2) with false.
  cbv [andb orb]. div_lia.
Qed.

(** The offset is the floor of half the difference of the two durations, a
    whole number of seconds. *)
Lemma contact_offset_floor (start_time end_time contact_seconds : Z) :
  contact_offset start_time end_time contact_seconds
  = Timedelta.of_seconds
      ((end_time - start_time - 60 * Z.quot contact_seconds 60) / 2).
Proof.
  unfold contact_offset, contact_duration, Datetime.diff, Timedelta.sub,
    Timedelta.of_minutes, Timedelta.of_microseconds, Timedelta.microseconds,
    Datetime.strptime_time, Datetime.strptime_date_time.
  set (k := end_time - start_time - 60 * Z.quot contact_seconds 60).
  replace (Timedelta.of_seconds
             (86400 * Datetime.default_date + end_time
              - (86400 * Datetime.default_date + start_time))
           - 60000000 * Z.quot contact_seconds 60)
    with (Timedelta.of_seconds k)
    by (unfold Timedelta.of_seconds, k; lia).
  rewrite truediv_seconds_by_two. unfold Timedelta.of_seconds. div_lia.
Qed.


Lemma reserve_pass_whole (_pass : contact) (contact_seconds : Z) :
  reserve_pass _pass true contact_seconds
  = (Datetime.strptime_date_time (Datetime.date (startTime _pass))
       (Datetime.time (startTime _pass)),
     Datetime.strptime_date_time (Datetime.date (startTime _pass))
       (Datetime.time (endTime _pass))).
Proof. reflexivity. Qed.

Lemma reserve_pass_partial (_pass : contact) (contact_seconds : Z) :
  reserve_pass _pass false contact_seconds
  = let offset :=
      contact_offset (Datetime.time (startTime _pass))
        (Datetime.time (endTime _pass)) contact_seconds in
    (Datetime.strptime_date_time (Datetime.date (startTime _pass))
       (Datetime.time
          (Datetime.add
             (Datetime.strptime_time (Datetime.time (startTime _pass)))
             offset)),
     Datetime.strptime_date_time (Datetime.date (startTime _pass))
       (Datetime.time
          (Datetime.sub
             (Datetime.strptime_time (Datetime.time (endTime _pass)))
             offset))).
Proof. reflexivity. Qed.

(** X1. A pass that starts and ends on one UTC date, with the whole pass
    asked for: the interval that [print_selected_contacts] reads back from
    the row of the pass is the pass itself, whatever [contact_seconds]
    holds. *)
Lemma same_day_whole_pass (_pass : contact) (contact_seconds : Z) :
  same_day _pass ->
  reserve_pass _pass true contact_seconds = (startTime _pass, endTime _pass).
Proof.
  intros H. rewrite reserve_pass_whole, strptime_date_time_inverse.
  rewrite H, strptime_date_time_inverse. reflexivity.
Qed.

Lemma same_day_partial_contact (_pass : contact) (contact_seconds : Z) :
  same_day _pass ->
  60 * Z.quot contact_seconds 60 <= endTime _pass - startTime _pass ->
  0 <= contact_seconds ->
  let offset :=
    (endTime _pass - startTime _pass - 60 * Z.quot contact_seconds 60) / 2 in
  reserve_pass _pass false contact_seconds
  = (startTime _pass + offset, endTime _pass - offset).
Proof.
  intros Hday Hfit Hpos. cbv zeta.
  rewrite reserve_pass_partial. cbv zeta.
  rewrite contact_offset_floor.
  unfold same_day, Datetime.add, Datetime.sub, Datetime.strptime_time,
    Datetime.strptime_date_time, Datetime.time, Datetime.date,
    Datetime.default_date, Timedelta.of_seconds in *.
  set (s := startTime _pass) in *. set (e := endTime _pass) in *.
  set (r := 60 * Z.quot contact_seconds 60) in *.
  assert (Hr : 0 <= r) by (unfold r; div_lia).
  clearbody s e r. clear Hpos.
  assert (Hs : e mod 86400 - s mod 86400 = e - s) by div_lia.
  rewrite Hs.
  set (k := (e - s - r) / 2) in *.
  assert (Hk : 0 <= k <= e - s) by (unfold k; div_lia).
  replace (1000000 * k / 1000000) with k by div_lia.
  clearbody k.
  f_equal.
  - assert (T : (86400 * -25567 + s mod 86400 + k) mod 86400 = s mod 86400 + k) by div_lia.
    rewrite T. div_lia.
  - assert (T : (86400 * -25567 + e mod 86400 - k) mod 86400 = e mod 86400 - k) by div_lia.
    rewrite T. div_lia.
Qed.

(** X2. A pass on one UTC date and a contact of whole minutes shorter than
    the pass: the interval that [print_selected_contacts] returns lasts the
    minutes asked for, or one second more, lies inside the pass, and leaves
    as many seconds before it as after it. *)
Lemma same_day_partial_centred (_pass : contact) (minutes : Z) :
  same_day _pass ->
  0 <= minutes ->
  60 * minutes < endTime _pass - startTime _pass ->
  let '(start_datetime, end_datetime) :=
    reserve_pass _pass false (60 * minutes) in
  60 * minutes <= end_datetime - start_datetime <= 60 * minutes + 1
  /\ startTime _pass <= start_datetime
  /\ start_datetime <= end_datetime
  /\ end_datetime <= endTime _pass
  /\ start_datetime - startTime _pass = endTime _pass - end_datetime.
Proof.
  intros Hday Hpos Hlt.
  assert (Q : Z.quot (60 * minutes) 60 = minutes) by div_lia.
  rewrite same_day_partial_contact; [| assumption | rewrite Q; lia | lia].
  rewrite Q. div_lia.
Qed.

(** The scenarios of the description, on a pass within one date: the whole
    pass 09:00:00-09:10:00 is reserved as it is, and a contact of 240
    seconds in it gets the offset of 180 seconds and the interval
    09:03:00-09:07:00. *)
Example whole_pass_scenario :
  reserve_pass morning_pass true 0 = (day0 + 32400, day0 + 33000).
Proof. reflexivity. Qed.

Example partial_contact_scenario :
  contact_offset (Datetime.time (startTime morning_pass))
                 (Datetime.time (endTime morning_pass)) 240
  = Timedelta.of_seconds 180
  /\ reserve_pass morning_pass false 240 = (day0 + 32580, day0 + 32820).
Proof. split; reflexivity. Qed.

(** ** The contact time resolver on a pass over midnight UTC *)

(** C1. A pass of 600 seconds from 23:55:00 to 00:05:00 of the next day with
    a request of 240 seconds: the interval that [print_selected_contacts]
    returns is 11:58:00-12:02:00 of the start date.  It has the requested
    length, yet it lies twelve hours before the pass and not inside it, and
    the two offsets from the ends of the pass differ by a day. *)
Theorem partial_contact_over_midnight :
  let '(start_datetime, end_datetime) := reserve_pass midnight_pass false 240 in
  start_datetime = day0 + 43080
  /\ end_datetime = day0 + 43320
  /\ end_datetime - start_datetime = 240
  /\ start_datetime < startTime midnight_pass
  /\ start_datetime - startTime midnight_pass
     = endTime midnight_pass - end_datetime - 86400.
Proof. vm_compute. repeat split; reflexivity. Qed.

(** C5. On the same pass over midnight the offset that
    [print_selected_contacts] computes is minus 43020 seconds, not the 180
    seconds that half of (600 - 240) gives, and the returned interval is not
    the pass moved inwards by 180 seconds at both ends. *)
Theorem contact_offset_over_midnight :
  contact_offset (Datetime.time (startTime midnight_pass))
                 (Datetime.time (endTime midnight_pass)) 240
  = Timedelta.of_seconds (-43020)
  /\ (endTime midnight_pass - startTime midnight_pass - 240) / 2 = 180
  /\ reserve_pass midnight_pass false 240
     <> (startTime midnight_pass + 180, endTime midnight_pass - 180).
Proof. vm_compute. repeat split; try reflexivity. discriminate. Qed.

(** C6. On the same pass over midnight with the whole pass asked for, the
    returned interval starts at the start of the pass and ends a day before
    its end, on the start date: it is not the interval of the pass, and it
    ends before it starts. *)
Theorem whole_pass_over_midnight :
  let '(start_datetime, end_datetime) := reserve_pass midnight_pass true 0 in
  start_datetime = startTime midnight_pass
  /\ end_datetime = endTime midnight_pass - 86400
  /\ end_datetime < start_datetime.
Proof. vm_compute. repeat split; reflexivity. Qed.

(** ** The validators *)

(** C9. The elevation validator turns down the answer ["9"], an integer
    between 1 and 90, with its message about the range [1-90]. *)
Theorem elevation_nine_rejected :
  ElevationValidator "9"
  = ValidationError "Please enter a valid elevation degree value [1-90]" 1.
Proof. reflexivity. Qed.

(** The duration validator, built the same way, does accept ["9"]. *)
Example duration_nine_accepted : DurationValidator "9" = Accepted.
Proof. reflexivity. Qed.

Lemma integers_from_complete (n : nat) :
  forall lo x, lo <= x < lo + Z.of_nat n -> In x (integers_from lo n).
Proof.
  induction n as [|n IH]; intros lo x H.
  - lia.
  - destruct (Z.eq_dec x lo) as [->|Hne].
    + left. reflexivity.
    + right. apply IH. lia.
Qed.

(** Every other integer from 1 to 90 is accepted, and 0 and 91 to 100 are
    not. *)
Lemma elevation_accepted_but_nine (n : Z) :
  1 <= n <= 90 -> n <> 9 -> ElevationValidator (PyStr.str_int n) = Accepted.
Proof.
  intros Hrange Hnine.
  assert (All : forallb accepts_elevation
                  (integers_from 1 8 ++ integers_from 10 81) = true)
    by (vm_compute; reflexivity).
  rewrite forallb_forall in All.
  assert (Hin : In n (integers_from 1 8 ++ integers_from 10 81)).
  { apply in_or_app.
    destruct (Z_lt_le_dec n 9);
      [left | right]; apply integers_from_complete; lia. }
  specialize (All n Hin). unfold accepts_elevation in All.
  destruct (ElevationValidator (PyStr.str_int n)); [reflexivity | discriminate].
Qed.

Lemma elevation_rejected_outside :
  forallb (fun n => negb (accepts_elevation n))
          (0 :: integers_from 91 10) = true.
Proof. vm_compute. reflexivity. Qed.

Lemma duration_accepted (n : Z) :
  1 <= n <= 20 -> DurationValidator (PyStr.str_int n) = Accepted.
Proof.
  intros Hrange.
  assert (All : forallb accepts_duration (integers_from 1 20) = true)
    by (vm_compute; reflexivity).
  rewrite forallb_forall in All.
  specialize (All n (integers_from_complete 20 1 n ltac:(lia))).
  unfold accepts_duration in All.
  destruct (DurationValidator (PyStr.str_int n)); [reflexivity | discriminate].
Qed.

(** What the elevation validator accepts, exactly. *)

Lemma in_range_inv (lo hi c : ascii) :
  Regex.in_range lo hi c = true ->
  In c (map ascii_of_nat
          (seq (nat_of_ascii lo) (S (nat_of_ascii hi) - nat_of_ascii lo))).
Proof.
  unfold Regex.in_range. intros H. apply andb_prop in H. destruct H as [H1 H2].
  apply Nat.leb_le in H1, H2.
  rewrite <- (ascii_nat_embedding c). apply in_map. apply in_seq. lia.
Qed.

Lemma at_end_inv (s : string) :
  Regex.at_end s = true -> s = EmptyString \/ s = String Regex.newline EmptyString.
Proof.
  destruct s as [|c [|c' s']]; simpl; intros H; try discriminate.
  - left. reflexivity.
  - right. apply Ascii.eqb_eq in H. subst. reflexivity.
Qed.

Lemma elevation_texts_listed (s : string) :
  existsb (String.eqb s) elevation_texts = true -> In s elevation_texts.
Proof.
  intros Hs. apply existsb_exists in Hs. destruct Hs as (x & Hx & Heq).
  apply String.eqb_eq in Heq. subst. exact Hx.
Qed.

Ltac one_of H := simpl in H; repeat destruct H as [<-|H]; [..|contradiction].
Ltac at_end_cases H :=
  destruct (Regex.at_end _) eqn:?E in H; [|discriminate];
  apply at_end_inv in E; destruct E as [->| ->].
Ltac listed := apply elevation_texts_listed; vm_compute; reflexivity.

Lemma elevation_accepted_only (text : string) :
  ElevationValidator text = Accepted -> In text elevation_texts.
Proof.
  unfold ElevationValidator.
  destruct (Regex.match_ elevation_regex text) eqn:Hm; [intros _|discriminate].
  unfold Regex.match_, elevation_regex in Hm. cbn [Regex.run] in Hm.
  destruct text as [|c1 rest]; [discriminate|].
  apply orb_prop in Hm. destruct Hm as [Hm|Hm].
  - destruct (Regex.in_range "1" "8" c1) eqn:H1; [|discriminate].
    apply in_range_inv in H1.
    apply orb_prop in Hm. destruct Hm as [Hm|Hm].
    + destruct rest as [|c2 rest]; [discriminate|].
      destruct (Regex.in_range "0" "9" c2) eqn:H2; [|discriminate].
      apply in_range_inv in H2. at_end_cases Hm; one_of H1; one_of H2; listed.
    + at_end_cases Hm; one_of H1; listed.
  - destruct (Ascii.eqb "9" c1) eqn:H1; [|discriminate].
    apply Ascii.eqb_eq in H1. subst c1.
    destruct rest as [|c2 rest]; [discriminate|].
    destruct (Ascii.eqb "0" c2) eqn:H2; [|discriminate].
    apply Ascii.eqb_eq in H2. subst c2. at_end_cases Hm; listed.
Qed.

(** The validator accepts a text if and only if it is the decimal text of
    an integer from 1 to 8 or from 10 to 90, possibly followed by one
    newline (which [$] lets through and a prompt line never holds). *)
Lemma elevation_accepted_iff (text : string) :
  ElevationValidator text = Accepted <-> In text elevation_texts.
Proof.
  split; [apply elevation_accepted_only|].
  assert (All : forallb (fun s => match ElevationValidator s with
                                  | Accepted => true
                                  | ValidationError _ _ => false
                                  end) elevation_texts = true)
    by (vm_compute; reflexivity).
  rewrite forallb_forall in All. intros Hin. specialize (All text Hin).
  destruct (ElevationValidator text); [reflexivity | discriminate].
Qed.

(** ** The merge of the query stage *)

Section SortFacts.
Context {A : Type} (key : A -> Z).

Lemma insert_permutation (x : A) (l : list A) :
  Permutation (x :: l) (PyList.insert key x l).
Proof.
  induction l as [|y l IH]; simpl.
  - apply Permutation_refl.
  - destruct (key x <=? key y).
    + apply Permutation_refl.
    + eapply perm_trans; [apply perm_swap | apply perm_skip, IH].
Qed.

Lemma sort_permutation (l : list A) : Permutation l (PyList.sort key l).
Proof.
  induction l as [|x l IH]; simpl.
  - apply perm_nil.
  - eapply perm_trans; [apply perm_skip, IH | apply insert_permutation].
Qed.

Lemma insert_sorted (x : A) (l : list A) :
  StronglySorted (fun a b => key a <= key b) l ->
  StronglySorted (fun a b => key a <= key b) (PyList.insert key x l).
Proof.
  induction 1 as [|y l Hsorted IH Hall]; simpl.
  - repeat constructor.
  - destruct (key x <=? key y) eqn:Hxy.
    + apply Z.leb_le in Hxy. constructor.
      * constructor; assumption.
      * constructor; [exact Hxy|].
        eapply Forall_impl; [|exact Hall].
        intros z Hyz. simpl in *. lia.
    + apply Z.leb_gt in Hxy. constructor; [exact IH|].
      eapply Permutation_Forall; [apply insert_permutation|].
      constructor; [simpl; lia | exact Hall].
Qed.

Lemma sort_sorted (l : list A) :
  StronglySorted (fun a b => key a <= key b) (PyList.sort key l).
Proof.
  induction l as [|x l IH]; simpl.
  - constructor.
  - apply insert_sorted, IH.
Qed.


End SortFacts.

(** The merged list holds the records of the per-station lists, each as
    often as they do. *)
Lemma flat_passes_permutation (all_passes : list (list contact)) :
  Permutation (List.concat all_passes) (flat_passes all_passes).
Proof. apply sort_permutation. Qed.


(** ** The window filter *)

Lemma window_filter_from (E : Z) (required : option Z) :
  forall (pass_list suitable : list contact)
         (durations : list Timedelta.timedelta),
    (forall p R, In p pass_list -> required = Some R ->
                 0 <= endTime p - startTime p < 86400) ->
    window_filter pass_list E (whole_pass required) required suitable durations
    = Ok ((suitable ++ filter (meets_requirements E required) pass_list)%list,
          (durations ++ map pass_length
                          (filter (meets_elevation E) pass_list))%list).
Proof.
  induction pass_list as [|p rest IH]; intros suitable durations Hlen.
  - simpl. rewrite !app_nil_r. reflexivity.
  - assert (Hrest : forall q R, In q rest -> required = Some R ->
                                0 <= endTime q - startTime q < 86400)
      by (intros q R Hq; apply Hlen; right; exact Hq).
    simpl. unfold meets_requirements, meets_elevation.
    destruct (Qle_bool (inject_Z E) (maximumElevation p)); simpl.
    + destruct required as [R|]; simpl.
      * specialize (Hlen p R (or_introl eq_refl) eq_refl).
        unfold Datetime.diff. rewrite seconds_of_seconds by exact Hlen.
        destruct (R <? endTime p - startTime p);
          rewrite IH by exact Hrest; rewrite <- !app_assoc; reflexivity.
      * rewrite IH by exact Hrest. rewrite <- !app_assoc. reflexivity.
    + apply IH, Hrest.
Qed.

(** C2, as the code has it.  For every list of passes, every threshold
    and every required duration, when the passes are not longer than a day
    (their lengths are from 0 up to, not including, 86400 seconds) in case
    a duration is required, the loop of [schedule_contact] keeps exactly
    the passes whose maximum elevation reaches the threshold and whose
    length exceeds the required duration, in their order; with the whole
    pass asked for it keeps exactly the passes whose maximum elevation
    reaches the threshold, whatever their lengths.  The second list holds
    the lengths of the passes that reach the threshold. *)
Theorem window_filter_exact (pass_list : list contact) (E : Z)
    (required : option Z) :
  (forall p R, In p pass_list -> required = Some R ->
               0 <= endTime p - startTime p < 86400) ->
  window_filter pass_list E (whole_pass required) required [] []
  = Ok (filter (meets_requirements E required) pass_list,
        map pass_length (filter (meets_elevation E) pass_list)).
Proof. intros Hlen. apply (window_filter_from E required pass_list [] []), Hlen. Qed.

Lemma window_filter_exact_witness :
  window_filter [morning_pass; low_pass; high_pass] 40 false
                (Some 500) [] []
  = Ok ([morning_pass; high_pass],
        map pass_length [morning_pass; high_pass]).
Proof.
  apply (window_filter_exact [morning_pass; low_pass; high_pass]
                             40 (Some 500)).
  intros p R [<-|[<-|[<-|[]]]] _; simpl; unfold day0; lia.
Defined.

(** The loop compares the [seconds] field of the length, which leaves the
    days out: a record of 24 hours and 10 minutes counts as 600 seconds and
    is not kept for a contact of 15 minutes. *)
Example window_filter_day_long_pass :
  window_filter [day_long_pass] 40 false (Some 900) [] []
  = Ok ([], [pass_length day_long_pass])
  /\ meets_requirements 40 (Some 900) day_long_pass = true.
Proof. split; reflexivity. Qed.

(** C2, as it is worded, fails: the record of 24 hours and 10 minutes
    reaches the threshold of 40 degrees and is longer than the 900 seconds
    required, and the loop does not keep it. *)
Lemma window_filter_drops_day_long_pass :
  window_filter [day_long_pass] 40 (whole_pass (Some 900)) (Some 900) [] []
  <> Ok (filter (meets_requirements 40 (Some 900)) [day_long_pass],
         map pass_length (filter (meets_elevation 40) [day_long_pass])).
Proof.
  destruct window_filter_day_long_pass as [Hrun Hmeets].
  change (whole_pass (Some 900)) with false. rewrite Hrun.
  cbn [filter]. rewrite Hmeets. discriminate.
Qed.

(** ** The branch without a suitable pass *)

Lemma window_filter_nothing_meets_elevation (E : Z) (whole : bool)
    (contact_seconds : option Z) :
  forall pass_list,
    Forall (fun p => meets_elevation E p = false) pass_list ->
    window_filter pass_list E whole contact_seconds [] [] = Ok ([], []).
Proof.
  induction 1 as [|p rest Hp _ IH]; simpl.
  - reflexivity.
  - unfold meets_elevation in Hp. rewrite Hp. exact IH.
Qed.

(** With an empty list of durations the first line is printed and
    [max] raises. *)
Lemma no_available_passes_without_durations (E contact_seconds : Z)
    (log : list event) :
  no_available_passes E (Some contact_seconds) [] log
  = ((log ++ [Print (NoAvailablePasses E (Z.quot contact_seconds 60))])%list,
     Raise ValueError).
Proof. reflexivity. Qed.

(** With the whole pass asked for, [contact_seconds] was never assigned. *)
Lemma no_available_passes_whole_pass (E : Z)
    (durations : list Timedelta.timedelta) (log : list event) :
  no_available_passes E None durations log = (log, Raise UnboundLocalError).
Proof. reflexivity. Qed.

(** C4. One fetched pass of 600 seconds with maximum elevation 45 degrees,
    minimum elevation 80 and a contact of 4 minutes: no pass is suitable,
    [schedule_contact] prints that no pass is available and then raises
    [ValueError] at [max] of the empty list of durations; no line about the
    longest pass is printed. *)
Theorem schedule_contact_no_pass_meets_elevation :
  schedule_contact (sample_client [morning_pass]) sample_answers
                   high_elevation_answers []
  = ([ListSatellites; ListMissionProfiles; ListMissionProfiles;
      ListSatellites; ListGroundStations "33333333-4444";
      ListContacts (request_for sample_selection ["AVAILABLE"] "Ohio 1");
      Print (Text "Contacts shorter than the complete pass are scheduled in the middle of the contact window to maximize elevation.");
      Print (NoAvailablePasses 80 4)],
     Raise ValueError).
Proof. vm_compute. reflexivity. Qed.

(** The same with the whole pass asked for: [UnboundLocalError], nothing
    printed. *)
Example schedule_contact_no_pass_whole :
  schedule_contact (sample_client [morning_pass]) sample_answers
                   high_elevation_whole_answers []
  = ([ListSatellites; ListMissionProfiles; ListMissionProfiles;
      ListSatellites; ListGroundStations "33333333-4444";
      ListContacts (request_for sample_selection ["AVAILABLE"] "Ohio 1")],
     Raise UnboundLocalError).
Proof. vm_compute. reflexivity. Qed.

(** When the pass meets the elevation and is too short for the contact, the
    line about the longest pass is printed; for the pass of ten minutes,
    ["0:10:00"] cut at ["0:"], its text is ["1"]. *)
Example schedule_contact_longest_pass :
  printed (fst (schedule_contact (sample_client [morning_pass])
                  sample_answers long_contact_answers []))
  = [Text "Contacts shorter than the complete pass are scheduled in the middle of the contact window to maximize elevation.";
     NoAvailablePasses 40 15;
     LongestPass "1"].
Proof. vm_compute. reflexivity. Qed.

(** ** Row-to-record reconciliation *)

Lemma cancellations_app (l1 l2 : list event) :
  cancellations (l1 ++ l2) = (cancellations l1 ++ cancellations l2)%list.
Proof.
  induction l1 as [|e l1 IH]; simpl.
  - reflexivity.
  - destruct e; simpl; rewrite IH; reflexivity.
Qed.

Lemma for_each_cons {A : Type} (x : A) (l : list A) (body : A -> M unit)
    (log : list event) :
  for_each (x :: l) body log
  = match body x log with
    | (log', Ok _) => for_each l body log'
    | (log', Raise e) => (log', Raise e)
    end.
Proof. reflexivity. Qed.


(** A record whose start is not [==] to the target is passed over. *)
Lemma cancel_record_other (gs_client : GroundStation.client)
    (target : Datetime.datetime) (record : contact) (log : list event) :
  Datetime.eq_utc (GroundStation.tzinfo gs_client) (startTime record) target
  = false ->
  cancel_record gs_client target record log = (log, Ok tt)
  /\ list_record gs_client target record log = (log, Ok tt).
Proof.
  intros Hne. unfold cancel_record, list_record.
  rewrite Hne. split; reflexivity.
Qed.

(** A record whose start is [==] to the target is cancelled, once. *)
Lemma cancel_record_match (gs_client : GroundStation.client)
    (target : Datetime.datetime) (record : contact) (log : list event) :
  answers_calls gs_client ->
  has_profile_id record ->
  Datetime.eq_utc (GroundStation.tzinfo gs_client) (startTime record) target
  = true ->
  exists trace,
    cancel_record gs_client target record log = ((log ++ trace)%list, Ok tt)
    /\ cancellations trace = [contactId record].
Proof.
  intros [Hget Hcancel] [id Hid] Heq.
  unfold cancel_record, get_mission_profile_name.
  rewrite Heq.
  unfold bind, lift, call, print, emit. rewrite Hid.
  destruct (Hget log id) as [name ->].
  match goal with
  | |- context [GroundStation.cancel_contact gs_client ?l ?c] =>
      destruct (Hcancel l c) as [cancellation ->]
  end.
  eexists. split.
  - rewrite <- !app_assoc. reflexivity.
  - reflexivity.
Qed.



(** C7, as the code has it.  For every selected line, every client that
    answers its calls and every fetched list whose records have a mission
    profile ARN with an identifier after a [/], the loop cancels every
    record of the list whose start is [==] to the timestamp of the line
    (the same instant, and a local time that is not one of a repeated
    hour), one call each, in the order of the list, and returns. *)
Theorem cancel_target_cancels_every_match (gs_client : GroundStation.client)
    (responce : list contact) (target_contact : contact_row)
    (log : list event) :
  answers_calls gs_client ->
  Forall has_profile_id responce ->
  snd (cancel_target gs_client responce target_contact log) = Ok tt
  /\ cancellations (fst (cancel_target gs_client responce target_contact log))
     = (cancellations log
        ++ map contactId
               (filter (matches gs_client target_contact) responce))%list.
Proof.
  intros Hanswers Hids. unfold cancel_target. revert log.
  induction Hids as [|record rest Hid _ IH]; intros log.
  - simpl. rewrite app_nil_r. split; reflexivity.
  - rewrite for_each_cons. simpl filter. unfold matches at 1.
    destruct (Datetime.eq_utc (GroundStation.tzinfo gs_client)
                (startTime record)
                (target_contact_start_datetime target_contact)) eqn:Hm.
    + destruct (cancel_record_match gs_client _ record log Hanswers Hid Hm)
        as [trace [-> Htrace]].
      destruct (IH (log ++ trace)%list) as [-> ->]. split; [reflexivity|].
      rewrite cancellations_app, Htrace, <- app_assoc. reflexivity.
    + destruct (cancel_record_other gs_client _ record log Hm) as [-> _].
      apply IH.
Qed.

Lemma cancel_target_cancels_every_match_witness :
  snd (cancel_target (sample_client [])
         [contact_ohio; contact_oregon; contact_later]
         (contact_details contact_ohio "profile") []) = Ok tt
  /\ cancellations
       (fst (cancel_target (sample_client [])
               [contact_ohio; contact_oregon; contact_later]
               (contact_details contact_ohio "profile") []))
     = ["contact-ohio"; "contact-oregon"].
Proof.
  apply (cancel_target_cancels_every_match (sample_client [])
           [contact_ohio; contact_oregon; contact_later]
           (contact_details contact_ohio "profile") []).
  - split; intros; eexists; reflexivity.
  - repeat constructor; eexists; vm_compute; reflexivity.
Defined.

(** C7, as it is worded, fails: two records start at the second of the
    selected line, and both are cancelled. *)
Lemma cancel_target_two_calls :
  ~ (List.length
       (cancellations
          (fst (cancel_target (sample_client [])
                  [contact_ohio; contact_oregon; contact_later]
                  (contact_details contact_ohio "profile") [])))
     <= 1)%nat.
Proof. vm_compute. intros H. inversion H as [|n H']. inversion H'. Qed.

(** ** What a run adds to the log *)

Section Emits.
Context (ok : event -> Prop).

Lemma emits_ret {A : Type} (a : A) : emits ok (ret a).
Proof. intros log. exists []. rewrite app_nil_r. split; [reflexivity | constructor]. Qed.

Lemma emits_lift {A : Type} (r : result A) : emits ok (lift r).
Proof. intros log. exists []. rewrite app_nil_r. split; [reflexivity | constructor]. Qed.

Lemma emits_emit (e : event) : ok e -> emits ok (emit e).
Proof. intros He log. exists [e]. split; [reflexivity | repeat constructor; exact He]. Qed.

Lemma emits_print (o : output) : ok (Print o) -> emits ok (print o).
Proof. apply emits_emit. Qed.

Lemma emits_main : ok Main -> emits ok main.
Proof. apply emits_emit. Qed.

Lemma emits_call {A : Type} (e : event) (answer : list event -> result A) :
  ok e -> emits ok (call e answer).
Proof. intros He log. exists [e]. split; [reflexivity | repeat constructor; exact He]. Qed.

Lemma emits_bind {A B : Type} (c : M A) (k : A -> M B) :
  emits ok c -> (forall a, emits ok (k a)) -> emits ok (bind c k).
Proof.
  intros Hc Hk log. unfold bind.
  destruct (Hc log) as [t1 [E1 F1]].
  destruct (c log) as [log1 [a|e]]; simpl in E1; subst log1.
  - destruct (Hk a (log ++ t1)%list) as [t2 [E2 F2]].
    exists (t1 ++ t2)%list. rewrite E2, app_assoc.
    split; [reflexivity | apply Forall_app; split; assumption].
  - exists t1. split; [reflexivity | exact F1].
Qed.

Lemma emits_for_each {A : Type} (l : list A) (body : A -> M unit) :
  (forall x, In x l -> emits ok (body x)) -> emits ok (for_each l body).
Proof.
  induction l as [|x l IH]; intros Hbody; simpl.
  - apply emits_ret.
  - apply emits_bind.
    + apply Hbody. left. reflexivity.
    + intros _. apply IH. intros y Hy. apply Hbody. right. exact Hy.
Qed.

Lemma emits_for_collect {A B : Type} (l : list A) (body : A -> M B) :
  (forall x, In x l -> emits ok (body x)) -> emits ok (for_collect l body).
Proof.
  induction l as [|x l IH]; intros Hbody; simpl.
  - apply emits_ret.
  - apply emits_bind.
    + apply Hbody. left. reflexivity.
    + intros y. apply emits_bind.
      * apply IH. intros z Hz. apply Hbody. right. exact Hz.
      * intros ys. apply emits_ret.
Qed.

End Emits.

Lemma emits_weaken {A : Type} (ok ok' : event -> Prop) (c : M A) :
  (forall e, ok e -> ok' e) -> emits ok c -> emits ok' c.
Proof.
  intros Himp Hc log. destruct (Hc log) as [t [E F]].
  exists t. split; [exact E | eapply Forall_impl; [exact Himp | exact F]].
Qed.

Lemma returns_ret {A : Type} (P : A -> Prop) (a : A) :
  P a -> returns P (ret a).
Proof. intros Ha log b [= <-]. exact Ha. Qed.

Lemma returns_bind {A B : Type} (P : B -> Prop) (c : M A) (k : A -> M B) :
  (forall a, returns P (k a)) -> returns P (bind c k).
Proof.
  intros Hk log b. unfold bind.
  destruct (c log) as [log1 [a|e]]; [apply Hk | intros [=]].
Qed.

Lemma quiet_within (ids : list string) (e : event) :
  not_cancellation e -> cancels_within ids e.
Proof. destruct e; simpl; intros H; solve [exact I | contradiction]. Qed.

Create HintDb emits.
#[local] Hint Resolve emits_ret emits_lift emits_bind emits_print emits_main
  emits_call emits_emit : emits.
#[local] Hint Extern 1 (not_cancellation _) => exact I : emits.
#[local] Hint Extern 1 (cancels_within _ _) => exact I : emits.

Lemma no_cancellation_in (trace : list event) :
  Forall not_cancellation trace -> cancellations trace = [].
Proof.
  induction 1 as [|e trace He _ IH]; simpl.
  - reflexivity.
  - destruct e; simpl in He; try exact IH. contradiction.
Qed.

Lemma cancellations_within (ids : list string) (trace : list event) :
  Forall (cancels_within ids) trace ->
  forall id, In id (cancellations trace) -> In id ids.
Proof.
  induction 1 as [|e trace He _ IH]; simpl; intros id Hin.
  - contradiction.
  - destruct e; simpl in He; try (apply IH; exact Hin).
    destruct Hin as [<-|Hin]; [exact He | apply IH; exact Hin].
Qed.

(** Looking up the name of a mission profile cancels nothing. *)
Lemma get_mission_profile_name_quiet (gs_client : GroundStation.client)
    (arn : string) :
  emits not_cancellation (get_mission_profile_name gs_client arn).
Proof. unfold get_mission_profile_name. auto with emits. Qed.

(** Runs made of prints, look-ups and loops over them. *)
Ltac quiet :=
  repeat first
    [ apply emits_ret
    | apply emits_lift
    | apply emits_print; exact I
    | apply emits_main; exact I
    | apply emits_call; exact I
    | apply get_mission_profile_name_quiet
    | apply emits_bind; [|intros]
    | apply emits_for_collect; intros
    | apply emits_for_each; intros ].

Lemma list_target_quiet (gs_client : GroundStation.client)
    (responce : list contact) (target_contact : contact_row) :
  emits not_cancellation (list_target gs_client responce target_contact).
Proof.
  unfold list_target. apply emits_for_each. intros record _.
  unfold list_record.
  destruct (Datetime.eq_utc _ _ _);
    auto using get_mission_profile_name_quiet with emits.
Qed.

(** The second loop cancels records of the fetched list only. *)
Lemma cancel_target_within (gs_client : GroundStation.client)
    (responce : list contact) (target_contact : contact_row) :
  emits (cancels_within (map contactId responce))
        (cancel_target gs_client responce target_contact).
Proof.
  unfold cancel_target. apply emits_for_each. intros record Hin.
  unfold cancel_record. destruct (Datetime.eq_utc _ _ _); [|auto with emits].
  apply emits_bind.
  - eapply emits_weaken; [apply quiet_within|].
    apply get_mission_profile_name_quiet.
  - intros name. repeat (apply emits_bind; [auto with emits | intros]).
    + apply emits_call. simpl. apply in_map. exact Hin.
    + auto with emits.
Qed.

(** ** Which records a cancellation can name *)

Lemma fetched_with_later (gs_client : GroundStation.client)
    (statusList : list string) (log trace : list event) (record : contact) :
  fetched_with gs_client statusList log record ->
  fetched_with gs_client statusList (log ++ trace) record.
Proof.
  intros (req & before & after & pass_list & -> & Hst & Hcall & Hin).
  exists req, before, (after ++ trace)%list, pass_list.
  rewrite <- app_assoc. simpl. auto.
Qed.

(** The fetch loop of [get_contacts]: one call per ground station, and
    every list it collects is the answer to one of them. *)
Lemma fetch_loop (gs_client : GroundStation.client) (sel : selection)
    (contact_type : list string) :
  forall (stations : list string) (log : list event),
    let fetch :=
      for_collect stations (fun ground_station =>
        call (ListContacts (request_for sel contact_type ground_station))
             (fun log' =>
                GroundStation.list_contacts gs_client log'
                  (request_for sel contact_type ground_station))) in
    exists trace,
      fst (fetch log) = (log ++ trace)%list
      /\ Forall not_cancellation trace
      /\ forall all_passes,
           snd (fetch log) = Ok all_passes ->
           forall pass_list, In pass_list all_passes ->
             exists ground_station before after,
               In ground_station stations
               /\ (log ++ trace)%list
                  = (before
                     ++ ListContacts
                          (request_for sel contact_type ground_station)
                     :: after)%list
               /\ GroundStation.list_contacts gs_client before
                    (request_for sel contact_type ground_station)
                  = Ok pass_list.
Proof.
  induction stations as [|station rest IH]; intros log fetch; subst fetch.
  - exists []. rewrite app_nil_r. simpl. repeat split; [constructor|].
    intros all_passes [= <-] pass_list [].
  - simpl for_collect. unfold bind, call in IH |- *.
    set (req := request_for sel contact_type station).
    set (ev := ListContacts req).
    destruct (GroundStation.list_contacts gs_client log req)
      as [answer|e] eqn:Hanswer.
    + destruct (IH (log ++ [ev])%list) as (trace & E & F & Hall).
      destruct (for_collect rest _ (log ++ [ev])%list)
        as [log1 [answers|e]] eqn:Hrest; simpl in E, Hall |- *; subst log1.
      * exists (ev :: trace). rewrite <- app_assoc. simpl.
        repeat split; [constructor; [exact I | exact F]|].
        intros all_passes [= <-] pass_list [<-|Hin].
        -- exists station, log, trace. auto.
        -- destruct (Hall answers eq_refl pass_list Hin)
             as (gs & before & after & Hgs & Hlog & Hcall).
           exists gs, before, after. rewrite <- app_assoc in Hlog. auto.
      * exists (ev :: trace). rewrite <- app_assoc. simpl.
        repeat split; [constructor; [exact I | exact F]|].
        intros all_passes [=].
    + exists [ev]. simpl.
      repeat split; [repeat constructor|]. intros all_passes [=].
Qed.

(** Every record that the requests of [get_contacts] return was in the
    answer to one of its [list_contacts] calls, made with the status filter
    it was given. *)
Lemma fetch_passes_fetches (gs_client : GroundStation.client)
    (sel : selection) (contact_type : list string) (log : list event) :
  exists trace,
    fst (fetch_passes gs_client sel contact_type log) = (log ++ trace)%list
    /\ Forall not_cancellation trace
    /\ forall passes profile satellite,
         snd (fetch_passes gs_client sel contact_type log)
         = Ok (passes, profile, satellite) ->
         forall record, In record passes ->
           fetched_with gs_client contact_type (log ++ trace) record.
Proof.
  destruct (fetch_loop gs_client sel contact_type
              (selected_groundstations sel) log) as (trace & E & F & Hall).
  unfold fetch_passes, bind.
  change (fun ground_station : string => _)
    with (fun ground_station =>
            call (ListContacts (request_for sel contact_type ground_station))
              (fun log' =>
                 GroundStation.list_contacts gs_client log'
                   (request_for sel contact_type ground_station))).
  cbv zeta in E, Hall.
  destruct (for_collect (selected_groundstations sel) _ log)
    as [log1 [all_passes|e]]; simpl in E, Hall |- *; subst log1.
  - exists trace. repeat split; [exact F|].
    intros passes profile satellite [= <- _ _] record Hin.
    apply (Permutation_in _ (Permutation_sym
                               (flat_passes_permutation all_passes))) in Hin.
    apply in_concat in Hin. destruct Hin as (pass_list & Hpl & Hrec).
    destruct (Hall all_passes eq_refl pass_list Hpl)
      as (gs & before & after & _ & Hlog & Hcall).
    exists (request_for sel contact_type gs), before, after, pass_list. auto.
  - exists trace. repeat split; [exact F|]. intros ? ? ? [=].
Qed.

(** The selector stage and the contact window only list satellites,
    mission profiles and ground stations, print, and start the main menu. *)
Ltac selecting :=
  repeat first
    [ apply emits_ret
    | apply emits_lift
    | apply emits_print; exact I
    | apply emits_main; exact I
    | apply emits_call; exact I
    | apply emits_bind; [|intros]
    | match goal with
      | |- emits _ (if ?b then _ else _) => destruct b
      | |- emits _ (match ?x with _ => _ end) => destruct x
      end ].

Lemma ask_contact_window_events
    (direction today scheduling_window_end : string) (lines : list string) :
  emits selector_event
        (ask_contact_window direction today scheduling_window_end lines).
Proof.
  intros log. unfold ask_contact_window.
  assert (Hprints : forall st, Forall selector_event (window_prints st)).
  { intros st. unfold window_prints. apply Forall_map, Forall_forall.
    intros message _. exact I. }
  destruct (get_contact_window _ _ _ _) as [[st|st|st]|].
  - exists (window_prints st). split; [reflexivity | apply Hprints].
  - exists (window_prints st). split; [reflexivity | apply Hprints].
  - exists (window_prints st). split; [reflexivity | apply Hprints].
  - exists []. rewrite app_nil_r. split; [reflexivity | constructor].
Qed.

Lemma get_contacts_selector_events (gs_client : GroundStation.client)
    (ans : selector_answers) :
  emits selector_event (get_contacts_selector gs_client ans).
Proof.
  unfold get_contacts_selector, get_satellite_list, get_mission_profile_list,
    get_mission_profile_arn, get_satellite_arn,
    get_onboarded_ground_stations.
  selecting.
Qed.

Lemma get_contacts_selection_events (gs_client : GroundStation.client)
    (asked : contacts_answers) (contact_type : list string) :
  emits selector_event (get_contacts_selection gs_client asked contact_type).
Proof.
  unfold get_contacts_selection.
  apply emits_bind; [apply get_contacts_selector_events|].
  intros [[profile satellite] stations].
  apply emits_bind; [apply ask_contact_window_events|].
  intros [start_date end_date]. apply emits_ret.
Qed.

Lemma selector_event_quiet (e : event) :
  selector_event e -> not_cancellation e.
Proof. destruct e; simpl; intros H; solve [exact I | contradiction]. Qed.

(** Every record that [get_contacts] returns was in the answer to one of its
    [list_contacts] calls, made with the status filter it was given. *)
Lemma get_contacts_fetches (gs_client : GroundStation.client)
    (asked : contacts_answers) (contact_type : list string)
    (log : list event) :
  exists trace,
    fst (get_contacts gs_client asked contact_type log) = (log ++ trace)%list
    /\ Forall not_cancellation trace
    /\ forall passes profile satellite,
         snd (get_contacts gs_client asked contact_type log)
         = Ok (passes, profile, satellite) ->
         forall record, In record passes ->
           fetched_with gs_client contact_type (log ++ trace) record.
Proof.
  destruct (emits_weaken _ _ _ selector_event_quiet
              (get_contacts_selection_events gs_client asked contact_type)
              log) as (t0 & E0 & F0).
  unfold get_contacts, bind.
  destruct (get_contacts_selection gs_client asked contact_type log)
    as [log0 [sel|e]]; simpl in E0; subst log0.
  - destruct (fetch_passes_fetches gs_client sel contact_type
                (log ++ t0)%list) as (t1 & E1 & F1 & Hfetched).
    exists (t0 ++ t1)%list. rewrite app_assoc.
    repeat split; [exact E1 | apply Forall_app; split; assumption | exact Hfetched].
  - exists t0. repeat split; [exact F0|]. intros ? ? ? [=].
Qed.

(** What [get_contacts] returns is the merge of the lists it fetched, so it
    is sorted by start time. *)
Lemma get_contacts_sorted (gs_client : GroundStation.client)
    (asked : contacts_answers) (contact_type : list string) :
  returns (fun out =>
             StronglySorted (fun a b => startTime a <= startTime b)
                            (fst (fst out)))
          (get_contacts gs_client asked contact_type).
Proof.
  unfold get_contacts, fetch_passes. apply returns_bind. intros sel.
  apply returns_bind. intros all_passes.
  apply returns_ret. apply (sort_sorted startTime).
Qed.

(** [view_contact] for a cancellation cancels nothing itself, and what it
    returns was fetched with the status filter SCHEDULED. *)
Lemma view_contact_fetches (gs_client : GroundStation.client)
    (asked : contacts_answers) (log : list event) :
  exists trace,
    fst (view_contact gs_client asked true log) = (log ++ trace)%list
    /\ Forall not_cancellation trace
    /\ forall scheduled_contacts responce,
         snd (view_contact gs_client asked true log)
         = Ok (scheduled_contacts, responce) ->
         forall record, In record responce ->
           fetched_with gs_client ["SCHEDULED"] (log ++ trace) record.
Proof.
  destruct (get_contacts_fetches gs_client asked ["SCHEDULED"] log)
    as (t1 & E1 & F1 & Hfetched).
  destruct (view_contact gs_client asked true log) as [final outcome] eqn:Hview.
  unfold view_contact in Hview. unfold bind at 1 in Hview.
  destruct (get_contacts gs_client asked ["SCHEDULED"] log)
    as [log1 [[[responce profile] satellite]|e]]; simpl in E1, Hfetched;
    subst log1.
  - set (rest := match responce with [] => _ | _ :: _ => _ end) in Hview.
    assert (Hrest : emits not_cancellation rest).
    { subst rest. destruct responce as [|record others]; quiet. }
    assert (Hsame : returns (fun out => snd out = responce) rest).
    { subst rest. destruct responce as [|record others];
        repeat (apply returns_bind; intros); apply returns_ret; reflexivity. }
    destruct (Hrest (log ++ t1)%list) as (t2 & E2 & F2).
    rewrite Hview in E2. simpl in E2. subst final.
    exists (t1 ++ t2)%list. rewrite app_assoc. simpl.
    repeat split; [apply Forall_app; split; assumption|].
    intros sc r' Hok record Hin. subst outcome.
    assert (Hr : snd (sc, r') = responce)
      by (apply (Hsame (log ++ t1)%list); rewrite Hview; reflexivity).
    simpl in Hr. subst r'.
    apply fetched_with_later.
    apply (Hfetched responce profile satellite eq_refl record Hin).
  - injection Hview as <- <-. exists t1. simpl.
    repeat split; [exact F1|]. intros ? ? [=].
Qed.

(** C10. Every cancellation call that a run of [cancel_contact] adds to the
    log names the [contactId] of a record that was in the answer to a
    [list_contacts] call of that run made with the status filter
    SCHEDULED. *)
Theorem cancellations_were_fetched_scheduled
    (gs_client : GroundStation.client) (asked : contacts_answers)
    (ans : cancel_answers) (log : list event) (id : string) :
  In id (cancellations (fst (cancel_contact gs_client asked ans log))) ->
  In id (cancellations log)
  \/ exists record,
       contactId record = id
       /\ fetched_with gs_client ["SCHEDULED"]
            (fst (cancel_contact gs_client asked ans log)) record.
Proof.
  destruct (view_contact_fetches gs_client asked log)
    as (t1 & E1 & F1 & Hfetched).
  destruct (cancel_contact gs_client asked ans log) as [final outcome] eqn:Hrun.
  unfold cancel_contact in Hrun. unfold bind at 1 in Hrun.
  destruct (view_contact gs_client asked true log)
    as [log1 [[scheduled_contacts responce]|e]]; simpl in E1, Hfetched;
    subst log1.
  - set (rest := bind _ _) in Hrun.
    assert (Hrest : emits (cancels_within (map contactId responce)) rest).
    { subst rest. apply emits_bind; [apply emits_print; exact I | intros _].
      destruct scheduled_contacts as [|row rows]; [apply emits_ret|].
      apply emits_bind;
        [destruct (checkbox_canceled_contacts ans); quiet | intros _].
      apply emits_bind; [apply emits_print; exact I | intros _].
      apply emits_bind; [apply emits_print; exact I | intros _].
      apply emits_bind.
      { apply emits_for_each. intros target _.
        eapply emits_weaken; [apply quiet_within | apply list_target_quiet]. }
      intros _. destruct (cancel_continue ans).
      - apply emits_bind.
        + apply emits_for_each. intros target _. apply cancel_target_within.
        + intros _. apply emits_main. exact I.
      - apply emits_bind; [apply emits_print; exact I | intros _].
        apply emits_main. exact I. }
    destruct (Hrest (log ++ t1)%list) as (t2 & E2 & F2).
    rewrite Hrun in E2. simpl in E2. subst final. simpl.
    rewrite !cancellations_app, (no_cancellation_in t1 F1), app_nil_r.
    intros Hin. apply in_app_or in Hin. destruct Hin as [Hin|Hin].
    + left. exact Hin.
    + right. apply (cancellations_within _ _ F2) in Hin.
      apply in_map_iff in Hin. destruct Hin as (record & Hid & Hrec).
      exists record. split; [exact Hid|].
      apply fetched_with_later.
      apply (Hfetched scheduled_contacts responce eq_refl record Hrec).
  - injection Hrun as <- <-. simpl.
    rewrite cancellations_app, (no_cancellation_in t1 F1), app_nil_r.
    intros Hin. left. exact Hin.
Qed.

Lemma cancellations_were_fetched_scheduled_witness :
  In "contact-ohio" (cancellations [])
  \/ exists record,
       contactId record = "contact-ohio"
       /\ fetched_with
            (sample_client [contact_ohio; contact_oregon; contact_later])
            ["SCHEDULED"]
            (fst (cancel_contact
                    (sample_client [contact_ohio; contact_oregon; contact_later])
                    sample_answers cancel_ohio_answers []))
            record.
Proof.
  apply (cancellations_were_fetched_scheduled
           (sample_client [contact_ohio; contact_oregon; contact_later])
           sample_answers cancel_ohio_answers [] "contact-ohio").
  vm_compute. left. reflexivity.
Defined.

(** The other two operations of the root menu issue no cancellation at
    all. *)
Lemma get_contacts_quiet (gs_client : GroundStation.client)
    (asked : contacts_answers) (contact_type : list string) :
  emits not_cancellation (get_contacts gs_client asked contact_type).
Proof.
  unfold get_contacts. apply emits_bind.
  - eapply emits_weaken; [apply selector_event_quiet|].
    apply get_contacts_selection_events.
  - intros sel. unfold fetch_passes. quiet.
Qed.

Lemma view_contact_quiet (gs_client : GroundStation.client)
    (asked : contacts_answers) (cancel : bool) :
  emits not_cancellation (view_contact gs_client asked cancel).
Proof.
  unfold view_contact. apply emits_bind; [apply get_contacts_quiet|].
  intros [[[|record responce] profile] satellite]; quiet.
Qed.

Lemma schedule_contact_quiet (gs_client : GroundStation.client)
    (asked : contacts_answers) (ans : schedule_answers) :
  emits not_cancellation (schedule_contact gs_client asked ans).
Proof.
  unfold schedule_contact, no_available_passes.
  apply emits_bind; [apply get_contacts_quiet|].
  intros [[pass_list profile] satellite].
  apply emits_bind; [quiet | intros minimum_elevation].
  apply emits_bind;
    [destruct (whole_duration ans); quiet | intros contact_seconds].
  apply emits_bind; [quiet | intros [suitable_passes durations]].
  destruct suitable_passes as [|p suitable]; [quiet|].
  apply emits_bind; [destruct (whole_duration ans); quiet | intros seconds].
  apply emits_bind;
    [destruct (checkbox_selected_passes ans); quiet | intros _].
  apply emits_bind; [quiet | intros _].
  apply emits_bind; [quiet | intros _].
  apply emits_bind; [quiet | intros _].
  destruct (schedule_continue ans); [|quiet].
  apply emits_bind; [|intros _; quiet].
  apply emits_for_each. intros selected_pass _.
  unfold schedule_selected_pass.
  destruct (print_selected_contacts selected_pass (whole_duration ans) seconds)
    as [details [[start_datetime end_datetime] groundstation]].
  quiet.
Qed.

(** * Further properties *)

(** ** The contact time resolver, on every pass *)

Lemma same_day_whole_pass_witness :
  reserve_pass morning_pass true 0
  = (startTime morning_pass, endTime morning_pass).
Proof. apply (same_day_whole_pass morning_pass 0). reflexivity. Defined.

Lemma same_day_partial_centred_witness :
  let '(start_datetime, end_datetime) :=
    reserve_pass morning_pass false (60 * 4) in
  60 * 4 <= end_datetime - start_datetime <= 60 * 4 + 1
  /\ startTime morning_pass <= start_datetime
  /\ start_datetime <= end_datetime
  /\ end_datetime <= endTime morning_pass
  /\ start_datetime - startTime morning_pass
     = endTime morning_pass - end_datetime.
Proof.
  apply (same_day_partial_centred morning_pass 4).
  - reflexivity.
  - lia.
  - simpl. unfold day0. lia.
Defined.

(** X3. A pass that ends on the UTC date after the one it starts on, with the
    whole pass asked for: the returned interval starts with the pass and
    ends one day before the pass does. *)
Lemma next_day_whole_pass (_pass : contact) (contact_seconds : Z) :
  Datetime.date (endTime _pass) = Datetime.date (startTime _pass) + 1 ->
  reserve_pass _pass true contact_seconds
  = (startTime _pass, endTime _pass - 86400).
Proof.
  intros Hday. rewrite reserve_pass_whole, strptime_date_time_inverse.
  f_equal.
  unfold Datetime.strptime_date_time, Datetime.date, Datetime.time in *.
  div_lia.
Qed.

Lemma next_day_whole_pass_witness :
  reserve_pass midnight_pass true 0
  = (startTime midnight_pass, endTime midnight_pass - 86400).
Proof. apply (next_day_whole_pass midnight_pass 0). reflexivity. Defined.

(** X4. A pass that ends on the UTC date after the one it starts on and is
    shorter than twelve hours, with a contact that fits in it: the
    interval that [print_selected_contacts] returns is the centred one
    moved twelve hours earlier. *)
Lemma next_day_partial_contact (_pass : contact) (contact_seconds : Z) :
  Datetime.date (endTime _pass) = Datetime.date (startTime _pass) + 1 ->
  0 <= contact_seconds ->
  60 * Z.quot contact_seconds 60 <= endTime _pass - startTime _pass ->
  endTime _pass - startTime _pass < 43200 ->
  let offset :=
    (endTime _pass - startTime _pass - 60 * Z.quot contact_seconds 60) / 2 in
  reserve_pass _pass false contact_seconds
  = (startTime _pass + offset - 43200, endTime _pass - offset - 43200).
Proof.
  intros Hday Hpos Hfit Hshort. cbv zeta.
  rewrite reserve_pass_partial. cbv zeta.
  rewrite contact_offset_floor.
  unfold Datetime.add, Datetime.sub, Datetime.strptime_time,
    Datetime.strptime_date_time, Datetime.time, Datetime.date,
    Datetime.default_date, Timedelta.of_seconds in *.
  set (s := startTime _pass) in *. set (e := endTime _pass) in *.
  set (r := 60 * Z.quot contact_seconds 60) in *.
  assert (Hr : 0 <= r) by (unfold r; div_lia).
  clearbody s e r. clear Hpos.
  assert (Hs : e mod 86400 - s mod 86400 = e - s - 86400) by div_lia.
  rewrite Hs.
  set (k := (e - s - r) / 2).
  assert (Hk : 0 <= k <= e - s) by (unfold k; div_lia).
  replace (1000000 * ((e - s - 86400 - r) / 2) / 1000000) with (k - 43200)
    by (unfold k; div_lia).
  clearbody k.
  f_equal.
  - assert (T : (86400 * -25567 + s mod 86400 + (k - 43200)) mod 86400
                = s mod 86400 + k - 43200) by div_lia.
    rewrite T. div_lia.
  - assert (T : (86400 * -25567 + e mod 86400 - (k - 43200)) mod 86400
                = e mod 86400 - k + 43200) by div_lia.
    rewrite T. div_lia.
Qed.

Lemma next_day_partial_contact_witness :
  reserve_pass midnight_pass false 240
  = (startTime midnight_pass + 180 - 43200,
     endTime midnight_pass - 180 - 43200).
Proof.
  apply (next_day_partial_contact midnight_pass 240).
  - reflexivity.
  - lia.
  - simpl. unfold day0. lia.
  - simpl. unfold day0. lia.
Defined.

(** ** More on runs: what they return and what they add to the log *)

Lemma returns_bind_with {A B : Type} (P : A -> Prop) (Q : B -> Prop)
    (c : M A) (k : A -> M B) :
  returns P c -> (forall a, P a -> returns Q (k a)) -> returns Q (bind c k).
Proof.
  intros Hc Hk log b. unfold bind.
  destruct (c log) as [log1 [a|e]] eqn:Hrun; [|intros [=]].
  apply (Hk a). apply (Hc log). rewrite Hrun. reflexivity.
Qed.

Lemma returns_for_collect {A B : Type} (R : A -> B -> Prop) (l : list A)
    (body : A -> M B) :
  (forall x, In x l -> returns (R x) (body x)) ->
  returns (Forall2 R l) (for_collect l body).
Proof.
  induction l as [|x l IH]; intros Hbody; simpl.
  - apply returns_ret. constructor.
  - apply returns_bind_with with (P := R x).
    + apply Hbody. left. reflexivity.
    + intros y Hy. apply returns_bind_with with (P := Forall2 R l).
      * apply IH. intros z Hz. apply Hbody. right. exact Hz.
      * intros ys Hys. apply returns_ret. constructor; assumption.
Qed.

(** Runs made of prints, calls and loops over them, for a condition on the
    events that holds of each of them by computation. *)
Ltac harmless :=
  unfold get_mission_profile_name;
  repeat first
    [ apply emits_ret
    | apply emits_lift
    | apply emits_print; exact I
    | apply emits_main; exact I
    | apply emits_call; exact I
    | apply emits_bind; [|intros]
    | apply emits_for_collect; intros
    | apply emits_for_each; intros ].

Lemma reservations_app (l1 l2 : list event) :
  reservations (l1 ++ l2) = (reservations l1 ++ reservations l2)%list.
Proof.
  induction l1 as [|e l1 IH]; simpl.
  - reflexivity.
  - destruct e; simpl; rewrite IH; reflexivity.
Qed.

Lemma no_reservation_in (trace : list event) :
  Forall not_reservation trace -> reservations trace = [].
Proof.
  induction 1 as [|e trace He _ IH]; simpl.
  - reflexivity.
  - destruct e; simpl in He; try exact IH. contradiction.
Qed.

(** ** The diagnostic about the longest pass *)

Lemma shows_longest_pass_under_an_hour :
  forallb shows_longest_pass (integers_from 0 3600) = true.
Proof. vm_compute. reflexivity. Qed.

(** X5. When some pass meets the elevation and the longest of them lasts [d]
    seconds, less than an hour, the branch without a suitable pass prints
    its two lines and returns; the second line shows the minutes and the
    seconds of [d], but only the tens of the minutes when the minutes are a
    multiple of ten (["1"] for ten minutes). *)
Theorem no_available_passes_text (E contact_seconds d : Z)
    (durations : list Timedelta.timedelta) (log : list event) :
  py_max durations = Ok (Timedelta.of_seconds d) ->
  0 <= d < 3600 ->
  no_available_passes E (Some contact_seconds) durations log
  = ((log ++ [Print (NoAvailablePasses E (Z.quot contact_seconds 60));
              Print (LongestPass (longest_pass_text d))])%list,
     Ok tt).
Proof.
  intros Hmax Hd.
  pose proof shows_longest_pass_under_an_hour as All.
  rewrite forallb_forall in All.
  specialize (All d (integers_from_complete 3600 0 d ltac:(lia))).
  unfold shows_longest_pass in All.
  unfold no_available_passes, bind, lift, read_local, print, emit.
  rewrite Hmax.
  destruct (index _ 1) as [text|e]; [|discriminate].
  apply String.eqb_eq in All. subst text.
  rewrite <- app_assoc. reflexivity.
Qed.

Lemma no_available_passes_text_witness :
  no_available_passes 40 (Some 900) [pass_length morning_pass] []
  = ([Print (NoAvailablePasses 40 15); Print (LongestPass "1")], Ok tt).
Proof.
  apply (no_available_passes_text 40 900 600 [pass_length morning_pass] []).
  - reflexivity.
  - lia.
Defined.

(** ** Reservations *)

Lemma selector_event_no_reservation (e : event) :
  selector_event e -> not_reservation e.
Proof. destruct e; simpl; intros H; solve [exact I | contradiction]. Qed.

Lemma get_contacts_reserves_nothing (gs_client : GroundStation.client)
    (asked : contacts_answers) (contact_type : list string) :
  emits not_reservation (get_contacts gs_client asked contact_type).
Proof.
  unfold get_contacts. apply emits_bind.
  - eapply emits_weaken; [apply selector_event_no_reservation|].
    apply get_contacts_selection_events.
  - intros sel. unfold fetch_passes. harmless.
Qed.

(** X6. When the confirmation is declined, [schedule_contact] reserves
    nothing, whatever the API answers. *)
Theorem schedule_contact_declined (gs_client : GroundStation.client)
    (asked : contacts_answers) (ans : schedule_answers) (log : list event) :
  schedule_continue ans = false ->
  reservations (fst (schedule_contact gs_client asked ans log))
  = reservations log.
Proof.
  intros Hdeclined.
  assert (Hquiet : emits not_reservation
                     (schedule_contact gs_client asked ans)).
  { unfold schedule_contact, no_available_passes.
    rewrite Hdeclined.
    apply emits_bind; [apply get_contacts_reserves_nothing|].
    intros [[pass_list profile] satellite].
    apply emits_bind; [harmless | intros minimum_elevation].
    apply emits_bind;
      [destruct (whole_duration ans); harmless | intros contact_seconds].
    apply emits_bind; [harmless | intros [suitable_passes durations]].
    destruct suitable_passes as [|p suitable]; [harmless|].
    apply emits_bind; [destruct (whole_duration ans); harmless | intros s].
    apply emits_bind;
      [destruct (checkbox_selected_passes ans); harmless | intros _].
    harmless. }
  destruct (Hquiet log) as [t [E F]].
  rewrite E, reservations_app, (no_reservation_in t F), app_nil_r.
  reflexivity.
Qed.

Lemma schedule_contact_declined_witness :
  reservations (fst (schedule_contact (sample_client [morning_pass])
                       sample_answers declined_answers []))
  = reservations [].
Proof.
  apply (schedule_contact_declined (sample_client [morning_pass])
           sample_answers declined_answers []).
  reflexivity.
Defined.

(** A step that returns hands its value and its log to the next one. *)
Lemma bind_returns {A B : Type} (c : M A) (k : A -> M B)
    (log log' : list event) (a : A) :
  c log = (log', Ok a) -> bind c k log = k a log'.
Proof. intros Hc. unfold bind. rewrite Hc. reflexivity. Qed.

Lemma bind_print {B : Type} (o : output) (k : unit -> M B)
    (log : list event) :
  bind (print o) k log = k tt (log ++ [Print o])%list.
Proof. reflexivity. Qed.

Lemma for_each_prints {A : Type} (f : A -> output) (l : list A) :
  forall log,
    for_each l (fun x => print (f x)) log
    = ((log ++ map (fun x => Print (f x)) l)%list, Ok tt).
Proof.
  induction l as [|x l IH]; intros log.
  - simpl. unfold ret. rewrite app_nil_r. reflexivity.
  - rewrite for_each_cons. unfold print at 1, emit. rewrite IH.
    rewrite <- app_assoc. reflexivity.
Qed.

Lemma reservations_prints {A : Type} (f : A -> output) (l : list A) :
  reservations (map (fun x => Print (f x)) l) = [].
Proof. induction l as [|x l IH]; [reflexivity | exact IH]. Qed.

(** The loop that schedules: one reservation per row, in the order of the
    rows; it goes through all rows unless a reservation raises, and then it
    stops there. *)
Lemma schedule_loop (gs_client : GroundStation.client)
    (profile satellite : string) (ans : schedule_answers) :
  forall (ticked : list pass_row) (log : list event),
    let run :=
      for_each ticked
        (schedule_selected_pass gs_client profile satellite
           (whole_duration ans) (requested_seconds ans)) log in
    exists n,
      reservations (fst run)
      = (reservations log
         ++ map (reservation_of profile satellite ans) (firstn n ticked))%list
      /\ (snd run = Ok tt -> n = List.length ticked)
      /\ (forall e, snd run = Raise e ->
            exists before selected_pass,
              nth_error ticked (Nat.pred n) = Some selected_pass
              /\ (1 <= n)%nat
              /\ reservation_answer gs_client before profile satellite ans
                   selected_pass = Raise e).
Proof.
  induction ticked as [|row ticked IH]; intros log run; subst run.
  - exists 0%nat. simpl. rewrite app_nil_r.
    repeat split. intros e [=].
  - pose proof (eq_refl : reservation_of profile satellite ans row = _)
      as Hres.
    unfold reservation_of in Hres at 2.
    pose proof (fun before =>
                  eq_refl (reservation_answer gs_client before profile
                             satellite ans row)) as Hanswer.
    unfold reservation_answer in Hanswer at 2.
    destruct (print_selected_contacts row (whole_duration ans)
                (requested_seconds ans))
      as [details [[start_datetime end_datetime] groundstation]] eqn:Hrow.
    cbn [fst snd] in Hanswer, Hres.
    set (before := (log ++ [Print (Text "Scheduling contact");
                            Print (Text selected_header);
                            Print (SelectedContact details)])%list).
    set (asking := ReserveContact end_datetime groundstation profile
                     satellite start_datetime).
    assert (Hstep :
              for_each (row :: ticked)
                (schedule_selected_pass gs_client profile satellite
                   (whole_duration ans) (requested_seconds ans)) log
              = match GroundStation.reserve_contact gs_client before
                        end_datetime groundstation profile satellite
                        start_datetime with
                | Ok contact_Id =>
                    for_each ticked
                      (schedule_selected_pass gs_client profile satellite
                         (whole_duration ans) (requested_seconds ans))
                      (before ++ [asking; Print (ScheduledContactId contact_Id)])%list
                | Raise e => ((before ++ [asking])%list, Raise e)
                end).
    { rewrite for_each_cons. unfold schedule_selected_pass at 1.
      rewrite Hrow. rewrite !bind_print. unfold bind, call, print, emit.
      subst before asking. rewrite <- !app_assoc. cbn [app].
      destruct (GroundStation.reserve_contact gs_client _ end_datetime
                  groundstation profile satellite start_datetime);
        [rewrite <- !app_assoc|]; reflexivity. }
    rewrite Hstep. clear Hstep.
    assert (Hbefore : reservations before = reservations log).
    { subst before. rewrite reservations_app. apply app_nil_r. }
    destruct (GroundStation.reserve_contact gs_client before end_datetime
                groundstation profile satellite start_datetime)
      as [contact_Id|e] eqn:Hcall.
    + destruct (IH (before ++ [asking; Print (ScheduledContactId contact_Id)])%list)
        as (n & Hn & Hok & Hraise).
      cbv zeta in Hn, Hok, Hraise.
      exists (S n). cbn [firstn map List.length].
      repeat split.
      * rewrite Hn, Hres, reservations_app, Hbefore. subst asking.
        cbn [reservations]. rewrite <- app_assoc. reflexivity.
      * intros Hrun. f_equal. apply Hok, Hrun.
      * intros e Hrun. destruct (Hraise e Hrun)
          as (earlier & selected_pass & Hnth & Hpos & Hans).
        exists earlier, selected_pass.
        destruct n as [|n]; [lia|]. cbn [Nat.pred nth_error] in Hnth |- *.
        repeat split; [exact Hnth | lia | exact Hans].
    + exists 1%nat. cbn [firstn map fst snd Nat.pred nth_error].
      repeat split.
      * rewrite Hres, reservations_app, Hbefore. subst asking.
        reflexivity.
      * intros [=].
      * intros e' [= <-]. exists before, row.
        repeat split; [lia|]. rewrite Hanswer. exact Hcall.
Qed.

(** X7. A run of [schedule_contact] that gets to the confirmation, and is
    told to go on, asks for the reservations of the ticked rows, one call
    each in the order of the rows: each with the interval and the ground
    station that [print_selected_contacts] returns for the row, and with the
    mission profile and the satellite that [get_contacts] returned.  It
    returns after the reservation of the last row, and it raises only
    when a reservation raises, which is then the last one it asked for. *)
Theorem schedule_contact_reservations (gs_client : GroundStation.client)
    (asked : contacts_answers) (ans : schedule_answers)
    (log log1 : list event) (pass_list : list contact)
    (profile satellite : string) (minimum_elevation : Z)
    (first_pass : contact) (suitable : list contact)
    (durations : list Timedelta.timedelta) :
  get_contacts gs_client asked ["AVAILABLE"] log
  = (log1, Ok (pass_list, profile, satellite)) ->
  py_float (minimum_elevation_answer ans) = Ok minimum_elevation ->
  (whole_duration ans = false ->
   exists minutes, py_float (contact_minutes_answer ans) = Ok minutes) ->
  window_filter pass_list minimum_elevation (whole_duration ans)
    (if whole_duration ans then None else Some (requested_seconds ans))
    [] []
  = Ok (first_pass :: suitable, durations) ->
  schedule_continue ans = true ->
  exists n,
    reservations (fst (schedule_contact gs_client asked ans log))
    = (reservations log
       ++ map (reservation_of profile satellite ans)
              (firstn n (checkbox_selected_passes ans)))%list
    /\ (snd (schedule_contact gs_client asked ans log) = Ok tt ->
        n = List.length (checkbox_selected_passes ans))
    /\ (forall e,
          snd (schedule_contact gs_client asked ans log) = Raise e ->
          exists before selected_pass,
            nth_error (checkbox_selected_passes ans) (Nat.pred n)
            = Some selected_pass
            /\ (1 <= n)%nat
            /\ reservation_answer gs_client before profile satellite ans
                 selected_pass = Raise e).
Proof.
  intros Hget Hfloat Hminutes Hfilter Hcontinue.
  assert (Hlog1 : reservations log1 = reservations log).
  { destruct (get_contacts_reserves_nothing gs_client asked ["AVAILABLE"] log)
      as (t & E & F).
    rewrite Hget in E. simpl in E. subst log1.
    rewrite reservations_app, (no_reservation_in t F), app_nil_r.
    reflexivity. }
  remember (schedule_contact gs_client asked ans log) as run eqn:Hrun.
  unfold schedule_contact in Hrun.
  rewrite (bind_returns _ _ log log1 _ Hget) in Hrun. cbv beta iota in Hrun.
  unfold lift at 1 in Hrun. rewrite Hfloat in Hrun.
  rewrite (bind_returns _ _ log1 log1 minimum_elevation eq_refl) in Hrun.
  assert (Hseconds :
            exists log2,
              reservations log2 = reservations log
              /\ (if negb (whole_duration ans)
                  then bind (print (Text "Contacts shorter than the complete pass are scheduled in the middle of the contact window to maximize elevation."))
                         (fun _ =>
                            bind (lift (py_float (contact_minutes_answer ans)))
                              (fun minutes => ret (Some (60 * minutes))))
                  else ret None) log1
                 = (log2,
                    Ok (if whole_duration ans then None
                        else Some (requested_seconds ans)))).
  { unfold requested_seconds.
    destruct (whole_duration ans) eqn:Hwhole; cbn [negb].
    - exists log1. split; [exact Hlog1 | reflexivity].
    - destruct (Hminutes eq_refl) as [minutes Hm]. rewrite Hm.
      eexists. split; [|reflexivity].
      rewrite reservations_app, Hlog1. apply app_nil_r. }
  destruct Hseconds as (log2 & Hlog2 & Hseconds).
  rewrite (bind_returns _ _ log1 log2 _ Hseconds) in Hrun.
  unfold lift at 1 in Hrun. rewrite Hfilter in Hrun.
  rewrite (bind_returns _ _ log2 log2 (first_pass :: suitable, durations)
             eq_refl) in Hrun.
  cbv beta iota in Hrun.
  assert (Hcount :
            exists log3,
              reservations log3 = reservations log
              /\ (if whole_duration ans
                  then bind (print (SuitablePasses
                                      (List.length (first_pass :: suitable))
                                      minimum_elevation None))
                         (fun _ => ret 0)
                  else bind (lift (read_local
                                     (if whole_duration ans then None
                                      else Some (requested_seconds ans))))
                         (fun seconds =>
                            bind (print (SuitablePasses
                                           (List.length
                                              (first_pass :: suitable))
                                           minimum_elevation (Some seconds)))
                              (fun _ => ret seconds))) log2
                 = (log3, Ok (requested_seconds ans))).
  { destruct (whole_duration ans) eqn:Hwhole.
    - eexists. split; [|unfold requested_seconds; rewrite Hwhole; reflexivity].
      rewrite reservations_app, Hlog2. apply app_nil_r.
    - eexists. split; [|reflexivity].
      rewrite reservations_app, Hlog2. apply app_nil_r. }
  destruct Hcount as (log3 & Hlog3 & Hcount).
  rewrite (bind_returns _ _ log2 log3 _ Hcount) in Hrun.
  assert (Hticked :
            exists log4,
              reservations log4 = reservations log
              /\ match checkbox_selected_passes ans with
                 | [] => bind (print (Text "No passed selected. Exiting to main menu."))
                           (fun _ => main)
                 | _ :: _ => ret tt
                 end log3 = (log4, Ok tt)).
  { destruct (checkbox_selected_passes ans) as [|row rows].
    - eexists. split; [|reflexivity].
      rewrite !reservations_app, Hlog3. cbn [reservations].
      rewrite !app_nil_r. reflexivity.
    - exists log3. split; [exact Hlog3 | reflexivity]. }
  destruct Hticked as (log4 & Hlog4 & Hticked).
  rewrite (bind_returns _ _ log3 log4 _ Hticked) in Hrun.
  rewrite !bind_print in Hrun.
  rewrite (bind_returns _ _ _ _ _
             (for_each_prints
                (fun selected_pass =>
                   SelectedContact
                     (fst (print_selected_contacts selected_pass
                             (whole_duration ans) (requested_seconds ans))))
                (checkbox_selected_passes ans) _)) in Hrun.
  rewrite Hcontinue in Hrun. cbv iota in Hrun. unfold bind at 1 in Hrun.
  match type of Hrun with
  | context [for_each _ _ ?l] =>
      destruct (schedule_loop gs_client profile satellite ans
                  (checkbox_selected_passes ans) l)
        as (n & Hn & Hok & Hraise);
      assert (Hl : reservations l = reservations log)
  end.
  { rewrite !reservations_app, reservations_prints, Hlog4. cbn [reservations].
    rewrite !app_nil_r. reflexivity. }
  cbv zeta in Hn, Hok, Hraise. rewrite Hl in Hn.
  exists n.
  destruct (for_each (checkbox_selected_passes ans) _ _)
    as [final [[]|e]]; cbn [fst snd] in Hn, Hok, Hraise; subst run.
  - unfold main, emit. cbn [fst snd].
    rewrite reservations_app. cbn [reservations]. rewrite app_nil_r.
    split; [exact Hn | split].
    + intros _. apply Hok. reflexivity.
    + intros e [=].
  - cbn [fst snd]. split; [exact Hn | split]; [intros [=] | exact Hraise].
Qed.

Lemma schedule_contact_reservations_witness :
  exists n,
    reservations (fst (schedule_contact (sample_client [morning_pass])
                         sample_answers confirmed_answers []))
    = (reservations []
       ++ map (reservation_of (mission_profile_arn sample_selection)
                 (satellite_arn sample_selection) confirmed_answers)
              (firstn n (checkbox_selected_passes confirmed_answers)))%list
    /\ (snd (schedule_contact (sample_client [morning_pass])
               sample_answers confirmed_answers []) = Ok tt ->
        n = List.length (checkbox_selected_passes confirmed_answers))
    /\ (forall e,
          snd (schedule_contact (sample_client [morning_pass])
                 sample_answers confirmed_answers []) = Raise e ->
          exists before selected_pass,
            nth_error (checkbox_selected_passes confirmed_answers)
                      (Nat.pred n)
            = Some selected_pass
            /\ (1 <= n)%nat
            /\ reservation_answer (sample_client [morning_pass]) before
                 (mission_profile_arn sample_selection)
                 (satellite_arn sample_selection) confirmed_answers
                 selected_pass = Raise e).
Proof.
  apply (schedule_contact_reservations (sample_client [morning_pass])
           sample_answers confirmed_answers []
           [ListSatellites; ListMissionProfiles; ListMissionProfiles;
            ListSatellites; ListGroundStations "33333333-4444";
            ListContacts (request_for sample_selection ["AVAILABLE"] "Ohio 1")]
           [morning_pass]
           (mission_profile_arn sample_selection)
           (satellite_arn sample_selection)
           40 morning_pass [] [pass_length morning_pass]).
  - vm_compute. reflexivity.
  - reflexivity.
  - intros [=].
  - reflexivity.
  - reflexivity.
Defined.

(** ** The requests and the order of the query stage *)

(** The loop of the requests: one call per station, in the order of the
    stations; it goes through all stations unless a call raises, and then
    it stops there. *)
Lemma fetch_loop_calls (gs_client : GroundStation.client) (sel : selection)
    (contact_type : list string) :
  forall (stations : list string) (log : list event),
    let run :=
      for_collect stations (fun ground_station =>
        call (ListContacts (request_for sel contact_type ground_station))
             (fun log' =>
                GroundStation.list_contacts gs_client log'
                  (request_for sel contact_type ground_station))) log in
    exists n,
      fst run
      = (log ++ map (fun station =>
                       ListContacts (request_for sel contact_type station))
                    (firstn n stations))%list
      /\ (forall all_passes, snd run = Ok all_passes ->
            n = List.length stations)
      /\ (forall e, snd run = Raise e ->
            exists station,
              nth_error stations (Nat.pred n) = Some station
              /\ (1 <= n)%nat
              /\ GroundStation.list_contacts gs_client
                   (log ++ map (fun station =>
                                  ListContacts
                                    (request_for sel contact_type station))
                               (firstn (Nat.pred n) stations))%list
                   (request_for sel contact_type station)
                 = Raise e).
Proof.
  induction stations as [|station stations IH]; intros log run; subst run.
  - exists 0%nat. simpl. rewrite app_nil_r.
    repeat split. intros e [=].
  - simpl for_collect. unfold bind, call in IH |- *.
    set (req := request_for sel contact_type station).
    destruct (GroundStation.list_contacts gs_client log req)
      as [answer|e] eqn:Hanswer.
    + destruct (IH (log ++ [ListContacts req])%list)
        as (n & Hn & Hok & Hraise).
      exists (S n). cbn [firstn map List.length].
      destruct (for_collect stations _ (log ++ [ListContacts req])%list)
        as [final [answers|e]]; cbn [fst snd] in Hn, Hok, Hraise |- *.
      * repeat split.
        -- rewrite Hn, <- app_assoc. reflexivity.
        -- intros all_passes _. f_equal. apply (Hok answers eq_refl).
        -- intros e [=].
      * repeat split.
        -- rewrite Hn, <- app_assoc. reflexivity.
        -- intros all_passes [=].
        -- intros e' He. destruct (Hraise e' He) as (st & Hnth & Hpos & Hcall).
           exists st. destruct n as [|n]; [lia|].
           cbn [Nat.pred nth_error firstn map] in Hnth, Hcall |- *.
           repeat split; [exact Hnth | lia|].
           rewrite <- app_assoc in Hcall. exact Hcall.
    + exists 1%nat. cbn [firstn map fst snd Nat.pred nth_error].
      repeat split.
      * intros all_passes [=].
      * intros e' [= <-]. exists station.
        repeat split; [lia|]. rewrite app_nil_r. exact Hanswer.
Qed.

(** X8. When the selector stage and the contact window of [get_contacts]
    have returned, it asks for the lists of the selected ground stations
    and for nothing else, one call per station in their order, each with
    the status filter it was given, the window, the mission profile and the
    satellite of the selection and at most 100 results.  When it returns
    it has asked for every station; it raises only when a call raises, and
    that call is then the last one it made. *)
Theorem get_contacts_requests (gs_client : GroundStation.client)
    (asked : contacts_answers) (contact_type : list string)
    (log log1 : list event) (sel : selection) :
  get_contacts_selection gs_client asked contact_type log = (log1, Ok sel) ->
  exists n,
    fst (get_contacts gs_client asked contact_type log)
    = (log1 ++ map (fun station =>
                      ListContacts (request_for sel contact_type station))
                   (firstn n (selected_groundstations sel)))%list
    /\ (forall out,
          snd (get_contacts gs_client asked contact_type log) = Ok out ->
          n = List.length (selected_groundstations sel))
    /\ (forall e,
          snd (get_contacts gs_client asked contact_type log) = Raise e ->
          exists station,
            nth_error (selected_groundstations sel) (Nat.pred n)
            = Some station
            /\ (1 <= n)%nat
            /\ GroundStation.list_contacts gs_client
                 (log1 ++ map (fun station =>
                                 ListContacts
                                   (request_for sel contact_type station))
                              (firstn (Nat.pred n)
                                      (selected_groundstations sel)))%list
                 (request_for sel contact_type station)
               = Raise e).
Proof.
  intros Hsel.
  remember (get_contacts gs_client asked contact_type log) as run eqn:Hrun.
  unfold get_contacts in Hrun.
  rewrite (bind_returns _ _ log log1 sel Hsel) in Hrun.
  destruct (fetch_loop_calls gs_client sel contact_type
              (selected_groundstations sel) log1)
    as (n & Hn & Hok & Hraise).
  cbv zeta in Hn, Hok, Hraise.
  set (body := fun ground_station : string =>
                 call (ListContacts
                         (request_for sel contact_type ground_station))
                   (fun log' =>
                      GroundStation.list_contacts gs_client log'
                        (request_for sel contact_type ground_station)))
    in Hn, Hok, Hraise.
  change (fetch_passes gs_client sel contact_type log1)
    with (bind (for_collect (selected_groundstations sel) body)
            (fun all_passes =>
               ret (flat_passes all_passes, mission_profile_arn sel,
                    satellite_arn sel)) log1) in Hrun.
  unfold bind in Hrun.
  exists n.
  destruct (for_collect (selected_groundstations sel) body log1)
    as [final [all_passes|e]]; cbn [fst snd] in Hn, Hok, Hraise; subst run;
    cbn [fst snd].
  - split; [exact Hn | split].
    + intros out _. apply (Hok all_passes eq_refl).
    + intros e [=].
  - split; [exact Hn | split]; [intros out [=]|].
    intros e' [= <-]. apply Hraise. reflexivity.
Qed.

Lemma get_contacts_requests_witness :
  exists n,
    fst (get_contacts (sample_client [morning_pass]) sample_answers
           ["AVAILABLE"] [])
    = ([ListSatellites; ListMissionProfiles; ListMissionProfiles;
        ListSatellites; ListGroundStations "33333333-4444"]
       ++ map (fun station =>
                 ListContacts
                   (request_for sample_selection ["AVAILABLE"] station))
              (firstn n (selected_groundstations sample_selection)))%list
    /\ (forall out,
          snd (get_contacts (sample_client [morning_pass]) sample_answers
                 ["AVAILABLE"] []) = Ok out ->
          n = List.length (selected_groundstations sample_selection))
    /\ (forall e,
          snd (get_contacts (sample_client [morning_pass]) sample_answers
                 ["AVAILABLE"] []) = Raise e ->
          exists station,
            nth_error (selected_groundstations sample_selection) (Nat.pred n)
            = Some station
            /\ (1 <= n)%nat
            /\ GroundStation.list_contacts (sample_client [morning_pass])
                 ([ListSatellites; ListMissionProfiles; ListMissionProfiles;
                   ListSatellites; ListGroundStations "33333333-4444"]
                  ++ map (fun station =>
                            ListContacts
                              (request_for sample_selection ["AVAILABLE"]
                                 station))
                         (firstn (Nat.pred n)
                            (selected_groundstations sample_selection)))%list
                 (request_for sample_selection ["AVAILABLE"] station)
               = Raise e).
Proof.
  apply (get_contacts_requests (sample_client [morning_pass]) sample_answers
           ["AVAILABLE"] []
           [ListSatellites; ListMissionProfiles; ListMissionProfiles;
            ListSatellites; ListGroundStations "33333333-4444"]
           sample_selection).
  vm_compute. reflexivity.
Defined.

Section Stable.
Context {A : Type} (key : A -> Z).

Lemma filter_insert_same (k : Z) (x : A) (l : list A) :
  filter (fun y => key y =? k) (PyList.insert key x l)
  = filter (fun y => key y =? k) (x :: l).
Proof.
  induction l as [|y l IH]; simpl.
  - reflexivity.
  - destruct (key x <=? key y) eqn:Hxy; simpl.
    + reflexivity.
    + apply Z.leb_gt in Hxy. simpl in IH. rewrite IH.
      destruct (key x =? k) eqn:Hx, (key y =? k) eqn:Hy; try reflexivity.
      apply Z.eqb_eq in Hx, Hy. lia.
Qed.

(** The sort is stable: the elements that have one key keep their
    order. *)
Lemma sort_stable (k : Z) (l : list A) :
  filter (fun y => key y =? k) (PyList.sort key l)
  = filter (fun y => key y =? k) l.
Proof.
  induction l as [|x l IH]; simpl.
  - reflexivity.
  - rewrite filter_insert_same. simpl. rewrite IH. reflexivity.
Qed.

End Stable.

(** X9. Records that start at the same second come out of the merge in the
    order in which the API lists held them, station after station. *)
Theorem flat_passes_stable (all_passes : list (list contact))
    (t : Datetime.datetime) :
  filter (fun record => startTime record =? t) (flat_passes all_passes)
  = filter (fun record => startTime record =? t) (List.concat all_passes).
Proof. apply (sort_stable startTime). Qed.

(** ** Viewing *)

Lemma bind_assoc {A B C : Type} (c : M A) (f : A -> M B) (g : B -> M C)
    (log : list event) :
  bind (bind c f) g log = bind c (fun a => bind (f a) g) log.
Proof. unfold bind. destruct (c log) as [log' [a|e]]; reflexivity. Qed.

(** X10. A run of [view_contact] has two parts.  In the first, the selector
    stage and the contact window, it lists satellites, mission profiles and
    ground stations, prints, and may start the main menu.  In the second it
    only lists contacts, looks up the names of mission profiles and prints.
    It never reserves and never cancels. *)
Theorem view_contact_read_only (gs_client : GroundStation.client)
    (asked : contacts_answers) (cancel : bool) (log : list event) :
  exists selecting viewing,
    fst (view_contact gs_client asked cancel log)
    = (log ++ selecting ++ viewing)%list
    /\ Forall selector_event selecting
    /\ Forall viewing_event viewing.
Proof.
  unfold view_contact, get_contacts. rewrite bind_assoc.
  set (contact_type := if cancel then ["SCHEDULED"] else all_statuses).
  match goal with
  | |- context [bind (get_contacts_selection _ _ _) ?k] =>
      assert (Hrest : forall sel, emits viewing_event (k sel))
  end.
  { intros sel. cbv beta. unfold fetch_passes.
    apply emits_bind; [harmless|].
    intros [[[|record responce] profile] satellite]; harmless. }
  destruct (get_contacts_selection_events gs_client asked contact_type log)
    as (t0 & E0 & F0).
  unfold bind at 1.
  destruct (get_contacts_selection gs_client asked contact_type log)
    as [log0 [sel|e]]; simpl in E0; subst log0.
  - destruct (Hrest sel (log ++ t0)%list) as (t1 & E1 & F1).
    exists t0, t1. cbv beta in E1. rewrite E1, app_assoc. auto.
  - exists t0, []. rewrite app_nil_r. auto.
Qed.

(** The timestamp that [cancel_contact] reads back from the line of a
    record is the start of the record. *)
Lemma contact_details_start (record : contact) (name : string) :
  target_contact_start_datetime (contact_details record name)
  = startTime record.
Proof. apply strptime_date_time_inverse. Qed.

(** X11. Whenever [view_contact] returns, its lines and its records go in
    pairs, in the same order: each line is the line of its record, with
    the identifier of the record, and the timestamp read back from the
    line is the start of the record. *)
Theorem view_contact_rows (gs_client : GroundStation.client)
    (asked : contacts_answers) (cancel : bool) :
  returns (fun out =>
             Forall2 (fun record row =>
                        (exists name, row = contact_details record name)
                        /\ crow_contactId row = contactId record
                        /\ target_contact_start_datetime row
                           = startTime record)
                     (snd out) (fst out))
          (view_contact gs_client asked cancel).
Proof.
  unfold view_contact. apply returns_bind.
  intros [[responce profile] satellite].
  destruct responce as [|record others].
  - apply returns_bind. intros _. apply returns_ret. constructor.
  - apply returns_bind. intros _. apply returns_bind. intros _.
    eapply returns_bind_with.
    + apply returns_for_collect
        with (R := fun record row =>
                     (exists name, row = contact_details record name)
                     /\ crow_contactId row = contactId record
                     /\ target_contact_start_datetime row = startTime record).
      intros r _. apply returns_bind. intros name.
      apply returns_bind. intros _. apply returns_ret.
      repeat split; [exists name; reflexivity | apply contact_details_start].
    + intros rows Hrows. apply returns_bind. intros _.
      apply returns_ret. exact Hrows.
Qed.

(** ** Cancelling *)

(** X12. When the confirmation is declined, [cancel_contact] cancels nothing,
    whatever the API answers. *)
Theorem cancel_contact_declined (gs_client : GroundStation.client)
    (asked : contacts_answers) (ans : cancel_answers) (log : list event) :
  cancel_continue ans = false ->
  cancellations (fst (cancel_contact gs_client asked ans log))
  = cancellations log.
Proof.
  intros Hdeclined.
  assert (Hquiet : emits not_cancellation
                     (cancel_contact gs_client asked ans)).
  { unfold cancel_contact. rewrite Hdeclined.
    apply emits_bind; [apply view_contact_quiet|].
    intros [scheduled_contacts responce].
    apply emits_bind; [quiet | intros _].
    destruct scheduled_contacts as [|row rows]; [quiet|].
    apply emits_bind;
      [destruct (checkbox_canceled_contacts ans); quiet | intros _].
    apply emits_bind; [quiet | intros _].
    apply emits_bind; [quiet | intros _].
    apply emits_bind; [|intros _; quiet].
    apply emits_for_each. intros target _. apply list_target_quiet. }
  destruct (Hquiet log) as [t [E F]].
  rewrite E, cancellations_app, (no_cancellation_in t F), app_nil_r.
  reflexivity.
Qed.

Lemma cancel_contact_declined_witness :
  cancellations
    (fst (cancel_contact
            (sample_client [contact_ohio; contact_oregon; contact_later])
            sample_answers declined_cancel_answers []))
  = cancellations [].
Proof.
  apply (cancel_contact_declined
           (sample_client [contact_ohio; contact_oregon; contact_later])
           sample_answers declined_cancel_answers []).
  reflexivity.
Defined.

(** One selected line, for a client that answers its calls: the records
    whose start is [==] to its timestamp are cancelled, in the order of the
    list. *)
Lemma cancel_target_run (gs_client : GroundStation.client)
    (responce : list contact) (target_contact : contact_row) :
  answers_calls gs_client ->
  Forall has_profile_id responce ->
  forall log, exists trace,
    cancel_target gs_client responce target_contact log
    = ((log ++ trace)%list, Ok tt)
    /\ cancellations trace
       = map contactId (filter (matches gs_client target_contact) responce).
Proof.
  intros Hanswers Hids. unfold cancel_target.
  induction Hids as [|record rest Hid _ IH]; intros log.
  - exists []. rewrite app_nil_r. split; reflexivity.
  - rewrite for_each_cons. simpl filter. unfold matches at 1.
    destruct (Datetime.eq_utc (GroundStation.tzinfo gs_client)
                (startTime record)
                (target_contact_start_datetime target_contact)) eqn:Hm.
    + destruct (cancel_record_match gs_client _ record log Hanswers Hid Hm)
        as [t1 [-> Ht1]].
      destruct (IH (log ++ t1)%list) as [t2 [-> Ht2]].
      exists (t1 ++ t2)%list. rewrite app_assoc, cancellations_app, Ht1, Ht2.
      split; reflexivity.
    + destruct (cancel_record_other gs_client _ record log Hm) as [-> _].
      apply IH.
Qed.

Lemma cancel_loop_run (gs_client : GroundStation.client)
    (responce : list contact) (contacts_to_cancel : list contact_row) :
  answers_calls gs_client ->
  Forall has_profile_id responce ->
  forall log, exists trace,
    for_each contacts_to_cancel (cancel_target gs_client responce) log
    = ((log ++ trace)%list, Ok tt)
    /\ cancellations trace
       = flat_map (fun target_contact =>
                     map contactId
                         (filter (matches gs_client target_contact) responce))
                  contacts_to_cancel.
Proof.
  intros Hanswers Hids.
  induction contacts_to_cancel as [|target rest IH]; intros log.
  - exists []. rewrite app_nil_r. split; reflexivity.
  - rewrite for_each_cons.
    destruct (cancel_target_run gs_client responce target Hanswers Hids log)
      as [t1 [-> Ht1]].
    destruct (IH (log ++ t1)%list) as [t2 [-> Ht2]].
    exists (t1 ++ t2)%list. rewrite app_assoc, cancellations_app, Ht1, Ht2.
    split; reflexivity.
Qed.

(** X13. The loop over the ticked lines, for a client that answers its calls
    and fetched records whose mission profile ARN has an identifier after a
    [/]: it returns, and line after line it cancels every record whose
    start is [==] to the timestamp of the line, that is, the same instant
    with a local time that is not one of a repeated hour.  A record is
    cancelled once for every ticked line with its start time, so two ticked
    lines of two contacts that start at the same second make four calls; a
    record that starts in a repeated hour of the local zone is never
    cancelled. *)
Theorem cancel_loop_calls (gs_client : GroundStation.client)
    (responce : list contact) (contacts_to_cancel : list contact_row)
    (log : list event) :
  answers_calls gs_client ->
  Forall has_profile_id responce ->
  snd (for_each contacts_to_cancel (cancel_target gs_client responce) log)
  = Ok tt
  /\ cancellations
       (fst (for_each contacts_to_cancel (cancel_target gs_client responce)
               log))
     = (cancellations log
        ++ flat_map (fun target_contact =>
                       map contactId
                           (filter (matches gs_client target_contact)
                                   responce))
                    contacts_to_cancel)%list.
Proof.
  intros Hanswers Hids.
  destruct (cancel_loop_run gs_client responce contacts_to_cancel
              Hanswers Hids log) as [trace [-> Htrace]].
  simpl. rewrite cancellations_app, Htrace. split; reflexivity.
Qed.

Lemma cancel_loop_calls_witness :
  snd (for_each [contact_details contact_ohio "profile";
                 contact_details contact_oregon "profile"]
         (cancel_target (sample_client [])
            [contact_ohio; contact_oregon; contact_later]) [])
  = Ok tt
  /\ cancellations
       (fst (for_each [contact_details contact_ohio "profile";
                       contact_details contact_oregon "profile"]
               (cancel_target (sample_client [])
                  [contact_ohio; contact_oregon; contact_later]) []))
     = ["contact-ohio"; "contact-oregon"; "contact-ohio"; "contact-oregon"].
Proof.
  apply (cancel_loop_calls (sample_client [])
           [contact_ohio; contact_oregon; contact_later]
           [contact_details contact_ohio "profile";
            contact_details contact_oregon "profile"] []).
  - split; intros; eexists; reflexivity.
  - repeat constructor; eexists; vm_compute; reflexivity.
Defined.

(** X14. Ticking the line of a fetched record cancels that record, for a
    client that answers its calls, fetched records whose mission profile
    ARN has an identifier after a [/], and a record whose start, in local
    time, is not in a repeated hour. *)
Theorem ticked_record_cancelled (gs_client : GroundStation.client)
    (responce : list contact) (contacts_to_cancel : list contact_row)
    (log : list event) (record : contact) (name : string) :
  answers_calls gs_client ->
  Forall has_profile_id responce ->
  In record responce ->
  Datetime.is_ambiguous (GroundStation.tzinfo gs_client) (startTime record)
  = false ->
  In (contact_details record name) contacts_to_cancel ->
  In (contactId record)
     (cancellations
        (fst (for_each contacts_to_cancel (cancel_target gs_client responce)
                log))).
Proof.
  intros Hanswers Hids Hrecord Hplain Hticked.
  destruct (cancel_loop_run gs_client responce contacts_to_cancel
              Hanswers Hids log) as [trace [-> Htrace]].
  simpl. rewrite cancellations_app, Htrace.
  apply in_or_app. right. apply in_flat_map.
  exists (contact_details record name). split; [exact Hticked|].
  apply in_map. apply filter_In. split; [exact Hrecord|].
  unfold matches, Datetime.eq_utc.
  rewrite contact_details_start, Hplain, Z.eqb_refl. reflexivity.
Qed.

Lemma ticked_record_cancelled_witness :
  In (contactId contact_later)
     (cancellations
        (fst (for_each [contact_details contact_later "profile"]
                (cancel_target (sample_client [])
                   [contact_ohio; contact_oregon; contact_later]) []))).
Proof.
  apply (ticked_record_cancelled (sample_client [])
           [contact_ohio; contact_oregon; contact_later]
           [contact_details contact_later "profile"] [] contact_later
           "profile").
  - split; intros; eexists; reflexivity.
  - repeat constructor; eexists; vm_compute; reflexivity.
  - simpl. auto.
  - reflexivity.
  - simpl. auto.
Defined.

(** ** Validated answers and [float] *)

Lemma listed_in (l : list string) (s : string) :
  existsb (String.eqb s) l = true -> In s l.
Proof.
  intros Hs. apply existsb_exists in Hs. destruct Hs as (x & Hx & Heq).
  apply String.eqb_eq in Heq. subst. exact Hx.
Qed.

Ltac listed_duration := apply listed_in; vm_compute; reflexivity.

Lemma duration_accepted_only (text : string) :
  DurationValidator text = Accepted -> In text duration_texts.
Proof.
  unfold DurationValidator.
  destruct (Regex.match_ duration_regex text) eqn:Hm; [intros _|discriminate].
  unfold Regex.match_, duration_regex in Hm. cbn [Regex.run] in Hm.
  destruct text as [|c1 rest]; [discriminate|].
  apply orb_prop in Hm. destruct Hm as [Hm|Hm].
  - destruct (Regex.in_range "1" "9" c1) eqn:H1; [|discriminate].
    apply in_range_inv in H1. at_end_cases Hm; one_of H1; listed_duration.
  - apply orb_prop in Hm. destruct Hm as [Hm|Hm].
    + destruct (Ascii.eqb "0" c1) eqn:H1; [|discriminate].
      apply Ascii.eqb_eq in H1. subst c1.
      destruct rest as [|c2 rest]; [discriminate|].
      destruct (Regex.in_range "1" "9" c2) eqn:H2; [|discriminate].
      apply in_range_inv in H2. at_end_cases Hm; one_of H2; listed_duration.
    + apply orb_prop in Hm. destruct Hm as [Hm|Hm].
      * destruct (Ascii.eqb "1" c1) eqn:H1; [|discriminate].
        apply Ascii.eqb_eq in H1. subst c1.
        destruct rest as [|c2 rest]; [discriminate|].
        destruct (Regex.in_range "0" "9" c2) eqn:H2; [|discriminate].
        apply in_range_inv in H2.
        at_end_cases Hm; one_of H2; listed_duration.
      * destruct (Ascii.eqb "2" c1) eqn:H1; [|discriminate].
        apply Ascii.eqb_eq in H1. subst c1.
        destruct rest as [|c2 rest]; [discriminate|].
        destruct (Ascii.eqb "0" c2) eqn:H2; [|discriminate].
        apply Ascii.eqb_eq in H2. subst c2.
        at_end_cases Hm; listed_duration.
Qed.

(** X15. An answer that the duration validator lets through is read by [float]
    as a whole number of minutes from 1 to 20, so that [contact_seconds] is
    a multiple of 60 from 60 to 1200 and [float] does not raise. *)
Theorem duration_answer_read (text : string) :
  DurationValidator text = Accepted ->
  exists minutes, py_float text = Ok minutes /\ 1 <= minutes <= 20.
Proof.
  intros Hok. apply duration_accepted_only in Hok.
  assert (All : forallb (reads_within 1 20) duration_texts = true)
    by (vm_compute; reflexivity).
  rewrite forallb_forall in All. specialize (All text Hok).
  unfold reads_within in All.
  destruct (py_float text) as [n|e]; [|discriminate].
  exists n. split; [reflexivity | lia].
Qed.

Lemma duration_answer_read_witness :
  exists minutes, py_float "07" = Ok minutes /\ 1 <= minutes <= 20.
Proof. apply (duration_answer_read "07"). reflexivity. Defined.

(** X16. An answer that the elevation validator lets through is read by [float]
    as a whole number of degrees from 1 to 90, never 9. *)
Theorem elevation_answer_read (text : string) :
  ElevationValidator text = Accepted ->
  exists degrees,
    py_float text = Ok degrees /\ 1 <= degrees <= 90 /\ degrees <> 9.
Proof.
  intros Hok. apply elevation_accepted_only in Hok.
  assert (All : forallb (fun s => reads_within 1 90 s
                                  && negb (reads_within 9 9 s))
                        elevation_texts = true)
    by (vm_compute; reflexivity).
  rewrite forallb_forall in All. specialize (All text Hok).
  unfold reads_within in All.
  destruct (py_float text) as [n|e]; [|discriminate].
  exists n. split; [reflexivity | lia].
Qed.

Lemma elevation_answer_read_witness :
  exists degrees,
    py_float "45" = Ok degrees /\ 1 <= degrees <= 90 /\ degrees <> 9.
Proof. apply (elevation_answer_read "45"). reflexivity. Defined.

(** ** The date validator *)

Lemma string_app_assoc (a b c : string) : (a ++ b) ++ c = a ++ (b ++ c).
Proof. induction a as [|x a IH]; simpl; [reflexivity | rewrite IH; reflexivity]. Qed.

Lemma string_split (n1 n2 : nat) :
  forall a, String.length a = (n1 + n2)%nat ->
  exists a1 a2,
    a = a1 ++ a2 /\ String.length a1 = n1 /\ String.length a2 = n2.
Proof.
  induction n1 as [|n1 IH]; intros a Hlen.
  - exists EmptyString, a. auto.
  - destruct a as [|x a]; [discriminate|]. simpl in Hlen.
    destruct (IH a ltac:(lia)) as (a1 & a2 & -> & H1 & H2).
    exists (String x a1), a2. simpl. auto.
Qed.

Lemma run_alt (r1 r2 : Regex.regex) (start : bool) (s : string)
    (k : bool -> string -> bool) :
  Regex.run (Regex.Alt r1 r2) start s k
  = Regex.run r1 start s k || Regex.run r2 start s k.
Proof. reflexivity. Qed.

(** A pattern of a fixed width takes that many characters, and what it does
    on them does not depend on what follows. *)
Lemma run_fixed (r : Regex.regex) :
  forall n, width r = Some n ->
  forall start a s k,
    String.length a = n ->
    Regex.run r start (a ++ s) k = accepts_exact r a && k false s.
Proof.
  induction r as [c|lo hi|r1 IH1 r2 IH2|r1 IH1 r2 IH2|r IH| |];
    intros n Hwidth start a s k Hlen; simpl in Hwidth; try discriminate.
  - injection Hwidth as <-.
    destruct a as [|c' [|? ?]]; try discriminate.
    unfold accepts_exact. simpl. destruct (Ascii.eqb c c'); reflexivity.
  - injection Hwidth as <-.
    destruct a as [|c' [|? ?]]; try discriminate.
    unfold accepts_exact. simpl. destruct (Regex.in_range lo hi c'); reflexivity.
  - destruct (width r1) as [n1|]; [|discriminate].
    destruct (width r2) as [n2|]; [|discriminate].
    injection Hwidth as <-.
    destruct (string_split n1 n2 a Hlen) as (a1 & a2 & -> & H1 & H2).
    unfold accepts_exact. simpl Regex.run.
    rewrite string_app_assoc.
    rewrite (IH1 n1 eq_refl _ a1 (a2 ++ s) _ H1).
    rewrite (IH2 n2 eq_refl _ a2 s _ H2).
    rewrite (IH1 n1 eq_refl _ a1 a2 _ H1).
    unfold accepts_exact. rewrite andb_assoc. reflexivity.
  - destruct (width r1) as [n1|]; [|discriminate].
    destruct (width r2) as [n2|]; [|discriminate].
    destruct (Nat.eqb_spec n1 n2) as [<-|]; [|discriminate].
    injection Hwidth as <-.
    unfold accepts_exact. simpl Regex.run.
    rewrite (IH1 n1 eq_refl _ a s _ Hlen), (IH2 n1 eq_refl _ a s _ Hlen).
    unfold accepts_exact.
    destruct (Regex.run r1 false a _), (Regex.run r2 false a _), (k false s);
      reflexivity.
Qed.

Lemma run_cat_fixed (r1 r2 : Regex.regex) (n : nat) (start : bool)
    (a s : string) (k : bool -> string -> bool) :
  width r1 = Some n -> String.length a = n ->
  Regex.run (Regex.Cat r1 r2) start (a ++ s) k
  = accepts_exact r1 a && Regex.run r2 false s k.
Proof.
  intros Hwidth Hlen. simpl Regex.run.
  exact (run_fixed r1 n Hwidth start a s
           (fun start' s' => Regex.run r2 start' s' k) Hlen).
Qed.

(** One alternative of the date pattern on a text made of a year of four
    characters, a month and a day of two and two separators, followed by
    anything. *)
Lemma year_month_day_run (year month day : Regex.regex)
    (Y s1 M s2 D rest : string) :
  width year = Some 4%nat -> width month = Some 2%nat ->
  width day = Some 2%nat ->
  String.length Y = 4%nat -> String.length s1 = 1%nat ->
  String.length M = 2%nat -> String.length s2 = 1%nat ->
  String.length D = 2%nat ->
  Regex.run (year_month_day year month day) true
            (Y ++ s1 ++ M ++ s2 ++ D ++ rest) (fun _ _ => true)
  = accepts_exact year Y && accepts_exact separator_regex s1
    && accepts_exact month M && accepts_exact separator_regex s2
    && accepts_exact day D.
Proof.
  intros Wy Wm Wd LY L1 LM L2 LD. unfold year_month_day.
  assert (Ws : width separator_regex = Some 1%nat) by reflexivity.
  rewrite (run_cat_fixed year _ 4 _ Y _ _ Wy LY).
  rewrite (run_cat_fixed separator_regex _ 1 _ s1 _ _ Ws L1).
  rewrite (run_cat_fixed month _ 2 _ M _ _ Wm LM).
  rewrite (run_cat_fixed separator_regex _ 1 _ s2 _ _ Ws L2).
  rewrite (run_fixed day 2 Wd _ D rest _ LD).
  rewrite andb_true_r, !andb_assoc. reflexivity.
Qed.

Lemma year_rows :
  forallb year_row_ok (integers_from 1000 (Z.to_nat 9000)) = true.
Proof. vm_compute. reflexivity. Qed.

Lemma two_digit_rows : forallb two_digit_row_ok (integers_from 0 100) = true.
Proof. vm_compute. reflexivity. Qed.

Lemma calendar_rows : forallb calendar_row_ok (integers_from 0 100) = true.
Proof. vm_compute. reflexivity. Qed.

Lemma calendar_formula_spec (leap : bool) (month day : Z) :
  0 <= month <= 99 -> 0 <= day <= 99 ->
  calendar_formula leap month day = calendar_spec leap month day.
Proof.
  intros Hm Hd. pose proof calendar_rows as All.
  rewrite forallb_forall in All.
  specialize (All month (integers_from_complete 100 0 month ltac:(lia))).
  unfold calendar_row_ok in All. rewrite forallb_forall in All.
  specialize (All day (integers_from_complete 100 0 day ltac:(lia))).
  apply andb_prop in All. destruct All as [Ht Hf].
  apply Bool.eqb_prop in Ht, Hf. destruct leap; assumption.
Qed.

Lemma year_row (year : Z) :
  1000 <= year <= 9999 ->
  String.length (PyStr.str_int year) = 4%nat
  /\ accepts_exact year_regex (PyStr.str_int year) = in_dates 1800 2099 year
  /\ accepts_exact leap_year_regex (PyStr.str_int year)
     = in_dates 1800 2099 year && is_leap year.
Proof.
  intros Hy. pose proof year_rows as All. rewrite forallb_forall in All.
  specialize (All year
                (integers_from_complete (Z.to_nat 9000) 1000 year
                   ltac:(lia))).
  unfold year_row_ok in All.
  apply andb_prop in All. destruct All as [All H3].
  apply andb_prop in All. destruct All as [H1 H2].
  apply Nat.eqb_eq in H1. apply Bool.eqb_prop in H2, H3. auto.
Qed.

Lemma two_digit_row (n : Z) :
  0 <= n <= 99 -> two_digit_row_ok n = true.
Proof.
  intros Hn. pose proof two_digit_rows as All. rewrite forallb_forall in All.
  apply All, integers_from_complete. lia.
Qed.

Lemma separator_row (s : string) :
  In s ["-"; "."] ->
  String.length s = 1%nat /\ accepts_exact separator_regex s = true.
Proof. intros [<-|[<-|[]]]; split; reflexivity. Qed.

(** The date pattern on the text of a year, a month and a day, followed by
    anything. *)
Lemma date_regex_on_date (year month day : Z) (s1 s2 rest : string) :
  1000 <= year <= 9999 -> 0 <= month <= 99 -> 0 <= day <= 99 ->
  In s1 ["-"; "."] -> In s2 ["-"; "."] ->
  Regex.match_ date_regex (date_text year s1 month s2 day ++ rest)
  = in_dates 1800 2099 year && calendar_spec (is_leap year) month day.
Proof.
  intros Hy Hm Hd Hs1 Hs2.
  destruct (year_row year Hy) as (LY & EY & ELY).
  destruct (separator_row s1 Hs1) as (L1 & E1).
  destruct (separator_row s2 Hs2) as (L2 & E2).
  pose proof (two_digit_row month Hm) as RM.
  pose proof (two_digit_row day Hd) as RD.
  unfold two_digit_row_ok in RM, RD.
  repeat (apply andb_prop in RM; destruct RM as [RM ?]).
  repeat (apply andb_prop in RD; destruct RD as [RD ?]).
  repeat match goal with
         | H : Bool.eqb _ _ = true |- _ => apply Bool.eqb_prop in H
         | H : (_ =? _)%nat = true |- _ => apply Nat.eqb_eq in H
         end.
  unfold date_text. rewrite !string_app_assoc.
  unfold Regex.match_, date_regex. rewrite !run_alt.
  rewrite !year_month_day_run by (reflexivity || assumption).
  rewrite <- (calendar_formula_spec (is_leap year) month day Hm Hd).
  unfold calendar_formula.
  repeat match goal with
         | H : accepts_exact _ _ = _ |- _ => rewrite H; clear H
         end.
  destruct (in_dates 1800 2099 year), (is_leap year),
    (one_of_numbers [1; 3; 5; 7; 8; 10; 12] month),
    (one_of_numbers [4; 6; 9; 11] month), (month =? 2),
    (in_dates 1 31 day), (in_dates 1 30 day), (in_dates 1 28 day),
    (day =? 29); reflexivity.
Qed.

(** X17. On the text [YYYY-MM-DD] of a year of four digits, a month and a day
    of two, with [-] or [.] at either place and anything after it, the date
    validator accepts exactly the dates of the calendar from 1800 to 2099:
    months 1 to 12, days 1 to the length of the month, 29 February in leap
    years only. *)
Theorem date_validator_calendar (year month day : Z)
    (s1 s2 rest : string) :
  1000 <= year <= 9999 -> 0 <= month <= 99 -> 0 <= day <= 99 ->
  In s1 ["-"; "."] -> In s2 ["-"; "."] ->
  (DateValidator (date_text year s1 month s2 day ++ rest) = Accepted
   <-> 1800 <= year <= 2099
       /\ 1 <= month <= 12
       /\ 1 <= day <= days_in_month year month).
Proof.
  intros Hy Hm Hd Hs1 Hs2. unfold DateValidator.
  rewrite (date_regex_on_date year month day s1 s2 rest Hy Hm Hd Hs1 Hs2).
  unfold calendar_spec, in_dates, days_in_month.
  destruct ((1800 <=? year) && (year <=? 2099)
            && ((1 <=? month) && (month <=? 12)
                && ((1 <=? day)
                    && (day <=? month_days (is_leap year) month))))
    eqn:Hb; simpl; split; intros H; try reflexivity; try discriminate.
  - repeat (apply andb_prop in Hb; destruct Hb as [Hb ?]).
    repeat match goal with
           | H : (_ && _) = true |- _ => apply andb_prop in H; destruct H
           end.
    rewrite ?Z.leb_le in *. lia.
  - exfalso. destruct H as ((Y1 & Y2) & (M1 & M2) & (D1 & D2)).
    apply Z.leb_le in Y1, Y2, M1, M2, D1, D2.
    rewrite Y1, Y2, M1, M2, D1, D2 in Hb. discriminate.
Qed.

Lemma date_validator_calendar_witness :
  DateValidator (date_text 2024 "-" 2 "." 29 ++ " UTC") = Accepted
  <-> 1800 <= 2024 <= 2099
      /\ 1 <= 2 <= 12
      /\ 1 <= 29 <= days_in_month 2024 2.
Proof.
  apply (date_validator_calendar 2024 2 29 "-" "." " UTC"); simpl; auto; lia.
Defined.

(** What follows a match is not looked at when the pattern has no [$]. *)
Lemma run_extend (r : Regex.regex) :
  no_eol r = true ->
  forall start s k k' t,
    (forall b s', k b s' = true -> k' b (s' ++ t) = true) ->
    Regex.run r start s k = true ->
    Regex.run r start (s ++ t) k' = true.
Proof.
  induction r as [c|lo hi|r1 IH1 r2 IH2|r1 IH1 r2 IH2|r IH| |];
    intros Hno start s k k' t Hk Hrun; simpl in Hno, Hrun |- *;
    try discriminate.
  - destruct s as [|c' s']; [discriminate|]. simpl.
    destruct (Ascii.eqb c c'); [apply Hk, Hrun | discriminate].
  - destruct s as [|c' s']; [discriminate|]. simpl.
    destruct (Regex.in_range lo hi c'); [apply Hk, Hrun | discriminate].
  - apply andb_prop in Hno. destruct Hno as [Hno1 Hno2].
    apply (IH1 Hno1 start s
             (fun start' s' => Regex.run r2 start' s' k)); [|exact Hrun].
    intros b s' Hr2. apply (IH2 Hno2 b s' k); assumption.
  - apply andb_prop in Hno. destruct Hno as [Hno1 Hno2].
    apply orb_prop in Hrun. apply orb_true_iff.
    destruct Hrun as [Hrun|Hrun];
      [left; apply (IH1 Hno1 start s k) | right; apply (IH2 Hno2 start s k)];
      assumption.
  - apply orb_prop in Hrun. apply orb_true_iff.
    destruct Hrun as [Hrun|Hrun];
      [left; apply (IH Hno start s k); assumption | right; apply Hk, Hrun].
  - destruct start; [apply Hk, Hrun | discriminate].
Qed.

(** X18. The date validator only looks at the beginning of the answer: an
    accepted answer stays accepted with anything added after it. *)
Theorem date_validator_prefix (text suffix : string) :
  DateValidator text = Accepted ->
  DateValidator (text ++ suffix) = Accepted.
Proof.
  unfold DateValidator.
  destruct (Regex.match_ date_regex text) eqn:Hm; [intros _ | discriminate].
  unfold Regex.match_ in *.
  rewrite (run_extend date_regex eq_refl true text (fun _ _ => true)
             (fun _ _ => true) suffix (fun _ _ _ => eq_refl) Hm).
  reflexivity.
Qed.

Lemma date_validator_prefix_witness :
  DateValidator ("2024-01-05" ++ "T25:61") = Accepted.
Proof. apply (date_validator_prefix "2024-01-05" "T25:61"). reflexivity. Defined.

(** ** The contact window *)

Lemma prompt_date_accepted (lines : list string) :
  forall line rest,
    prompt_date lines = Some (line, rest) ->
    DateValidator line = Accepted
    /\ (List.length rest < List.length lines)%nat.
Proof.
  induction lines as [|l lines IH]; simpl; intros line rest H.
  - discriminate.
  - destruct (DateValidator l) eqn:Hl.
    + injection H as <- <-. split; [exact Hl | lia].
    + destruct (IH line rest H) as [Hv Hlen]. split; [exact Hv | lia].
Qed.

Lemma window_then_returns (r : option window_end)
    (k : window_state -> option window_end) (st' : window_state) :
  window_then r k = Some (Returns st') ->
  exists st1, r = Some (Returns st1) /\ k st1 = Some (Returns st').
Proof.
  destruct r as [[st1|st1|st1]|]; simpl; intros H; try discriminate.
  exists st1. auto.
Qed.

Lemma try_again_returns (again : window_state -> option window_end)
    (cond : window_state -> bool) (message : string)
    (st st' : window_state) :
  try_again again cond message st = Some (Returns st') ->
  (cond st = true /\ again (window_print message st) = Some (Returns st'))
  \/ (cond st = false /\ st' = st).
Proof.
  unfold try_again. destruct (cond st); intros H.
  - left. auto.
  - right. injection H as <-. auto.
Qed.

Lemma prompt_start_returns (st st1 : window_state) :
  prompt_start st = Some (Returns st1) ->
  DateValidator (pass_window_start st1) = Accepted
  /\ (List.length (answers st1) < List.length (answers st))%nat.
Proof.
  unfold prompt_start.
  destruct (prompt_date (answers st)) as [[line rest]|] eqn:Hp; [|discriminate].
  intros [= <-]. simpl. apply (prompt_date_accepted _ _ _ Hp).
Qed.

Lemma prompt_end_returns (st st1 : window_state) :
  prompt_end st = Some (Returns st1) ->
  DateValidator (pass_window_end st1) = Accepted
  /\ pass_window_start st1 = pass_window_start st
  /\ (List.length (answers st1) < List.length (answers st))%nat.
Proof.
  unfold prompt_end.
  destruct (prompt_date (answers st)) as [[line rest]|] eqn:Hp; [|discriminate].
  intros [= <-]. simpl.
  destruct (prompt_date_accepted _ _ _ Hp) as [Hv Hlen]. auto.
Qed.

Lemma future_window_fuel (today scheduling_window_end : string) :
  forall fuel st st',
    get_contact_window_fuel fuel "future" today scheduling_window_end st
    = Some (Returns st') ->
    future_window today scheduling_window_end st'.
Proof.
  induction fuel as [|fuel IH]; intros st st' Hrun; [discriminate|].
  simpl in Hrun.
  apply window_then_returns in Hrun. destruct Hrun as (s1 & Hs1 & Hrun).
  apply prompt_start_returns in Hs1. destruct Hs1 as [Vstart _].
  apply window_then_returns in Hrun. destruct Hrun as (s2 & Hs2 & Hrun).
  assert (Start2 : DateValidator (pass_window_start s2) = Accepted
                   /\ String.ltb (pass_window_start s2) today = false
                   /\ String.ltb scheduling_window_end (pass_window_start s2)
                      = false).
  { apply window_then_returns in Hs2. destruct Hs2 as (s1' & Hpast & Hadv).
    apply try_again_returns in Hadv.
    destruct Hadv as [[_ Hadv]|[Hadv ->]].
    - apply IH in Hadv. destruct Hadv as (V1 & _ & V3 & V4 & _). auto.
    - apply try_again_returns in Hpast.
      destruct Hpast as [[_ Hpast]|[Hpast ->]].
      + apply IH in Hpast. destruct Hpast as (V1 & _ & V3 & V4 & _). auto.
      + auto. }
  apply window_then_returns in Hrun. destruct Hrun as (s3 & Hs3 & Hrun).
  apply prompt_end_returns in Hs3. destruct Hs3 as (Vend & Same & _).
  apply window_then_returns in Hrun. destruct Hrun as (s4 & Hs4 & Hrun).
  apply try_again_returns in Hrun.
  destruct Hrun as [[_ Hrun]|[Hadv ->]]; [apply (IH _ _ Hrun)|].
  apply try_again_returns in Hs4.
  destruct Hs4 as [[_ Hs4]|[Horder ->]]; [apply (IH _ _ Hs4)|].
  destruct Start2 as (V1 & V3 & V4). rewrite <- Same in V1, V3, V4.
  repeat split; assumption.
Qed.

(** X19. Whenever [get_contact_window("future")] returns, whatever was typed and
    however often it asked again, the two dates it returns passed the
    validator and make a window for a reservation: the start is not before
    today nor after the end of the scheduling window, the end is after the
    start and not after the end of the scheduling window. *)
Theorem get_contact_window_future (today scheduling_window_end : string)
    (st st' : window_state) :
  get_contact_window "future" today scheduling_window_end st
  = Some (Returns st') ->
  future_window today scheduling_window_end st'.
Proof. apply future_window_fuel. Qed.

Lemma get_contact_window_future_witness :
  future_window "2024-01-05" "2024-01-11"
    {| answers := [];
       pass_window_start := "2024-01-06";
       pass_window_end := "2024-01-09";
       window_output := [past_message] |}.
Proof.
  apply (get_contact_window_future "2024-01-05" "2024-01-11"
           (typing ["2024-01-01"; "2024-01-06"; "2024-01-08"; "2024-01-09"])).
  reflexivity.
Defined.

Lemma any_window_fuel (today scheduling_window_end : string) :
  forall fuel st st',
    get_contact_window_fuel fuel "all" today scheduling_window_end st
    = Some (Returns st') ->
    any_window st'.
Proof.
  induction fuel as [|fuel IH]; intros st st' Hrun; [discriminate|].
  simpl in Hrun.
  apply window_then_returns in Hrun. destruct Hrun as (s1 & Hs1 & Hrun).
  apply prompt_start_returns in Hs1. destruct Hs1 as [Vstart _].
  apply window_then_returns in Hrun. destruct Hrun as (s3 & Hs3 & Hrun).
  apply prompt_end_returns in Hs3. destruct Hs3 as (Vend & Same & _).
  apply window_then_returns in Hrun. destruct Hrun as (s4 & Hs4 & Hrun).
  injection Hrun as Hrun. subst s4.
  apply try_again_returns in Hs4.
  destruct Hs4 as [[_ Hs4]|[Horder ->]]; [apply (IH _ _ Hs4)|].
  rewrite <- Same in Vstart. repeat split; assumption.
Qed.

(** X20. Whenever [get_contact_window("all")] returns, the two dates it returns
    passed the validator and the end is after the start. *)
Theorem get_contact_window_all (today scheduling_window_end : string)
    (st st' : window_state) :
  get_contact_window "all" today scheduling_window_end st
  = Some (Returns st') ->
  any_window st'.
Proof. apply any_window_fuel. Qed.

Lemma get_contact_window_all_witness :
  any_window
    {| answers := [];
       pass_window_start := "2023-01-06";
       pass_window_end := "2024-01-08";
       window_output := [order_message] |}.
Proof.
  apply (get_contact_window_all "2024-01-05" "2024-01-11"
           (typing ["junk"; "2024-01-09"; "2024-01-08"; "2023-01-06";
                    "2024-01-08"])).
  reflexivity.
Defined.

Lemma within_more (n m : nat) (r : option window_end) :
  (n <= m)%nat -> within n r -> within m r.
Proof. intros Hnm (e & -> & Hlen). exists e. split; [reflexivity | lia]. Qed.

Lemma within_then (n : nat) (r : option window_end)
    (k : window_state -> option window_end) :
  within n r ->
  (forall st, (List.length (answers st) <= n)%nat -> within n (k st)) ->
  within n (window_then r k).
Proof.
  intros (e & -> & Hlen) Hk. destruct e as [st|st|st]; simpl in *.
  - apply Hk, Hlen.
  - exists (Unanswered st). auto.
  - exists (Unassigned st). auto.
Qed.

Lemma within_try_again (n : nat) (again : window_state -> option window_end)
    (cond : window_state -> bool) (message : string) (st : window_state) :
  (forall st, (List.length (answers st) <= n)%nat -> within n (again st)) ->
  (List.length (answers st) <= n)%nat ->
  within n (try_again again cond message st).
Proof.
  intros Hagain Hlen. unfold try_again. destruct (cond st).
  - apply Hagain. exact Hlen.
  - exists (Returns st). auto.
Qed.

Lemma within_prompt_end (n : nat) (st : window_state) :
  (List.length (answers st) <= n)%nat -> within n (prompt_end st).
Proof.
  intros Hlen. unfold prompt_end.
  destruct (prompt_date (answers st)) as [[line rest]|] eqn:Hp.
  - apply prompt_date_accepted in Hp. destruct Hp as [_ Hp].
    eexists. split; [reflexivity | simpl; lia].
  - eexists. split; [reflexivity | simpl; lia].
Qed.

Lemma get_contact_window_fuel_ends (direction today scheduling_window_end : string) :
  forall fuel st,
    (List.length (answers st) < fuel)%nat ->
    within (List.length (answers st))
      (get_contact_window_fuel fuel direction today scheduling_window_end st).
Proof.
  induction fuel as [|fuel IH]; intros st Hfuel; [lia|].
  simpl.
  destruct (negb ((direction =? "future")%string || (direction =? "all")%string)).
  { exists (Unassigned st). auto. }
  unfold prompt_start at 1.
  destruct (prompt_date (answers st)) as [[line rest]|] eqn:Hp;
    [|eexists; split; [reflexivity | simpl; lia]].
  apply prompt_date_accepted in Hp. destruct Hp as [_ Hrest].
  apply within_more with (n := List.length rest); [lia|].
  assert (Hagain : forall s, (List.length (answers s) <= List.length rest)%nat ->
                             within (List.length rest)
                               (get_contact_window_fuel fuel direction today
                                  scheduling_window_end s)).
  { intros s Hs. apply within_more with (n := List.length (answers s)); [lia|].
    apply IH. lia. }
  simpl window_then at 1.
  apply within_then.
  { destruct (direction =? "future")%string.
    - apply within_then.
      + apply within_try_again; [exact Hagain | simpl; lia].
      + intros s Hs. apply within_try_again; assumption.
    - eexists. split; [reflexivity | simpl; lia]. }
  intros s2 Hs2. apply within_then; [apply within_prompt_end, Hs2|].
  intros s3 Hs3. apply within_then.
  { apply within_try_again; assumption. }
  intros s4 Hs4. destruct (direction =? "future")%string.
  - apply within_try_again; assumption.
  - exists (Returns s4). auto.
Qed.

(** X21. A nested call only comes after an answer was taken, so a call on
    finitely many typed lines ends: it returns, or stops at a prompt that
    has no answer, or (for a direction other than the two) at the local
    that was not assigned; and it leaves no more lines than it found. *)
Theorem get_contact_window_ends (direction today scheduling_window_end : string)
    (st : window_state) :
  exists e,
    get_contact_window direction today scheduling_window_end st = Some e
    /\ (List.length (answers (state_of e)) <= List.length (answers st))%nat.
Proof. apply get_contact_window_fuel_ends. lia. Qed.

Lemma prompt_date_first (line : string) (rest : list string) :
  DateValidator line = Accepted ->
  prompt_date (line :: rest) = Some (line, rest).
Proof. intros H. simpl. rewrite H. reflexivity. Qed.

Lemma prompt_start_accepted (line start0 end0 : string)
    (rest output : list string) :
  DateValidator line = Accepted ->
  prompt_start {| answers := line :: rest;
                  pass_window_start := start0;
                  pass_window_end := end0;
                  window_output := output |}
  = Some (Returns {| answers := rest;
                     pass_window_start := line;
                     pass_window_end := end0;
                     window_output := output |}).
Proof.
  intros V. unfold prompt_start, answers, prompt_date. rewrite V. reflexivity.
Qed.

Lemma prompt_end_accepted (line start0 end0 : string)
    (rest output : list string) :
  DateValidator line = Accepted ->
  prompt_end {| answers := line :: rest;
                pass_window_start := start0;
                pass_window_end := end0;
                window_output := output |}
  = Some (Returns {| answers := rest;
                     pass_window_start := start0;
                     pass_window_end := line;
                     window_output := output |}).
Proof.
  intros V. unfold prompt_end, answers, prompt_date. rewrite V. reflexivity.
Qed.

Ltac window_step :=
  cbv beta iota
    delta [answers pass_window_start pass_window_end window_output app].

(** One call to schedule, with the nested calls as [again]. *)
Lemma get_contact_window_fuel_future
    (fuel : nat) (today scheduling_window_end : string) (st : window_state) :
  get_contact_window_fuel (S fuel) "future" today scheduling_window_end st
  = let again :=
      get_contact_window_fuel fuel "future" today scheduling_window_end in
    window_then (prompt_start st) (fun st =>
    window_then
      (window_then
         (try_again again
            (fun st => String.ltb (pass_window_start st) today)
            past_message st)
         (try_again again
            (fun st =>
               String.ltb scheduling_window_end (pass_window_start st))
            advance_message)) (fun st =>
    window_then (prompt_end st) (fun st =>
    window_then
      (try_again again
         (fun st => String.leb (pass_window_end st) (pass_window_start st))
         order_message st) (fun st =>
    try_again again
      (fun st => String.ltb scheduling_window_end (pass_window_end st))
      advance_message st)))).
Proof. reflexivity. Qed.

(** A call whose two answers make a window returns them at once. *)
Lemma get_contact_window_fuel_direct
    (today scheduling_window_end s e start0 end0 : string)
    (rest : list string) (output : list string) (fuel : nat) :
  DateValidator s = Accepted -> DateValidator e = Accepted ->
  String.ltb s today = false ->
  String.ltb scheduling_window_end s = false ->
  String.leb e s = false -> String.ltb scheduling_window_end e = false ->
  get_contact_window_fuel (S fuel) "future" today scheduling_window_end
    {| answers := s :: e :: rest;
       pass_window_start := start0;
       pass_window_end := end0;
       window_output := output |}
  = Some (Returns {| answers := rest;
                     pass_window_start := s;
                     pass_window_end := e;
                     window_output := output |}).
Proof.
  intros Vs Ve Sa Sb Ea Eb.
  rewrite get_contact_window_fuel_future. cbv zeta.
  rewrite (prompt_start_accepted _ _ _ _ _ Vs).
  unfold window_then, try_again.
  window_step. rewrite Sa. window_step. rewrite Sb. window_step.
  rewrite (prompt_end_accepted _ _ _ _ _ Ve).
  window_step. rewrite Ea. window_step. rewrite Eb. reflexivity.
Qed.

(** X22. After a start date in the past, the nested call asks for a start and
    an end; when it has returned, the end is asked for once more, and it is
    this last answer that is returned with the start of the nested call. *)
Theorem get_contact_window_asks_end_again
    (today scheduling_window_end s0 s1 e1 e2 : string) (rest : list string) :
  DateValidator s0 = Accepted -> DateValidator s1 = Accepted ->
  DateValidator e1 = Accepted -> DateValidator e2 = Accepted ->
  String.ltb s0 today = true ->
  String.ltb s1 today = false ->
  String.ltb scheduling_window_end s1 = false ->
  String.leb e1 s1 = false -> String.ltb scheduling_window_end e1 = false ->
  String.leb e2 s1 = false -> String.ltb scheduling_window_end e2 = false ->
  get_contact_window "future" today scheduling_window_end
    (typing (s0 :: s1 :: e1 :: e2 :: rest))
  = Some (Returns {| answers := rest;
                     pass_window_start := s1;
                     pass_window_end := e2;
                     window_output := [past_message] |}).
Proof.
  intros V0 V1 V2 V3 Past S1a S1b E1a E1b E2a E2b.
  unfold get_contact_window, typing, answers.
  change (List.length (s0 :: s1 :: e1 :: e2 :: rest))
    with (S (S (S (S (List.length rest))))).
  rewrite get_contact_window_fuel_future. cbv zeta.
  rewrite (prompt_start_accepted _ _ _ _ _ V0).
  unfold window_then, try_again, window_print.
  window_step. rewrite Past. window_step.
  rewrite (get_contact_window_fuel_direct today scheduling_window_end s1 e1
             s0 EmptyString (e2 :: rest) [past_message] _
             V1 V2 S1a S1b E1a E1b).
  window_step. rewrite S1b. window_step.
  rewrite (prompt_end_accepted _ _ _ _ _ V3).
  window_step. rewrite E2a. window_step. rewrite E2b. reflexivity.
Qed.

Lemma get_contact_window_asks_end_again_witness :
  get_contact_window "future" "2024-01-05" "2024-01-11"
    (typing ["2024-01-01"; "2024-01-06"; "2024-01-08"; "2024-01-09"])
  = Some (Returns {| answers := [];
                     pass_window_start := "2024-01-06";
                     pass_window_end := "2024-01-09";
                     window_output := [past_message] |}).
Proof.
  apply (get_contact_window_asks_end_again "2024-01-05" "2024-01-11"
           "2024-01-01" "2024-01-06" "2024-01-08" "2024-01-09" []);
    reflexivity.
Defined.

(** ** Nothing to list *)

Lemma for_collect_empty_answers (gs_client : GroundStation.client)
    (req_of : string -> list_contacts_request) :
  (forall log req, GroundStation.list_contacts gs_client log req = Ok []) ->
  forall (stations : list string) (log : list event),
    for_collect stations (fun ground_station =>
      call (ListContacts (req_of ground_station))
           (fun log =>
              GroundStation.list_contacts gs_client log
                (req_of ground_station))) log
    = ((log ++ map (fun station => ListContacts (req_of station)) stations)%list,
       Ok (map (fun _ => []) stations)).
Proof.
  intros Hempty. induction stations as [|station stations IH]; intros log.
  - simpl. unfold ret. rewrite app_nil_r. reflexivity.
  - simpl. unfold bind, call. rewrite Hempty, IH. unfold ret.
    rewrite <- app_assoc. reflexivity.
Qed.

Lemma concat_empty {A B : Type} (l : list B) :
  List.concat (map (fun _ => @nil A) l) = [].
Proof. induction l as [|x l IH]; [reflexivity | exact IH]. Qed.

Lemma fetch_passes_empty_answers (gs_client : GroundStation.client)
    (sel : selection) (contact_type : list string) (log : list event) :
  (forall log req, GroundStation.list_contacts gs_client log req = Ok []) ->
  fetch_passes gs_client sel contact_type log
  = ((log ++ map (fun station =>
                    ListContacts (request_for sel contact_type station))
                 (selected_groundstations sel))%list,
     Ok ([], mission_profile_arn sel, satellite_arn sel)).
Proof.
  intros Hempty. unfold fetch_passes, bind.
  rewrite (for_collect_empty_answers gs_client (request_for sel contact_type)
             Hempty).
  unfold ret, flat_passes. rewrite concat_empty. reflexivity.
Qed.

(** X25. When the selector stage and the contact window of a run of
    [cancel_contact] have returned and the service lists no scheduled
    contact at any selected ground station, the run goes on like this: it
    asks each station once, prints that there is no scheduled contact and
    an empty line, and returns.  After the contact window there is no
    prompt, no cancellation and no main menu. *)
Theorem cancel_contact_nothing_scheduled (gs_client : GroundStation.client)
    (asked : contacts_answers) (ans : cancel_answers)
    (log log1 : list event) (sel : selection) :
  get_contacts_selection gs_client asked ["SCHEDULED"] log = (log1, Ok sel) ->
  (forall log req, GroundStation.list_contacts gs_client log req = Ok []) ->
  cancel_contact gs_client asked ans log
  = ((log1
      ++ map (fun station =>
                ListContacts (request_for sel ["SCHEDULED"] station))
             (selected_groundstations sel)
      ++ [Print (Text (banner "No scheduled contacts with specified parameters."
                       ++ String Regex.newline EmptyString));
          Print (Text EmptyString)])%list,
     Ok tt).
Proof.
  intros Hsel Hempty. unfold cancel_contact, view_contact, get_contacts.
  rewrite !bind_assoc.
  rewrite (bind_returns _ _ log log1 sel Hsel).
  unfold bind at 1.
  rewrite (fetch_passes_empty_answers gs_client sel ["SCHEDULED"] log1 Hempty).
  unfold bind, print, emit, ret.
  rewrite <- !app_assoc. reflexivity.
Qed.

Lemma cancel_contact_nothing_scheduled_witness :
  cancel_contact idle_client sample_answers cancel_ohio_answers []
  = ([ListSatellites; ListMissionProfiles; ListMissionProfiles;
      ListSatellites; ListGroundStations "33333333-4444";
      ListContacts (request_for sample_selection ["SCHEDULED"] "Ohio 1");
      Print (Text (banner "No scheduled contacts with specified parameters."
                   ++ String Regex.newline EmptyString));
      Print (Text EmptyString)],
     Ok tt).
Proof.
  apply (cancel_contact_nothing_scheduled idle_client sample_answers
           cancel_ohio_answers []
           [ListSatellites; ListMissionProfiles; ListMissionProfiles;
            ListSatellites; ListGroundStations "33333333-4444"]
           sample_selection).
  - vm_compute. reflexivity.
  - reflexivity.
Defined.

(** ** The identifier of a mission profile *)

Lemma string_app_nil_r (s : string) : s ++ EmptyString = s.
Proof. induction s as [|c s IH]; [reflexivity | simpl; rewrite IH; reflexivity]. Qed.

Lemma prefix_slash (c : ascii) (s : string) :
  String.prefix "/" (String c s) = Ascii.eqb c "/".
Proof.
  cbn [String.prefix].
  destruct (ascii_dec "/" c) as [<-|Hne].
  - destruct s; reflexivity.
  - symmetry. apply Ascii.eqb_neq. congruence.
Qed.

Lemma occurs_slash (c : ascii) (s : string) :
  occurs "/" (String c s) = Ascii.eqb c "/" || occurs "/" s.
Proof. cbn [occurs]. rewrite prefix_slash. reflexivity. Qed.

Lemma split_slash_none (s : string) :
  forall cur, occurs "/" s = false ->
    PyStr.split_from "/" 0 cur s = [cur ++ s].
Proof.
  induction s as [|c s IH]; intros cur Hfree.
  - cbn [PyStr.split_from]. rewrite string_app_nil_r. reflexivity.
  - rewrite occurs_slash in Hfree. apply orb_false_elim in Hfree.
    destruct Hfree as [Hc Hs].
    cbn [PyStr.split_from]. rewrite prefix_slash, Hc, (IH _ Hs).
    rewrite string_app_assoc. reflexivity.
Qed.

Lemma split_slash_first (a : string) :
  forall cur t, occurs "/" a = false ->
    PyStr.split_from "/" 0 cur (a ++ String "/" t)
    = (cur ++ a) :: PyStr.split_from "/" 0 EmptyString t.
Proof.
  induction a as [|c a IH]; intros cur t Hfree.
  - cbn [String.append PyStr.split_from]. rewrite prefix_slash.
    rewrite string_app_nil_r. reflexivity.
  - rewrite occurs_slash in Hfree. apply orb_false_elim in Hfree.
    destruct Hfree as [Hc Ha].
    cbn [String.append PyStr.split_from]. rewrite prefix_slash, Hc, (IH _ _ Ha).
    rewrite string_app_assoc. reflexivity.
Qed.

Lemma split_slash_piece (id : string) :
  forall cur tail, occurs "/" id = false -> piece_ends tail = true ->
    exists pieces,
      PyStr.split_from "/" 0 cur (id ++ tail) = (cur ++ id) :: pieces.
Proof.
  intros cur [|c t] Hfree Hend.
  - rewrite string_app_nil_r, (split_slash_none _ _ Hfree). eauto.
  - cbn [piece_ends] in Hend. apply Ascii.eqb_eq in Hend. subst c.
    rewrite (split_slash_first _ _ _ Hfree). eauto.
Qed.

(** X23. A mission profile ARN without a [/] has no identifier:
    [get_mission_profile_name] raises [IndexError] and the service is not
    asked. *)
Theorem mission_profile_arn_without_slash (gs_client : GroundStation.client)
    (arn : string) (log : list event) :
  occurs "/" arn = false ->
  get_mission_profile_name gs_client arn log = (log, Raise IndexError).
Proof.
  intros Hfree. unfold get_mission_profile_name, bind, lift, PyStr.split.
  rewrite (split_slash_none _ _ Hfree). reflexivity.
Qed.

Lemma mission_profile_arn_without_slash_witness :
  get_mission_profile_name idle_client "mission-profile" []
  = ([], Raise IndexError).
Proof.
  apply (mission_profile_arn_without_slash idle_client "mission-profile" []).
  reflexivity.
Defined.

(** X24. The identifier that [get_mission_profile_name] asks the service
    about is the text between the first [/] of the ARN and the next one, or
    the end; the name is what the service answers to that one call. *)
Theorem mission_profile_id_requested (gs_client : GroundStation.client)
    (before id tail : string) (log : list event) :
  occurs "/" before = false ->
  occurs "/" id = false ->
  piece_ends tail = true ->
  get_mission_profile_name gs_client (before ++ "/" ++ id ++ tail) log
  = ((log ++ [GetMissionProfile id])%list,
     GroundStation.get_mission_profile gs_client log id).
Proof.
  intros Hbefore Hid Hend.
  unfold get_mission_profile_name, bind, lift, PyStr.split.
  change ("/" ++ id ++ tail) with (String "/" (id ++ tail)).
  rewrite (split_slash_first _ _ _ Hbefore).
  destruct (split_slash_piece id EmptyString tail Hid Hend) as [pieces ->].
  reflexivity.
Qed.

Lemma mission_profile_id_requested_witness :
  get_mission_profile_name idle_client
    ("arn:aws:groundstation:us-east-2:111122223333:mission-profile" ++ "/"
     ++ "11111111-2222" ++ "/extra") []
  = ([GetMissionProfile "11111111-2222"], Ok "profile").
Proof.
  apply (mission_profile_id_requested idle_client
           "arn:aws:groundstation:us-east-2:111122223333:mission-profile"
           "11111111-2222" "/extra" []);
    reflexivity.
Defined.

(** ** The selector stage *)

(** [int] reads back what [str] wrote. *)
Lemma digits_value_acc (d : Decimal.uint) :
  forall a : positive,
    PyStr.digits_value (Z.pos a) (NilEmpty.string_of_uint d)
    = Some (Z.pos (Pos.of_uint_acc d a)).
Proof.
  induction d as [|d IH|d IH|d IH|d IH|d IH|d IH|d IH|d IH|d IH|d IH];
    intros a; cbn [NilEmpty.string_of_uint PyStr.digits_value Pos.of_uint_acc];
    [reflexivity|..];
    match goal with
    | |- context [PyStr.digit_value ?c] =>
        let v := eval vm_compute in (PyStr.digit_value c) in
        change (PyStr.digit_value c) with v
    end;
    cbv beta iota; rewrite <- IH; f_equal; lia.
Qed.

Lemma digits_value_uint (d : Decimal.uint) :
  PyStr.digits_value 0 (NilEmpty.string_of_uint d)
  = Some (Z.of_N (Pos.of_uint d)).
Proof.
  induction d as [|d IH|d IH|d IH|d IH|d IH|d IH|d IH|d IH|d IH|d IH];
    cbn [NilEmpty.string_of_uint PyStr.digits_value Pos.of_uint];
    [reflexivity|..];
    match goal with
    | |- context [PyStr.digit_value ?c] =>
        let v := eval vm_compute in (PyStr.digit_value c) in
        change (PyStr.digit_value c) with v
    end;
    cbv beta iota;
    [exact IH | change (Z.of_N (N.pos ?p)) with (Z.pos p);
                rewrite <- digits_value_acc; reflexivity ..].
Qed.

Lemma rstrip_uint (d : Decimal.uint) :
  PyStr.rstrip (NilEmpty.string_of_uint d) = NilEmpty.string_of_uint d.
Proof.
  induction d as [|d IH|d IH|d IH|d IH|d IH|d IH|d IH|d IH|d IH|d IH];
    cbn [NilEmpty.string_of_uint PyStr.rstrip]; [reflexivity|..];
    rewrite IH; destruct (NilEmpty.string_of_uint d); reflexivity.
Qed.

Lemma lstrip_uint (d : Decimal.uint) :
  PyStr.lstrip (NilEmpty.string_of_uint d) = NilEmpty.string_of_uint d.
Proof. destruct d; reflexivity. Qed.

Lemma py_int_uint (d : Decimal.uint) :
  d <> Decimal.Nil ->
  py_int (NilEmpty.string_of_uint d) = Ok (Z.of_N (Pos.of_uint d)).
Proof.
  intros Hd. unfold py_int, PyStr.strip.
  rewrite rstrip_uint, lstrip_uint.
  pose proof (digits_value_uint d) as Hvalue.
  destruct d; [congruence|..];
    cbn [NilEmpty.string_of_uint] in Hvalue |- *;
    cbv beta iota; rewrite Hvalue; reflexivity.
Qed.

Lemma py_int_minus_uint (d : Decimal.uint) :
  d <> Decimal.Nil ->
  py_int (String "-" (NilEmpty.string_of_uint d))
  = Ok (- Z.of_N (Pos.of_uint d)).
Proof.
  intros Hd. unfold py_int, PyStr.strip.
  cbn [PyStr.rstrip]. rewrite rstrip_uint.
  pose proof (digits_value_uint d) as Hvalue.
  destruct d; [congruence|..];
    cbn [NilEmpty.string_of_uint] in Hvalue |- *;
    cbv beta iota; cbn [PyStr.lstrip];
    match goal with
    | |- context [PyStr.is_space ?c] =>
        change (PyStr.is_space c) with false
    end;
    cbv beta iota; rewrite Hvalue; reflexivity.
Qed.

Lemma py_int_str_int (n : Z) : py_int (PyStr.str_int n) = Ok n.
Proof.
  unfold PyStr.str_int.
  destruct n as [|p|p]; [reflexivity|..];
    cbn [Z.to_int NilZero.string_of_int];
    pose proof (Unsigned.to_uint_nonnil p) as Hnil;
    pose proof (Unsigned.of_to p) as Hback;
    unfold NilZero.string_of_uint;
    destruct (Pos.to_uint p) eqn:Hd; try congruence;
    rewrite <- Hd in *.
  all: first [ rewrite (py_int_uint _ Hnil)
             | rewrite (py_int_minus_uint _ Hnil) ];
    rewrite Hback; reflexivity.
Qed.

Lemma first_satellite_arn_listed (satellite : Satellite.t) :
  forall satellites,
    In satellite satellites ->
    NoDup (map Satellite.noradSatelliteID satellites) ->
    first_satellite_arn satellites (Satellite.noradSatelliteID satellite)
    = Satellite.satelliteArn satellite.
Proof.
  induction satellites as [|first rest IH]; intros Hin Hdistinct;
    [destruct Hin|].
  simpl in Hdistinct. inversion Hdistinct as [|id ids Hfresh Hrest]; subst.
  cbn [first_satellite_arn].
  destruct (Z.eqb_spec (Satellite.noradSatelliteID first)
              (Satellite.noradSatelliteID satellite)) as [Hsame|Hother].
  - destruct Hin as [->|Hin]; [reflexivity|].
    exfalso. apply Hfresh. rewrite Hsame. apply in_map. exact Hin.
  - destruct Hin as [->|Hin]; [congruence|]. apply IH; assumption.
Qed.

Lemma first_profile_arn_listed (profile : MissionProfile.t) :
  forall profiles,
    In profile profiles ->
    NoDup (map MissionProfile.name profiles) ->
    first_profile_arn profiles (MissionProfile.name profile)
    = MissionProfile.missionProfileArn profile.
Proof.
  induction profiles as [|first rest IH]; intros Hin Hdistinct;
    [destruct Hin|].
  simpl in Hdistinct. inversion Hdistinct as [|id ids Hfresh Hrest]; subst.
  cbn [first_profile_arn].
  destruct (String.eqb_spec (MissionProfile.name first)
              (MissionProfile.name profile)) as [Hsame|Hother].
  - destruct Hin as [->|Hin]; [reflexivity|].
    exfalso. apply Hfresh. rewrite Hsame. apply in_map. exact Hin.
  - destruct Hin as [->|Hin]; [congruence|]. apply IH; assumption.
Qed.

(** [split] always gives a first piece. *)
Lemma split_from_first (sep s : string) :
  forall skip cur, exists piece pieces,
    PyStr.split_from sep skip cur s = piece :: pieces.
Proof.
  induction s as [|c s IH]; intros skip cur; cbn [PyStr.split_from].
  - eauto.
  - destruct skip as [|skip]; [|apply IH].
    destruct (String.prefix sep (String c s)); [eauto | apply IH].
Qed.

(** A text with a [/] has a piece after it. *)
Lemma split_slash_second (s : string) :
  forall cur, occurs "/" s = true ->
    exists piece, index (PyStr.split_from "/" 0 cur s) 1 = Ok piece.
Proof.
  induction s as [|c s IH]; intros cur Hslash; [discriminate|].
  rewrite occurs_slash in Hslash.
  cbn [PyStr.split_from]. rewrite prefix_slash.
  destruct (Ascii.eqb c "/").
  - destruct (split_from_first "/" s (String.length "/" - 1) EmptyString)
      as (piece & pieces & ->).
    exists piece. reflexivity.
  - apply IH. exact Hslash.
Qed.

Lemma prefix_dash (c : ascii) (s : string) :
  String.prefix "-" (String c s) = Ascii.eqb c "-".
Proof.
  cbn [String.prefix].
  destruct (ascii_dec "-" c) as [<-|Hne].
  - destruct s; reflexivity.
  - symmetry. apply Ascii.eqb_neq. congruence.
Qed.

Lemma prefix_dashes (c : ascii) (s : string) :
  String.prefix "--" (String c s)
  = Ascii.eqb c "-"
    && match s with
       | EmptyString => false
       | String c' _ => Ascii.eqb c' "-"
       end.
Proof.
  change (String.prefix "--" (String c s))
    with (if ascii_dec "-" c then String.prefix "-" s else false).
  destruct (ascii_dec "-" c) as [<-|Hne].
  - destruct s as [|c' s]; [reflexivity | apply prefix_dash].
  - replace (Ascii.eqb c "-") with false; [reflexivity|].
    symmetry. apply Ascii.eqb_neq. congruence.
Qed.

(** A name without [--], followed by a space, makes no piece of its own. *)
Lemma split_dashes_name (name : string) :
  forall cur w, occurs "--" name = false ->
    PyStr.split_from "--" 0 cur (name ++ String " " w)
    = PyStr.split_from "--" 0 (cur ++ name) (String " " w).
Proof.
  induction name as [|c name IH]; intros cur w Hfree.
  - rewrite string_app_nil_r. reflexivity.
  - cbn [occurs] in Hfree. apply orb_false_elim in Hfree.
    destruct Hfree as [Hhere Hlater].
    cbn [String.append PyStr.split_from].
    assert (Hnot : String.prefix "--" (String c (name ++ String " " w)) = false).
    { rewrite prefix_dashes in Hhere |- *.
      destruct name as [|c' name]; cbn [String.append].
      - change (Ascii.eqb " " "-") with false. apply andb_false_r.
      - exact Hhere. }
    rewrite Hnot, (IH _ _ Hlater), string_app_assoc. reflexivity.
Qed.

Lemma split_dashes_spaces (n : nat) :
  forall cur t,
    PyStr.split_from "--" 0 cur (spaces n ++ String "-" (String "-" t))
    = (cur ++ spaces n) :: PyStr.split_from "--" 0 EmptyString t.
Proof.
  induction n as [|n IH]; intros cur t.
  - cbn [spaces String.append PyStr.split_from].
    rewrite prefix_dashes. change (Ascii.eqb "-" "-") with true.
    cbn [andb]. rewrite string_app_nil_r.
    destruct t; reflexivity.
  - cbn [spaces String.append PyStr.split_from].
    rewrite prefix_dashes. change (Ascii.eqb " " "-") with false.
    cbn [andb]. rewrite IH, string_app_assoc. reflexivity.
Qed.

Lemma spaces_app (n m : nat) : spaces n ++ spaces m = spaces (n + m).
Proof.
  induction n as [|n IH]; [reflexivity|].
  cbn [spaces String.append Nat.add]. rewrite IH. reflexivity.
Qed.

Lemma rstrip_spaces (n : nat) : PyStr.rstrip (spaces n) = EmptyString.
Proof.
  induction n as [|n IH]; [reflexivity|].
  cbn [spaces PyStr.rstrip]. rewrite IH. reflexivity.
Qed.

Lemma rstrip_padded (s : string) (n : nat) :
  PyStr.rstrip (s ++ spaces n) = PyStr.rstrip s.
Proof.
  induction s as [|c s IH].
  - cbn [String.append]. apply rstrip_spaces.
  - cbn [String.append PyStr.rstrip]. rewrite IH. reflexivity.
Qed.

(** The line of a mission profile splits at its own [--]: the first piece
    is the padded name, and there is a second piece. *)
Lemma split_mission_profile_details (profile : MissionProfile.t) :
  occurs "--" (MissionProfile.name profile) = false ->
  exists n piece pieces,
    PyStr.split "--" (mission_profile_details profile)
    = (MissionProfile.name profile ++ spaces n) :: piece :: pieces.
Proof.
  intros Hfree. unfold mission_profile_details, ljust, PyStr.split.
  set (name := MissionProfile.name profile) in *.
  set (k := (30 - String.length name)%nat).
  set (rest := ("  " ++ MissionProfile.region profile)).
  replace ((name ++ spaces k) ++ "  --  " ++ MissionProfile.region profile)
    with (name ++ String " " (spaces (k + 1)
                                ++ String "-" (String "-" rest))).
  - rewrite (split_dashes_name name EmptyString _ Hfree).
    change (String " " (spaces (k + 1) ++ String "-" (String "-" rest)))
      with (spaces (S (k + 1)) ++ String "-" (String "-" rest)).
    rewrite split_dashes_spaces.
    destruct (split_from_first "--" rest 0 EmptyString)
      as (piece & pieces & ->).
    exists (S (k + 1)), piece, pieces.
    cbn [String.append]. reflexivity.
  - rewrite string_app_assoc. f_equal.
    change ("  --  " ++ MissionProfile.region profile)
      with (spaces 2 ++ String "-" (String "-" rest)).
    rewrite <- string_app_assoc, spaces_app.
    replace (k + 2)%nat with (S (k + 1)) by lia.
    reflexivity.
Qed.

Lemma string_length_app (a b : string) :
  String.length (a ++ b) = (String.length a + String.length b)%nat.
Proof.
  induction a as [|c a IH]; [reflexivity|].
  cbn [String.append String.length Nat.add]. rewrite IH. reflexivity.
Qed.

Lemma mission_profile_details_not_exit (profile : MissionProfile.t) :
  String.eqb (mission_profile_details profile) "Exit" = false.
Proof.
  apply String.eqb_neq. intros Hexit.
  apply (f_equal String.length) in Hexit.
  unfold mission_profile_details in Hexit.
  rewrite !string_length_app in Hexit.
  change (String.length "  --  ") with 6%nat in Hexit.
  change (String.length "Exit") with 4%nat in Hexit.
  lia.
Qed.

Lemma str_int_not_exit (n : Z) : String.eqb (PyStr.str_int n) "Exit" = false.
Proof.
  apply String.eqb_neq. intros Hexit.
  pose proof (py_int_str_int n) as Hread. rewrite Hexit in Hread.
  discriminate Hread.
Qed.

Lemma get_satellite_list_run (gs_client : GroundStation.client)
    (satellites : list Satellite.t) (log : list event) :
  GroundStation.list_satellites gs_client log = Ok satellites ->
  satellites <> [] ->
  get_satellite_list gs_client log
  = ((log ++ [ListSatellites])%list,
     Ok (map (fun satellite =>
                PyStr.str_int (Satellite.noradSatelliteID satellite))
             satellites ++ ["Exit"])%list).
Proof.
  intros Hlist Hsome. unfold get_satellite_list, bind, call.
  rewrite Hlist.
  destruct satellites as [|first rest]; [congruence | reflexivity].
Qed.

Lemma get_mission_profile_list_run (gs_client : GroundStation.client)
    (profiles : list MissionProfile.t) (log : list event) :
  GroundStation.list_mission_profiles gs_client log = Ok profiles ->
  profiles <> [] ->
  get_mission_profile_list gs_client log
  = ((log ++ [ListMissionProfiles])%list,
     Ok (Separator profile_header
         :: map Choice (map mission_profile_details profiles)
         ++ [Choice "Exit"])%list).
Proof.
  intros Hlist Hsome. unfold get_mission_profile_list, bind, call.
  rewrite Hlist.
  destruct profiles as [|first rest]; [congruence|].
  unfold ret. rewrite map_map. reflexivity.
Qed.

Lemma get_onboarded_ground_stations_run (gs_client : GroundStation.client)
    (satellite_id region : string) (names : list string)
    (log : list event) :
  GroundStation.list_ground_stations gs_client log satellite_id = Ok names ->
  names <> [] ->
  get_onboarded_ground_stations gs_client satellite_id region log
  = ((log ++ [ListGroundStations satellite_id])%list,
     Ok (map Choice names)).
Proof.
  intros Hlist Hsome. unfold get_onboarded_ground_stations, bind, call.
  rewrite Hlist.
  destruct names as [|first rest]; [congruence | reflexivity].
Qed.

Lemma get_satellite_arn_listed (gs_client : GroundStation.client)
    (satellites : list Satellite.t) (satellite : Satellite.t)
    (log : list event) :
  GroundStation.list_satellites gs_client log = Ok satellites ->
  In satellite satellites ->
  NoDup (map Satellite.noradSatelliteID satellites) ->
  Satellite.satelliteArn satellite <> EmptyString ->
  get_satellite_arn gs_client (Satellite.noradSatelliteID satellite) log
  = ((log ++ [ListSatellites])%list, Ok (Satellite.satelliteArn satellite)).
Proof.
  intros Hlist Hin Hdistinct Harn. unfold get_satellite_arn, bind, call.
  rewrite Hlist.
  rewrite (first_satellite_arn_listed satellite _ Hin Hdistinct).
  apply String.eqb_neq in Harn. rewrite Harn. reflexivity.
Qed.

Lemma get_mission_profile_arn_listed (gs_client : GroundStation.client)
    (profiles : list MissionProfile.t) (profile : MissionProfile.t)
    (log : list event) :
  GroundStation.list_mission_profiles gs_client log = Ok profiles ->
  In profile profiles ->
  NoDup (map MissionProfile.name profiles) ->
  MissionProfile.missionProfileArn profile <> EmptyString ->
  get_mission_profile_arn gs_client (MissionProfile.name profile) log
  = ((log ++ [ListMissionProfiles])%list,
     Ok (MissionProfile.missionProfileArn profile)).
Proof.
  intros Hlist Hin Hdistinct Harn. unfold get_mission_profile_arn, bind, call.
  rewrite Hlist.
  rewrite (first_profile_arn_listed profile _ Hin Hdistinct).
  apply String.eqb_neq in Harn. rewrite Harn. reflexivity.
Qed.

(** X26. The choices of the prompts lead back to what they were made from.
    For a service that lists the same satellites and the same mission
    profiles at each call, and ground stations for every satellite: when
    the numbers of the listed satellites and the names of the listed
    mission profiles are distinct, answering with the text that
    [get_satellite_list] shows for a satellite and the line that
    [get_mission_profile_list] shows for a profile makes [get_contacts]
    go on with the ARNs of that satellite and that profile, after five
    listing calls (satellites, mission profiles twice, satellites, the
    ground stations of the identifier after the [/] of the satellite ARN)
    and nothing printed, provided the name of the profile has no [--] and
    no white space around it, both ARNs are there (the satellite's with a
    [/]), and a ground station is selected. *)
Theorem selector_resolves (gs_client : GroundStation.client)
    (satellites : list Satellite.t) (profiles : list MissionProfile.t)
    (satellite : Satellite.t) (profile : MissionProfile.t)
    (stations : list string) (log : list event) :
  (forall log, GroundStation.list_satellites gs_client log = Ok satellites) ->
  (forall log,
     GroundStation.list_mission_profiles gs_client log = Ok profiles) ->
  (forall log satellite_id, exists names,
     GroundStation.list_ground_stations gs_client log satellite_id = Ok names
     /\ names <> []) ->
  In satellite satellites ->
  NoDup (map Satellite.noradSatelliteID satellites) ->
  occurs "/" (Satellite.satelliteArn satellite) = true ->
  In profile profiles ->
  NoDup (map MissionProfile.name profiles) ->
  occurs "--" (MissionProfile.name profile) = false ->
  PyStr.strip (MissionProfile.name profile) = MissionProfile.name profile ->
  MissionProfile.missionProfileArn profile <> EmptyString ->
  stations <> [] ->
  exists satellite_id,
    index (PyStr.split "/" (Satellite.satelliteArn satellite)) 1
    = Ok satellite_id
    /\ get_contacts_selector gs_client
         {| satellite_NORAD_ID_answer :=
              PyStr.str_int (Satellite.noradSatelliteID satellite);
            mission_profile_name_answer := mission_profile_details profile;
            checkbox_selected_groundstations := stations |} log
       = ((log ++ [ListSatellites; ListMissionProfiles; ListMissionProfiles;
                   ListSatellites; ListGroundStations satellite_id])%list,
          Ok (MissionProfile.missionProfileArn profile,
              Satellite.satelliteArn satellite, stations)).
Proof.
  intros Hsats Hprofs Hstations Hsat Hids Hslash Hprof Hnames Hdashes Hstrip
    Harn Hsome.
  assert (Hsatarn : Satellite.satelliteArn satellite <> EmptyString).
  { intros Hempty. rewrite Hempty in Hslash. discriminate Hslash. }
  assert (Hne1 : satellites <> []).
  { intros Hnone. rewrite Hnone in Hsat. destruct Hsat. }
  assert (Hne2 : profiles <> []).
  { intros Hnone. rewrite Hnone in Hprof. destruct Hprof. }
  destruct (split_mission_profile_details profile Hdashes)
    as (n & piece & pieces & Hsplit).
  destruct (split_slash_second _ EmptyString Hslash) as [satellite_id Hid].
  exists satellite_id. split; [exact Hid|].
  set (log1 := (log ++ [ListSatellites])%list).
  set (log2 := (log1 ++ [ListMissionProfiles])%list).
  set (log3 := (log2 ++ [ListMissionProfiles])%list).
  set (log4 := (log3 ++ [ListSatellites])%list).
  destruct (Hstations log4 satellite_id) as (names & Hnames4 & Hne3).
  unfold get_contacts_selector.
  cbn [satellite_NORAD_ID_answer mission_profile_name_answer
       checkbox_selected_groundstations].
  rewrite str_int_not_exit, mission_profile_details_not_exit.
  rewrite py_int_str_int, Hsplit.
  rewrite (bind_returns _ _ log log1 _
             (get_satellite_list_run gs_client satellites log (Hsats log)
                Hne1)).
  rewrite (bind_returns _ _ log1 log1 tt eq_refl).
  rewrite (bind_returns _ _ log1 log1 _ eq_refl).
  rewrite (bind_returns _ _ log1 log2 _
             (get_mission_profile_list_run gs_client profiles log1
                (Hprofs log1) Hne2)).
  rewrite (bind_returns _ _ log2 log2 tt eq_refl).
  cbn [index nth_error].
  rewrite (bind_returns _ _ log2 log2 _ eq_refl).
  rewrite (bind_returns _ _ log2 log2 _ eq_refl).
  unfold PyStr.strip at 1. rewrite rstrip_padded.
  fold (PyStr.strip (MissionProfile.name profile)). rewrite Hstrip.
  rewrite (bind_returns _ _ log2 log3 _
             (get_mission_profile_arn_listed gs_client profiles profile log2
                (Hprofs log2) Hprof Hnames Harn)).
  rewrite (bind_returns _ _ log3 log4 _
             (get_satellite_arn_listed gs_client satellites satellite log3
                (Hsats log3) Hsat Hids Hsatarn)).
  unfold PyStr.split. rewrite Hid.
  rewrite (bind_returns _ _ log4 log4 _ eq_refl).
  rewrite (bind_returns _ _ log4 _ _
             (get_onboarded_ground_stations_run gs_client satellite_id
                (PyStr.strip piece) names log4 Hnames4 Hne3)).
  destruct stations as [|station stations]; [congruence|].
  rewrite (bind_returns _ _ _ _ tt eq_refl).
  unfold ret. subst log4 log3 log2 log1. rewrite <- !app_assoc. reflexivity.
Qed.

Lemma selector_resolves_witness :
  exists satellite_id,
    index (PyStr.split "/"
             "arn:aws:groundstation::111122223333:satellite/55555555-6666") 1
    = Ok satellite_id
    /\ get_contacts_selector (sample_client []) second_selector_answers []
       = ([ListSatellites; ListMissionProfiles; ListMissionProfiles;
           ListSatellites; ListGroundStations satellite_id],
          Ok ("arn:aws:groundstation:us-east-2:111122223333:mission-profile/77777777-8888",
              "arn:aws:groundstation::111122223333:satellite/55555555-6666",
              ["Ohio 1"])).
Proof.
  apply (selector_resolves (sample_client [])
           sample_satellites sample_mission_profiles
           {| Satellite.noradSatelliteID := 27424;
              Satellite.satelliteArn :=
                "arn:aws:groundstation::111122223333:satellite/55555555-6666" |}
           {| MissionProfile.name := "wide-band";
              MissionProfile.missionProfileArn :=
                "arn:aws:groundstation:us-east-2:111122223333:mission-profile/77777777-8888";
              MissionProfile.region := "us-east-2" |}
           ["Ohio 1"] []).
  - reflexivity.
  - reflexivity.
  - intros log satellite_id. eexists. split; [reflexivity | discriminate].
  - simpl. right. left. reflexivity.
  - simpl. repeat constructor; simpl; intuition discriminate.
  - reflexivity.
  - simpl. right. left. reflexivity.
  - simpl. repeat constructor; simpl; intuition discriminate.
  - reflexivity.
  - reflexivity.
  - discriminate.
  - discriminate.
Defined.

(** X27. When the service lists satellites, [get_satellite_list] makes that
    one call, prints nothing and returns one choice per satellite, in
    order, and ["Exit"] after them; [int], which [get_contacts] applies to
    the answer, reads each choice back as the NORAD number of its
    satellite. *)
Theorem satellite_choices_read_back (gs_client : GroundStation.client)
    (satellites : list Satellite.t) (log : list event) :
  GroundStation.list_satellites gs_client log = Ok satellites ->
  satellites <> [] ->
  exists choices,
    get_satellite_list gs_client log
    = ((log ++ [ListSatellites])%list, Ok (choices ++ ["Exit"])%list)
    /\ map py_int choices
       = map (fun satellite => Ok (Satellite.noradSatelliteID satellite))
             satellites.
Proof.
  intros Hlist Hsome.
  exists (map (fun satellite =>
                 PyStr.str_int (Satellite.noradSatelliteID satellite))
              satellites).
  split; [apply get_satellite_list_run; assumption|].
  rewrite map_map. apply map_ext. intros satellite. apply py_int_str_int.
Qed.

Lemma satellite_choices_read_back_witness :
  exists choices,
    get_satellite_list (sample_client []) []
    = ([ListSatellites], Ok (choices ++ ["Exit"])%list)
    /\ map py_int choices
       = map (fun satellite => Ok (Satellite.noradSatelliteID satellite))
             sample_satellites.
Proof.
  apply (satellite_choices_read_back (sample_client []) sample_satellites []).
  - reflexivity.
  - discriminate.
Defined.

(** X28. When the service lists mission profiles, [get_mission_profile_list]
    makes that one call, prints nothing and returns the header, one line
    per profile, in order, and ["Exit"]; for a profile whose name has no
    [--], the line has two pieces between [--] at least, and the first
    piece, stripped as [get_contacts] does, is the stripped name. *)
Theorem mission_profile_choices_read_back (gs_client : GroundStation.client)
    (profiles : list MissionProfile.t) (log : list event) :
  GroundStation.list_mission_profiles gs_client log = Ok profiles ->
  profiles <> [] ->
  exists lines,
    get_mission_profile_list gs_client log
    = ((log ++ [ListMissionProfiles])%list,
       Ok (Separator profile_header
           :: map Choice lines ++ [Choice "Exit"])%list)
    /\ Forall2 (fun profile line =>
                  occurs "--" (MissionProfile.name profile) = false ->
                  exists piece region_piece,
                    index (PyStr.split "--" line) 0 = Ok piece
                    /\ PyStr.strip piece
                       = PyStr.strip (MissionProfile.name profile)
                    /\ index (PyStr.split "--" line) 1 = Ok region_piece)
               profiles lines.
Proof.
  intros Hlist Hsome.
  exists (map mission_profile_details profiles).
  split; [apply get_mission_profile_list_run; assumption|].
  clear Hlist Hsome.
  induction profiles as [|profile profiles IH]; constructor; [|exact IH].
  intros Hfree.
  destruct (split_mission_profile_details profile Hfree)
    as (n & piece & pieces & ->).
  exists (MissionProfile.name profile ++ spaces n), piece.
  repeat split. unfold PyStr.strip. rewrite rstrip_padded. reflexivity.
Qed.

Lemma mission_profile_choices_read_back_witness :
  exists lines,
    get_mission_profile_list (sample_client []) []
    = ([ListMissionProfiles],
       Ok (Separator profile_header
           :: map Choice lines ++ [Choice "Exit"])%list)
    /\ Forall2 (fun profile line =>
                  occurs "--" (MissionProfile.name profile) = false ->
                  exists piece region_piece,
                    index (PyStr.split "--" line) 0 = Ok piece
                    /\ PyStr.strip piece
                       = PyStr.strip (MissionProfile.name profile)
                    /\ index (PyStr.split "--" line) 1 = Ok region_piece)
               sample_mission_profiles lines.
Proof.
  apply (mission_profile_choices_read_back (sample_client [])
           sample_mission_profiles []).
  - reflexivity.
  - discriminate.
Defined.
